(** * Environment selection and provider resolution (garden-service)

    A shallow embedding of
    - [ResolveProviderTask] (tasks/resolve-provider.ts, carried at the end of
      src/garden-service/test/unit/src/cloud/auth.ts), translated from the
      source, and
    - [resolveProjectConfig], [pickEnvironment] and [parseEnvironment]
      (config/project.ts), whose implementation is not part of the sources at
      hand: they are modelled from the specification (sections 4.1 to 4.5)
      and checked against the expectations of the unit tests in
      src/unnamed/part_000. *)

From stdpp Require Import gmap strings list.
From Stdlib Require Import ZArith Ascii.

Set Warnings "-register-all".

Open Scope string_scope.
Open Scope list_scope.

(** ** Errors *)

(** exceptions.ts is not part of the sources; the three error classes used by
    the code are kept, together with their message and the name-valued
    entries of their [detail] object.  [ExternalError] stands for whatever a
    plugin handler or the template engine raises. *)
Inductive ErrorType :=
| ConfigurationError
| ParameterError
| PluginError
| ExternalError.

Record GardenError := mkError {
  errType : ErrorType;
  message : string;
  detail : list (string * string)
}.

Definition result (A : Type) : Type := GardenError + A.

Definition throw {A} (e : GardenError) : result A := inl e.
Definition ok {A} (a : A) : result A := inr a.

Definition rbind {A B} (m : result A) (f : A -> result B) : result B :=
  match m with
  | inl e => inl e
  | inr a => f a
  end.

(** [s] occurs in [msg]. *)
Definition mentions (msg s : string) : Prop :=
  exists pre post, msg = pre +:+ s +:+ post.

(** ** JSON values *)

Module Json.

Unset Elimination Schemes.
Inductive json : Type :=
| JNull
| JBool (b : bool)
| JNum (n : Z)
| JStr (s : string)
| JArr (l : list json)
| JObj (o : list (string * json)).
Set Elimination Schemes.

(** A JS object: keys in insertion order. *)
Definition jobject : Type := list (string * json).

Section Induction.
Variable P : json -> Prop.
Hypothesis Hnull : P JNull.
Hypothesis Hbool : forall b, P (JBool b).
Hypothesis Hnum : forall n, P (JNum n).
Hypothesis Hstr : forall s, P (JStr s).
Hypothesis Harr : forall l, Forall P l -> P (JArr l).
Hypothesis Hobj : forall o, Forall (fun kv => P (snd kv)) o -> P (JObj o).

Fixpoint json_ind (j : json) : P j :=
  match j with
  | JNull => Hnull
  | JBool b => Hbool b
  | JNum n => Hnum n
  | JStr s => Hstr s
  | JArr l =>
      Harr l ((fix go (l : list json) : Forall P l :=
                 match l with
                 | [] => @List.Forall_nil _ P
                 | x :: l' => @List.Forall_cons _ P x l' (json_ind x) (go l')
                 end) l)
  | JObj o =>
      Hobj o ((fix go (o : list (string * json)) : Forall (fun kv => P (snd kv)) o :=
                 match o with
                 | [] => @List.Forall_nil _ _
                 | kv :: o' => @List.Forall_cons _ _ kv o' (json_ind (snd kv)) (go o')
                 end) o)
  end.
End Induction.

(** [o[k]] *)
Fixpoint obj_get (k : string) (o : jobject) : option json :=
  match o with
  | [] => None
  | (k', v) :: o' => if decide (k = k') then Some v else obj_get k o'
  end.

(** [o[k] = v]: an existing key keeps its place, a new key goes last. *)
Fixpoint obj_set (k : string) (v : json) (o : jobject) : jobject :=
  match o with
  | [] => [(k, v)]
  | (k', v') :: o' =>
      if decide (k = k') then (k', v) :: o' else (k', v') :: obj_set k v o'
  end.

(** [delete o[k]] *)
Fixpoint obj_delete (k : string) (o : jobject) : jobject :=
  match o with
  | [] => []
  | (k', v') :: o' =>
      if decide (k = k') then obj_delete k o' else (k', v') :: obj_delete k o'
  end.

Definition keys (o : jobject) : list string := map fst o.

Definition isNull (j : json) : bool :=
  match j with JNull => true | _ => false end.

(** *** JSON Merge Patch (RFC 7396)

    Modelled from the spec: the [apply] function of the json-merge-patch
    package is not part of the sources; section 4.3 and the glossary give
    its algebra: a patch object's keys overwrite the target's matching keys,
    [null] deletes a key, nested objects merge recursively, anything that is
    not an object replaces the target outright. *)
Fixpoint apply (target patch : json) {struct patch} : json :=
  match patch with
  | JObj ps =>
      let fix go (acc : jobject) (ps : list (string * json)) {struct ps} : jobject :=
        match ps with
        | [] => acc
        | (k, v) :: ps' =>
            if isNull v then go (obj_delete k acc) ps'
            else go (obj_set k (apply (default JNull (obj_get k acc)) v) acc) ps'
        end in
      JObj (go (match target with JObj ts => ts | _ => [] end) ps)
  | _ => patch
  end.

Definition as_obj (j : json) : jobject :=
  match j with JObj o => o | _ => [] end.

Definition isScalar (j : json) : bool :=
  match j with JObj _ | JArr _ => false | _ => true end.

(** One step of the loop over the patch's keys. *)
Definition apply_key (acc : jobject) (kv : string * json) : jobject :=
  if isNull (snd kv) then obj_delete (fst kv) acc
  else obj_set (fst kv) (apply (default JNull (obj_get (fst kv) acc)) (snd kv)) acc.

Definition apply_obj (target patch : jobject) : jobject :=
  fold_left apply_key patch target.

(** *** Deep merge of variables

    Modelled from the spec: section 4.1 (the merge function itself is not
    part of the sources).  The later source wins; mappings merge key by key,
    sequences merge position by position, anything else is replaced. *)
Fixpoint deepMerge (earlier later : json) {struct later} : json :=
  match later with
  | JObj ls =>
      match earlier with
      | JObj es =>
          let fix go (acc : jobject) (ls : list (string * json)) {struct ls} : jobject :=
            match ls with
            | [] => acc
            | (k, v) :: ls' =>
                go (obj_set k (match obj_get k acc with
                               | Some e => deepMerge e v
                               | None => v
                               end) acc) ls'
            end in
          JObj (go es ls)
      | _ => later
      end
  | JArr la =>
      match earlier with
      | JArr ea =>
          let fix go (ea : list json) (la : list json) {struct la} : list json :=
            match la with
            | [] => ea
            | y :: la' =>
                match ea with
                | [] => y :: go [] la'
                | x :: ea' => deepMerge x y :: go ea' la'
                end
            end in
          JArr (go ea la)
      | _ => later
      end
  | _ => later
  end.

Definition merge_key (acc : jobject) (kv : string * json) : jobject :=
  obj_set (fst kv)
          (match obj_get (fst kv) acc with
           | Some e => deepMerge e (snd kv)
           | None => snd kv
           end) acc.

Definition merge_obj (earlier later : jobject) : jobject :=
  fold_left merge_key later earlier.

Fixpoint merge_arr (ea la : list json) {struct la} : list json :=
  match la with
  | [] => ea
  | y :: la' =>
      match ea with
      | [] => y :: merge_arr [] la'
      | x :: ea' => deepMerge x y :: merge_arr ea' la'
      end
  end.

(** [merge({}, s1, ..., sn)]: later sources override earlier ones. *)
Definition mergeVariables (sources : list jobject) : jobject :=
  fold_left merge_obj sources [].

(** *** The merge on mappings that can be written to

    Modelled from the spec: section 4.1 ends with "No mutation of input
    sources".  A mapping that can be mutated is a cell of a heap and is
    known by its address; [merge] gets the addresses of its sources,
    allocates an empty mapping and merges each source into it in turn, so
    that the new cell is the only one it assigns to. *)
Definition Ref : Type := nat.
Definition Heap : Type := list jobject.

Definition alloc (o : jobject) (h : Heap) : Ref * Heap := (length h, h ++ [o]).

(** [target = merge(target, source)], written to the cell of [target]. *)
Definition mergeCell (target source : Ref) (h : Heap) : option Heap :=
  match h !! target, h !! source with
  | Some t, Some s => Some (<[target := merge_obj t s]> h)
  | _, _ => None
  end.

Fixpoint mergeEach (target : Ref) (sources : list Ref) (h : Heap) : option Heap :=
  match sources with
  | [] => Some h
  | s :: sources' =>
      match mergeCell target s h with
      | Some h' => mergeEach target sources' h'
      | None => None
      end
  end.

Definition mergeStored (sources : list Ref) (h : Heap) : option (Ref * Heap) :=
  let '(target, h1) := alloc [] h in
  match mergeEach target sources h1 with
  | Some h' => Some (target, h')
  | None => None
  end.

End Json.

Import Json.

(** ** Provider configuration fragments *)

(** [ProviderConfig] (config/provider.ts): a name, an optional list of the
    environments the fragment applies to, and any further keys, which only
    the owning plugin understands. *)
Record ProviderConfig := mkProviderConfig {
  name : string;
  environments : option (list string);
  settings : jobject
}.

(** ** Project configuration and environment selection *)

Module Project.

Inductive Namespacing := NsOptional | NsRequired | NsDisabled.

Record EnvironmentConfig := mkEnvironmentConfig {
  env_name : string;
  env_namespacing : option Namespacing;
  env_production : option bool;
  env_providers : option (list ProviderConfig);
  env_varfile : option string;
  env_variables : jobject
}.

Record ProjectConfig := mkProjectConfig {
  proj_name : string;
  proj_path : string;
  proj_defaultEnvironment : string;
  proj_environments : list EnvironmentConfig;
  proj_outputs : option (list json);
  proj_providers : list ProviderConfig;
  proj_sources : option (list json);
  proj_varfile : option string;
  proj_variables : jobject
}.

Record ResolvedEnvironment := mkResolvedEnvironment {
  environmentName : string;
  namespace : option string;
  providers : list ProviderConfig;
  production : bool;
  variables : jobject
}.

(** *** 4.3 Provider Patch Merger *)

(** The providers every environment has; the tests expect
    [{ name: "exec" }, { name: "container" }] for a project without
    providers. *)
Definition fixedPlugins : list string := ["exec"; "container"].

Definition fixedProviders : list ProviderConfig :=
  map (fun n => mkProviderConfig n None []) fixedPlugins.

(** Step 1: a fragment applies when it has no [environments] list or when
    the list has the target environment. *)
Definition appliesTo (environment : string) (p : ProviderConfig) : bool :=
  match environments p with
  | None => true
  | Some envs => bool_decide (environment ∈ envs)
  end.

(** JSON Merge Patch of one fragment onto the accumulated one, key by key
    of the whole fragment: [name] and [environments] are not objects and
    replace the target's when the patch has them. *)
Definition applyProvider (target patch : ProviderConfig) : ProviderConfig :=
  {| name := name patch;
     environments := match environments patch with
                     | Some envs => Some envs
                     | None => environments target
                     end;
     settings := apply_obj (settings target) (settings patch) |}.

(** Steps 2 and 3, one fragment at a time: the first fragment of a name
    opens its group at the end of the list, a later one is patched onto
    the group where it stands. *)
Fixpoint upsert (p : ProviderConfig) (merged : list ProviderConfig) : list ProviderConfig :=
  match merged with
  | [] => [p]
  | m :: ms =>
      if decide (name m = name p) then applyProvider m p :: ms
      else m :: upsert p ms
  end.

Definition mergeInto (merged all : list ProviderConfig) : list ProviderConfig :=
  fold_left (fun acc p => upsert p acc) all merged.

Definition mergeProviders (all : list ProviderConfig) : list ProviderConfig :=
  mergeInto [] all.

(** Modelled from the spec: section 4.3, for the provider part of
    [pickEnvironment], which is not part of the sources.  Step 4 follows the
    unit test "should correctly merge provider configurations using JSON
    Merge Patch", which expects a user fragment named [container] to land in
    the built-in entry: the built-in providers head the list that is
    grouped and patched. *)
Definition pickProviders (environment : string) (fragments : list ProviderConfig)
  : list ProviderConfig :=
  mergeProviders (fixedProviders ++ filter (fun p => appliesTo environment p = true) fragments).

(** Section 4.3 read to the letter: the built-in providers are put in front
    of the merged user providers and nothing is patched into them. *)
Definition pickProviders_spec (environment : string) (fragments : list ProviderConfig)
  : list ProviderConfig :=
  fixedProviders ++ mergeProviders (filter (fun p => appliesTo environment p = true) fragments).

(** The distinct elements of a list in the order of their first
    occurrence. *)
Fixpoint firstSeen (l : list string) : list string :=
  match l with
  | [] => []
  | x :: l' => x :: filter (fun y => y <> x) (firstSeen l')
  end.

(** The entry of a name in a provider list. *)
Fixpoint getProvider (n : string) (l : list ProviderConfig) : option ProviderConfig :=
  match l with
  | [] => None
  | p :: l' => if decide (name p = n) then Some p else getProvider n l'
  end.

(** A group of fragments patched in list order onto its first one. *)
Definition foldGroup (group : list ProviderConfig) : option ProviderConfig :=
  match group with
  | [] => None
  | first :: later => Some (fold_left applyProvider later first)
  end.

Definition named (n : string) (l : list ProviderConfig) : list ProviderConfig :=
  filter (fun p => name p = n) l.

Definition applicable (environment : string) (fragments : list ProviderConfig)
  : list ProviderConfig :=
  filter (fun p => appliesTo environment p = true) fragments.

(** *** 4.4 Environment Selector *)

Fixpoint splitOn (sep : Ascii.ascii) (s : string) : list string :=
  match s with
  | EmptyString => [""]
  | String c s' =>
      if decide (c = sep) then "" :: splitOn sep s'
      else match splitOn sep s' with
           | [] => [String c ""]
           | seg :: segs => String c seg :: segs
           end
  end.

Definition isLabelChar (c : Ascii.ascii) : bool :=
  let n := Ascii.nat_of_ascii c in
  (Nat.leb 97 n && Nat.leb n 122) || (Nat.leb 48 n && Nat.leb n 57) || Nat.eqb n 45.

Fixpoint allChars (f : Ascii.ascii -> bool) (s : string) : bool :=
  match s with
  | EmptyString => true
  | String c s' => f c && allChars f s'
  end.

(** Modelled from the spec: 4.4, "each segment must match a DNS-label-like
    pattern (lowercase alphanumerics and hyphens)". *)
Definition isValidLabel (s : string) : bool :=
  negb (bool_decide (s = "")) && allChars isLabelChar s.

Definition invalidEnvironment (env reason : string) : GardenError :=
  mkError ConfigurationError
          ("Invalid environment specified (" +:+ env +:+ "): " +:+ reason)
          [("environment", env)].

(** Modelled from the spec: 4.4 [parseEnvironment]. *)
Definition parseEnvironment (env : string) : result (string * option string) :=
  let segments := splitOn "."%char env in
  if bool_decide (2 < length segments) then
    throw (invalidEnvironment env "may only contain a single delimiter")
  else if negb (forallb isValidLabel segments) then
    throw (invalidEnvironment env
             "must be a valid environment name or <namespace>.<environment>")
  else
    match segments with
    | [e] => ok (e, None)
    | [ns; e] => ok (e, Some ns)
    | _ => throw (invalidEnvironment env
                    "must be a valid environment name or <namespace>.<environment>")
    end.

Definition findEnvironment (environment : string) (envs : list EnvironmentConfig)
  : option EnvironmentConfig :=
  snd <$> list_find (fun e => env_name e = environment) envs.

Definition checkNamespacing (environment : string) (policy : option Namespacing)
    (ns : option string) : result unit :=
  match default NsOptional policy, ns with
  | NsRequired, None =>
      throw (mkError ConfigurationError
               ("Environment " +:+ environment +:+
                " requires a namespace, but none was specified.")
               [("environmentName", environment)])
  | NsDisabled, Some n =>
      throw (mkError ConfigurationError
               ("Environment " +:+ environment +:+
                " does not allow namespacing, but namespace '" +:+ n +:+
                "' was specified.")
               [("environmentName", environment); ("namespace", n)])
  | _, _ => ok tt
  end.

Definition varfileNotFound (path : string) : GardenError :=
  mkError ConfigurationError
          ("Could not find varfile at path '" +:+ path +:+ "'") [("path", path)].

Section Varfiles.
(** The varfiles on disk under a project root, already parsed: [None] when
    there is no file at the path. *)
Variable fs : string -> string -> option jobject.
(** The two default paths ([defaultVarfilePath], [defaultEnvVarfilePath]
    of config/project.ts); the tests only import them. *)
Variable defaultVarfilePath : string.
Variable defaultEnvVarfilePath : string -> string.

(** Modelled from the spec: 4.2 [load(path, required)]. *)
Definition loadVarfile (projectRoot path : string) (required : bool) : result jobject :=
  match fs projectRoot path with
  | Some vars => ok vars
  | None =>
      if required then throw (varfileNotFound path) else ok []
  end.

(** A varfile is required when the configuration names one that is not
    the default. *)
Definition varfilePath (configured : option string) (defaultPath : string) : string * bool :=
  match configured with
  | Some p => (p, negb (bool_decide (p = defaultPath)))
  | None => (defaultPath, false)
  end.

Definition loadConfiguredVarfile (projectRoot : string) (configured : option string)
    (defaultPath : string) : result jobject :=
  let '(p, required) := varfilePath configured defaultPath in
  loadVarfile projectRoot p required.

(** Modelled from the spec: 4.4 [pickEnvironment]; the function is not
    part of the sources, its unit tests are (src/unnamed/part_000). *)
Definition pickEnvironment (config : ProjectConfig) (envString : string)
  : result ResolvedEnvironment :=
  rbind (parseEnvironment envString) (fun '(environment, ns) =>
  match findEnvironment environment (proj_environments config) with
  | None =>
      throw (mkError ParameterError
               ("Project " +:+ proj_name config +:+
                " does not specify environment " +:+ environment)
               [("projectName", proj_name config); ("environmentName", environment)])
  | Some environmentConfig =>
      rbind (checkNamespacing environment (env_namespacing environmentConfig) ns) (fun _ =>
      rbind (loadConfiguredVarfile (proj_path config) (proj_varfile config)
               defaultVarfilePath) (fun projectVarfileVars =>
      rbind (loadConfiguredVarfile (proj_path config) (env_varfile environmentConfig)
               (defaultEnvVarfilePath environment)) (fun envVarfileVars =>
      ok {| environmentName := environment;
            namespace := ns;
            providers := pickProviders environment (proj_providers config);
            production := default false (env_production environmentConfig);
            variables := mergeVariables [proj_variables config; projectVarfileVars;
                                         env_variables environmentConfig;
                                         envVarfileVars] |})))
  end).
End Varfiles.

Definition withProviders (provs : list ProviderConfig) (config : ProjectConfig)
  : ProjectConfig :=
  {| proj_name := proj_name config;
     proj_path := proj_path config;
     proj_defaultEnvironment := proj_defaultEnvironment config;
     proj_environments := proj_environments config;
     proj_outputs := proj_outputs config;
     proj_providers := provs;
     proj_sources := proj_sources config;
     proj_varfile := proj_varfile config;
     proj_variables := proj_variables config |}.

(** *** 4.5 Project Config Resolver *)

Section Templates.
(** The template engine (template-string.ts, an external collaborator):
    the context of a project and the resolution of one string, which
    yields any value or fails on an unknown reference. *)
Variable TemplateContext : Type.
Variable ProjectConfigContext : string -> string -> string -> TemplateContext.
Variable resolveTemplateString : TemplateContext -> string -> result json.

(** The engine goes through arrays and the values of objects. *)
Fixpoint resolveTemplateStrings (ctx : TemplateContext) (j : json) {struct j} : result json :=
  match j with
  | JStr s => resolveTemplateString ctx s
  | JArr l =>
      let fix go (l : list json) {struct l} : result (list json) :=
        match l with
        | [] => ok []
        | x :: l' =>
            rbind (resolveTemplateStrings ctx x) (fun x' =>
            rbind (go l') (fun l'' => ok (x' :: l'')))
        end in
      rbind (go l) (fun l' => ok (JArr l'))
  | JObj o =>
      let fix go (o : list (string * json)) {struct o} : result (list (string * json)) :=
        match o with
        | [] => ok []
        | (k, v) :: o' =>
            rbind (resolveTemplateStrings ctx v) (fun v' =>
            rbind (go o') (fun o'' => ok ((k, v') :: o'')))
        end in
      rbind (go o) (fun o' => ok (JObj o'))
  | _ => ok j
  end.

Fixpoint mapResult {A B} (f : A -> result B) (l : list A) : result (list B) :=
  match l with
  | [] => ok []
  | x :: l' => rbind (f x) (fun y => rbind (mapResult f l') (fun ys => ok (y :: ys)))
  end.

Definition resolveList (ctx : TemplateContext) (l : list json) : result (list json) :=
  mapResult (resolveTemplateStrings ctx) l.

Definition resolveObject (ctx : TemplateContext) (o : jobject) : result jobject :=
  mapResult (fun kv => rbind (resolveTemplateStrings ctx (snd kv))
                             (fun v => ok (fst kv, v))) o.

(** A field the schema types as a string has to resolve to one. *)
Definition resolveStringField (ctx : TemplateContext) (field s : string) : result string :=
  rbind (resolveTemplateString ctx s) (fun j =>
  match j with
  | JStr s' => ok s'
  | _ => throw (mkError ConfigurationError (field +:+ " must be a string") [("key", field)])
  end).

Definition resolveOptionalString (ctx : TemplateContext) (field : string) (s : option string)
  : result (option string) :=
  match s with
  | None => ok None
  | Some s => rbind (resolveStringField ctx field s) (fun s' => ok (Some s'))
  end.

(** What a successful [resolveOptionalString] relates: a string field
    that is there resolves to a string, one that is not there stays away. *)
Definition resolvedOptionalString (ctx : TemplateContext) (raw resolved : option string)
  : Prop :=
  match raw with
  | None => resolved = None
  | Some s => exists s', resolveTemplateString ctx s = inr (JStr s') /\ resolved = Some s'
  end.

Variable defaultVarfilePath : string.
(** The environments of a project that declares none, and the name that
    [defaultEnvironment] falls back to ([defaultEnvironments] of
    config/project.ts; the tests only import it). *)
Variable defaultEnvironments : list EnvironmentConfig.
Variable defaultEnvironmentName : string.

(** Template strings of an environment, its legacy provider fragments
    left as they are; then the defaults of the schema. *)
Definition resolveEnvironment (ctx : TemplateContext) (e : EnvironmentConfig)
  : result EnvironmentConfig :=
  rbind (resolveOptionalString ctx "varfile" (env_varfile e)) (fun varfile =>
  rbind (resolveObject ctx (env_variables e)) (fun vars =>
  ok {| env_name := env_name e;
        env_namespacing := Some (default NsOptional (env_namespacing e));
        env_production := Some (default false (env_production e));
        env_providers := env_providers e;
        env_varfile := varfile;
        env_variables := vars |})).

(** Legacy fragments of an environment in top-level form. *)
Definition convertLegacyProviders (e : EnvironmentConfig) : list ProviderConfig :=
  map (fun p => {| name := name p;
                   environments := Some [env_name e];
                   settings := settings p |})
      (default [] (env_providers e)).

Definition stripLegacyProviders (e : EnvironmentConfig) : EnvironmentConfig :=
  {| env_name := env_name e;
     env_namespacing := env_namespacing e;
     env_production := env_production e;
     env_providers := Some [];
     env_varfile := env_varfile e;
     env_variables := env_variables e |}.

(** Modelled from the spec: 4.5 [resolveProjectConfig]; the function is
    not part of the sources, its unit tests are (src/unnamed/part_000).
    Identifiers (the names of the project and of its environments) and the
    root path are taken as they are. *)
Definition resolveProjectConfig (config : ProjectConfig) (artifactsPath username : string)
  : result ProjectConfig :=
  let ctx := ProjectConfigContext (proj_name config) artifactsPath username in
  rbind (resolveStringField ctx "defaultEnvironment" (proj_defaultEnvironment config))
    (fun defaultEnvironment =>
  rbind (resolveList ctx (default [] (proj_outputs config))) (fun outputs =>
  rbind (resolveList ctx (default [] (proj_sources config))) (fun sources =>
  rbind (resolveOptionalString ctx "varfile" (proj_varfile config)) (fun varfile =>
  rbind (resolveObject ctx (proj_variables config)) (fun vars =>
  rbind (mapResult (resolveEnvironment ctx) (proj_environments config)) (fun envs =>
  let providers :=
    proj_providers config ++ flat_map convertLegacyProviders envs in
  let environments :=
    match envs with
    | [] => defaultEnvironments
    | _ => map stripLegacyProviders envs
    end in
  ok {| proj_name := proj_name config;
        proj_path := proj_path config;
        proj_defaultEnvironment :=
          if bool_decide (defaultEnvironment = "") then
            match envs with
            | [] => defaultEnvironmentName
            | e :: _ => env_name e
            end
          else defaultEnvironment;
        proj_environments := environments;
        proj_outputs := Some outputs;
        proj_providers := providers;
        proj_sources := Some sources;
        proj_varfile := Some (default defaultVarfilePath varfile);
        proj_variables := vars |})))))).
End Templates.

End Project.

(** ** The provider resolution task (tasks/resolve-provider.ts) *)

Module Task.

(** [EnvironmentStatus] (types/plugin/provider/getEnvironmentStatus.ts). *)
Record EnvironmentStatus := mkStatus {
  ready : bool;
  outputs : jobject
}.

(** Modelled from the spec: 4.6, the default status is "ready with no
    detail" (the constant itself is not part of the sources). *)
Definition defaultEnvironmentStatus : EnvironmentStatus :=
  {| ready := true; outputs := [] |}.

Definition ModuleConfig : Type := json.

(** [Provider] (config/provider.ts). *)
Inductive Provider : Type := mkProvider {
  prov_name : string;
  prov_dependencies : list Provider;
  prov_moduleConfigs : list ModuleConfig;
  prov_config : ProviderConfig;
  prov_status : EnvironmentStatus
}.

(** Modelled from the spec: section 3, a Provider is its name, final
    configuration, dependencies, module configs and status
    ([providerFromConfig] is not part of the sources). *)
Definition providerFromConfig (config : ProviderConfig) (dependencies : list Provider)
    (moduleConfigs : list ModuleConfig) (status : EnvironmentStatus) : Provider :=
  {| prov_name := name config;
     prov_dependencies := dependencies;
     prov_moduleConfigs := moduleConfigs;
     prov_config := config;
     prov_status := status |}.

(** [omit(config, "path")] and [config.path = root]. *)
Definition omitPath (config : ProviderConfig) : ProviderConfig :=
  {| name := name config;
     environments := environments config;
     settings := obj_delete "path" (settings config) |}.

Definition setPath (config : ProviderConfig) (root : string) : ProviderConfig :=
  {| name := name config;
     environments := environments config;
     settings := obj_set "path" (JStr root) (settings config) |}.

(** The schema engine (joi and config/validation.ts), an external
    collaborator: a schema cannot be looked into, [validateWithPath] gives
    back the validated value, with defaults filled in, or fails. *)
Class SchemaEngine := {
  Schema : Type;
  joi_object : Schema;
  unknown : Schema -> bool -> Schema;
  validateWithPath :
    ProviderConfig -> Schema -> forall (path projectRoot configType : string),
    result ProviderConfig
}.

Section ResolveProvider.
Context `{SchemaEngine}.

(** [GardenPlugin] (types/plugin/plugin.ts), without its handlers, which
    the action router looks up by name. *)
Record GardenPlugin := mkPlugin {
  plugin_name : string;
  base : option string;
  dependencies : list string;
  configSchema : option Schema
}.

Definition PluginMap : Type := gmap string GardenPlugin.

(** [keyBy(plugins, "name")] (lodash): the own properties of the plain
    object it returns, one for each name, where a later plugin of the same
    name wins. The code reads the object with [plugins[depName]], which is
    [getProperty] below, and hands it to [getPluginBases] and
    [getPluginBaseNames]. *)
Definition keyByName (plugins : list GardenPlugin) : PluginMap :=
  fold_left (fun m p => <[plugin_name p := p]> m) plugins ∅.

(** [keyBy] returns a plain object, and [plugins[name]] on a plain object
    goes up to [Object.prototype] when the object has no property of the
    name: it then finds the member that every object inherits, if the name
    is one of these, and is [undefined] otherwise. *)
Definition objectPrototypeMembers : list string :=
  ["constructor"; "__defineGetter__"; "__defineSetter__"; "hasOwnProperty";
   "__lookupGetter__"; "__lookupSetter__"; "isPrototypeOf"; "propertyIsEnumerable";
   "toString"; "valueOf"; "__proto__"; "toLocaleString"].

Inductive PropertyValue :=
| OwnPlugin (p : GardenPlugin)
| InheritedMember (member : string)
| Undefined.

Definition getProperty (plugins : PluginMap) (n : string) : PropertyValue :=
  match plugins !! n with
  | Some p => OwnPlugin p
  | None =>
      if bool_decide (n ∈ objectPrototypeMembers) then InheritedMember n else Undefined
  end.

(** [ConfigureProviderParams] and [ConfigureProviderResult]
    (types/plugin/provider/configureProvider.ts). *)
Record ConfigureProviderParams := mkConfigureParams {
  cp_environmentName : string;
  cp_namespace : option string;
  cp_pluginName : string;
  cp_config : ProviderConfig;
  cp_projectName : string;
  cp_projectRoot : string;
  cp_dependencies : list Provider
}.

Record ConfigureProviderResult := mkConfigureResult {
  cr_config : ProviderConfig;
  cr_moduleConfigs : option (list ModuleConfig)
}.

Record PrepareEnvironmentParams := mkPrepareParams {
  pe_ctx : Provider;
  pe_force : bool;
  pe_status : EnvironmentStatus
}.

(** The action router of the Garden instance: [configureProvider], and the
    handlers that [getActionHandler] finds for a plugin name, if any. *)
Record ActionRouter := mkRouter {
  configureProvider : ConfigureProviderParams -> result ConfigureProviderResult;
  getEnvironmentStatusHandler : string -> option (Provider -> result EnvironmentStatus);
  prepareEnvironmentHandler :
    string -> option (PrepareEnvironmentParams -> result EnvironmentStatus)
}.

(** What the task reads from [this.garden]. *)
Record Garden := mkGarden {
  projectRoot : string;
  projectName : string;
  garden_environmentName : string;
  garden_namespace : option string;
  garden_variables : jobject;
  secrets : jobject;
  getRawProviderConfigs : list ProviderConfig;
  getPlugins : list GardenPlugin;
  getActionRouter : ActionRouter
}.

(** Calls that leave the task, in the order they are made. *)
Inductive Event :=
| EvResolveTemplateStrings (config : ProviderConfig)
| EvValidate (config : ProviderConfig) (schema : Schema) (configType : string)
| EvConfigureProvider (params : ConfigureProviderParams)
| EvGetEnvironmentStatus (pluginName : string)
| EvPrepareEnvironment (pluginName : string) (force : bool) (status : EnvironmentStatus).

(** The mutable part of a run: [garden.resolvedProviders], the Resolution
    Memo, and the calls made so far. *)
Record State := mkState {
  resolvedProviders : gmap string Provider;
  trace : list Event
}.

Definition M (A : Type) : Type := State -> result A * State.

Definition ret {A} (a : A) : M A := fun st => (inr a, st).
Definition fail {A} (e : GardenError) : M A := fun st => (inl e, st).
Definition bind {A B} (m : M A) (f : A -> M B) : M B :=
  fun st => match m st with
            | (inl e, st') => (inl e, st')
            | (inr a, st') => f a st'
            end.
Definition emit (ev : Event) : M unit :=
  fun st => (inr tt, {| resolvedProviders := resolvedProviders st;
                        trace := trace st ++ [ev] |}).
Definition lift {A} (r : result A) : M A := fun st => (r, st).
Definition readMemo (n : string) : M (option Provider) :=
  fun st => (inr (resolvedProviders st !! n), st).

Notation "x <- m ;; k" := (bind m (fun x => k))
  (at level 100, m at next level, right associativity).
Notation "m ;;; k" := (bind m (fun _ => k))
  (at level 100, right associativity).

(** Imports of the task that are not part of the sources. *)
Variable resolveTemplateStrings :
  ProviderConfig -> list Provider -> jobject -> jobject -> result ProviderConfig.
Variable getProviderTemplateReferences : ProviderConfig -> list string.
Variable getPluginBases : GardenPlugin -> PluginMap -> list GardenPlugin.
Variable getPluginBaseNames : string -> PluginMap -> list string.

(** The fields of the task. *)
Variable garden : Garden.
Variable plugin : GardenPlugin.
Variable config : ProviderConfig.
Variable forceInit : bool.

Definition getName : string := name config.

Definition getDescription : string := "resolving provider " +:+ getName.

(** A task that [resolveDependencies] creates; its plugin is whatever
    [plugins[depName]] reads. *)
Record SubTask := mkSubTask {
  task_plugin : PropertyValue;
  task_config : ProviderConfig;
  task_forceInit : bool
}.

(** Match against a provider if its name matches directly, or it inherits
    from a base named [depName]. *)
Definition matchDependencies (plugins : PluginMap) (depName : string)
  : list ProviderConfig :=
  filter (fun c => name c = depName \/ depName ∈ getPluginBaseNames (name c) plugins)
         (getRawProviderConfigs garden).

Definition missingDependency (depName : string) : GardenError :=
  mkError ConfigurationError
    ("Provider '" +:+ name config +:+ "' depends on provider '" +:+ depName +:+
     "', which is not configured. " +:+
     "You need to add '" +:+ depName +:+
     "' to your project configuration for the '" +:+ name config +:+ "' to work.")
    [("config", name config); ("missingProviderName", depName)].

(** Make sure explicit dependencies are configured: the mapper runs over
    the names in order and the first rejection is the one thrown. *)
Fixpoint checkExplicitDeps (plugins : PluginMap) (deps : list string) : result unit :=
  match deps with
  | [] => ok tt
  | depName :: deps' =>
      if bool_decide (length (matchDependencies plugins depName) = 0)
      then throw (missingDependency depName)
      else checkExplicitDeps plugins deps'
  end.

Definition resolveDependencies : result (list SubTask) :=
  let explicitDeps := dependencies plugin in
  let implicitDeps :=
    filter (fun depName => depName ∉ explicitDeps)
           (getProviderTemplateReferences config) in
  let allDeps := explicitDeps ++ implicitDeps in
  let plugins := keyByName (getPlugins garden) in
  rbind (checkExplicitDeps plugins explicitDeps) (fun _ =>
  ok (flat_map (fun depName =>
                  map (fun c => {| task_plugin := getProperty plugins depName;
                                   task_config := c;
                                   task_forceInit := forceInit |})
                      (matchDependencies plugins depName))
               allDeps)).

(** [validateWithPath], recorded. *)
Definition validate (c : ProviderConfig) (schema : Schema) (configType : string)
  : M ProviderConfig :=
  emit (EvValidate c schema configType) ;;;
  lift (validateWithPath c schema (projectRoot garden) (projectRoot garden) configType).

Definition validateConfig (c : ProviderConfig) : M ProviderConfig :=
  validate (omitPath c) (default joi_object (configSchema plugin))
           "provider configuration".

(** The loop over the bases of the plugin. *)
Fixpoint validateBases (bases : list GardenPlugin) (resolvedConfig : ProviderConfig)
  : M ProviderConfig :=
  match bases with
  | [] => ret resolvedConfig
  | b :: bases' =>
      match configSchema b with
      | None => validateBases bases' resolvedConfig
      | Some schema =>
          resolvedConfig' <-
            validate (omitPath resolvedConfig) (unknown schema true)
              ("provider configuration (base schema from '" +:+ plugin_name b +:+
               "' plugin)") ;;
          validateBases bases' resolvedConfig'
      end
  end.

Definition notReady (pluginName : string) : GardenError :=
  mkError PluginError
    ("Provider " +:+ pluginName +:+
     " reports status as not ready and could not prepare the configured environment.")
    [("name", pluginName)].

Definition ensurePrepared (tmpProvider : Provider) : M EnvironmentStatus :=
  let pluginName := prov_name tmpProvider in
  let actions := getActionRouter garden in
  let ctx := tmpProvider in
  let handler :=
    default (fun _ => ok defaultEnvironmentStatus)
            (getEnvironmentStatusHandler actions pluginName) in
  emit (EvGetEnvironmentStatus pluginName) ;;;
  status <- lift (handler ctx) ;;
  status <-
    (if forceInit || negb (ready status) then
       let prepareHandler :=
         default (fun _ => ok status)
                 (prepareEnvironmentHandler actions pluginName) in
       emit (EvPrepareEnvironment pluginName forceInit status) ;;;
       lift (prepareHandler {| pe_ctx := ctx; pe_force := forceInit; pe_status := status |})
     else ret status) ;;
  if negb (ready status) then fail (notReady pluginName)
  else ret status.

(** [dependencyResults]: the outputs of the tasks this one depends on, by
    key, in the order of the object's keys. *)
Definition TaskResults : Type := list (string * Provider).

Definition process (dependencyResults : TaskResults) : M Provider :=
  let resolvedProviders := map snd dependencyResults in
  (* Return immediately if the provider has been previously resolved *)
  alreadyResolvedProviders <- readMemo (name config) ;;
  match alreadyResolvedProviders with
  | Some p => ret p
  | None =>
      emit (EvResolveTemplateStrings config) ;;;
      resolvedConfig <-
        lift (resolveTemplateStrings config resolvedProviders
                (garden_variables garden) (secrets garden)) ;;
      let providerName := name resolvedConfig in
      resolvedConfig <- validateConfig resolvedConfig ;;
      let resolvedConfig := setPath resolvedConfig (projectRoot garden) in
      let actions := getActionRouter garden in
      let params :=
        {| cp_environmentName := garden_environmentName garden;
           cp_namespace := garden_namespace garden;
           cp_pluginName := providerName;
           cp_config := resolvedConfig;
           cp_projectName := projectName garden;
           cp_projectRoot := projectRoot garden;
           cp_dependencies := resolvedProviders |} in
      emit (EvConfigureProvider params) ;;;
      configureOutput <- lift (configureProvider actions params) ;;
      resolvedConfig <- validateConfig (cr_config configureOutput) ;;
      let resolvedConfig := setPath resolvedConfig (projectRoot garden) in
      let moduleConfigs := default [] (cr_moduleConfigs configureOutput) in
      (* Validating the output config against the base plugins. *)
      let pluginsByName := keyByName (getPlugins garden) in
      let bases := getPluginBases plugin pluginsByName in
      resolvedConfig <- validateBases bases resolvedConfig ;;
      let tmpProvider :=
        providerFromConfig resolvedConfig resolvedProviders moduleConfigs
                           defaultEnvironmentStatus in
      status <- ensurePrepared tmpProvider ;;
      ret (providerFromConfig resolvedConfig resolvedProviders moduleConfigs status)
  end.

Definition record (ev : Event) (st : State) : State :=
  {| resolvedProviders := resolvedProviders st; trace := trace st ++ [ev] |}.

Definition baseConfigType (b : GardenPlugin) : string :=
  "provider configuration (base schema from '" +:+ plugin_name b +:+ "' plugin)".

(** A computation that leaves the Resolution Memo as it found it. *)
Definition keepsMemo {A} (m : M A) : Prop :=
  forall st, resolvedProviders (snd (m st)) = resolvedProviders st.

(** An insertion into the Resolution Memo: the provider is stored under its
    name.  The task has no such step; it is what a caller has to do with
    the output of [process] for the memo to hold it. *)
Definition store (n : string) (p : Provider) (st : State) : State :=
  {| resolvedProviders := <[n := p]> (resolvedProviders st); trace := trace st |}.

(** The loop over the bases read to the letter of section 4.6: every base
    validates the configuration that the handler returned. *)
Fixpoint validateBases_same (bases : list GardenPlugin) (returned : ProviderConfig)
    (resolvedConfig : ProviderConfig) : M ProviderConfig :=
  match bases with
  | [] => ret resolvedConfig
  | b :: bases' =>
      match configSchema b with
      | None => validateBases_same bases' returned resolvedConfig
      | Some schema =>
          bind (validate (omitPath returned) (unknown schema true)
                  ("provider configuration (base schema from '" +:+ plugin_name b +:+
                   "' plugin)"))
               (fun resolvedConfig' => validateBases_same bases' returned resolvedConfig')
      end
  end.

(** The part of [process] that follows the return of [configureProvider]:
    validation of the returned configuration against the schema of the
    plugin and against the schemas of its bases. *)
Definition validateOutput (bases : list GardenPlugin) (configureOutput : ConfigureProviderResult)
  : M ProviderConfig :=
  bind (validateConfig (cr_config configureOutput)) (fun resolvedConfig =>
  validateBases bases (setPath resolvedConfig (projectRoot garden))).

Definition validateOutput_same (bases : list GardenPlugin)
    (configureOutput : ConfigureProviderResult) : M ProviderConfig :=
  bind (validateConfig (cr_config configureOutput)) (fun resolvedConfig =>
  validateBases_same bases (cr_config configureOutput)
                     (setPath resolvedConfig (projectRoot garden))).

(** The schemas of the bases that have one, unknown keys allowed. *)
Definition baseSchemas (bases : list GardenPlugin) : list Schema :=
  omap (fun b => (fun s => unknown s true) <$> configSchema b) bases.

Definition validatedSchemas (evs : list Event) : list Schema :=
  omap (fun ev => match ev with EvValidate _ s _ => Some s | _ => None end) evs.

End ResolveProvider.

End Task.

(** ** Inputs of the unit tests *)

Module Examples.
Import Project.

(** A project directory without varfiles. *)
Definition noVarfiles : string -> string -> option jobject := fun _ _ => None.

Definition defaultVarfilePath : string := "garden.env".
Definition defaultEnvVarfilePath (environmentName : string) : string :=
  "garden." +:+ environmentName +:+ ".env".

Definition plainEnvironment (n : string) (vars : jobject) : EnvironmentConfig :=
  mkEnvironmentConfig n None None None None vars.

Definition testProject (envs : list EnvironmentConfig) (provs : list ProviderConfig)
    (varfile : option string) (vars : jobject) : ProjectConfig :=
  mkProjectConfig "my-project" "/tmp/foo" "default" envs None provs None varfile vars.

Definition fragment (n : string) (s : jobject) : ProviderConfig :=
  mkProviderConfig n None s.

(** "should correctly merge provider configurations using JSON Merge Patch" *)
Definition mergePatchProject : ProjectConfig :=
  testProject [plainEnvironment "default" []]
    [fragment "container" [("newKey", JStr "foo")];
     fragment "my-provider" [("a", JStr "a")];
     fragment "my-provider" [("b", JStr "b")];
     fragment "my-provider" [("a", JStr "c")]]
    None [].

(** "should remove null values in provider configs" *)
Definition nullPatchProject : ProjectConfig :=
  testProject [plainEnvironment "default" []]
    [fragment "container" [("newKey", JStr "foo")];
     fragment "my-provider" [("a", JStr "a")];
     fragment "my-provider" [("b", JStr "b")];
     fragment "my-provider" [("a", JNull)]]
    None [].

(** "should include fixed providers in output" *)
Definition emptyProject : ProjectConfig :=
  testProject [plainEnvironment "default" []] [] None [].

(** "should correctly merge project and environment variables" *)
Definition nestedVariablesProject : ProjectConfig :=
  testProject
    [plainEnvironment "default"
       [("b", JStr "env value B");
        ("c", JStr "env value C");
        ("array", JArr [JObj [("envArrayKey", JStr "env array value")]]);
        ("nested", JObj [("nestedB", JStr "nested env value B");
                         ("nestedC", JStr "nested env value C")])]]
    [] None
    [("a", JStr "project value A");
     ("b", JStr "project value B");
     ("array", JArr [JObj [("projectArrayKey", JStr "project array value")]]);
     ("nested", JObj [("nestedA", JStr "nested project value A");
                      ("nestedB", JStr "nested project value B")])].

(** "should correctly merge all variable sources in precedence order" *)
Definition precedenceVarfiles : string -> string -> option jobject :=
  fun _ path =>
    if decide (path = "garden.default.env") then
      Some [("d", JStr "D"); ("e", JStr "e")]
    else if decide (path = "garden.env") then
      Some [("b", JStr "B"); ("c", JStr "c")]
    else None.

Definition precedenceProject : ProjectConfig :=
  testProject
    [plainEnvironment "default" [("c", JStr "C"); ("d", JStr "d")]]
    [] None
    [("a", JStr "a"); ("b", JStr "b")].

(** The four sources of this test as mappings of a heap. *)
Definition precedenceHeap : Heap :=
  [ [("a", JStr "a"); ("b", JStr "b")];
    [("b", JStr "B"); ("c", JStr "c")];
    [("c", JStr "C"); ("d", JStr "d")];
    [("d", JStr "D"); ("e", JStr "e")] ].

(** "should throw if project varfile is set to non-default and it doesn't
    exist" and its environment twin *)
Definition missingProjectVarfile : ProjectConfig :=
  testProject [plainEnvironment "default" []] [] (Some "foo.env") [].

Definition missingEnvironmentVarfile : ProjectConfig :=
  testProject [mkEnvironmentConfig "default" None None None (Some "foo.env") []]
    [] None [].

(** A stand-in for the template engine: the templates it knows, by their
    text; any other string that opens a template is an unknown reference,
    the rest is plain text. *)
Definition TemplateTable : Type := list (string * json).

Fixpoint lookupTemplate (s : string) (table : TemplateTable) : option json :=
  match table with
  | [] => None
  | (t, v) :: table' => if decide (s = t) then Some v else lookupTemplate s table'
  end.

Definition tableEngine (table : TemplateTable) (s : string) : result json :=
  match lookupTemplate s table with
  | Some v => ok v
  | None =>
      if String.prefix "${" s then
        throw (mkError ConfigurationError ("Could not find key: " +:+ s) [("key", s)])
      else ok (JStr s)
  end.

Definition testContext (projectName artifactsPath username : string) : TemplateTable :=
  [("${local.env.TEST_ENV_VAR}", JStr "foo");
   ("${local.platform}", JStr "linux")].

Definition defaultEnvironments : list EnvironmentConfig :=
  [mkEnvironmentConfig "local" (Some NsOptional) (Some false) (Some []) None []].

Definition resolveTestProject (config : ProjectConfig) : result ProjectConfig :=
  resolveProjectConfig TemplateTable testContext tableEngine
    defaultVarfilePath defaultEnvironments "local" config "/tmp" "some-user".

(** "should resolve template strings on fields other than provider
    configs" *)
Definition templatedProject : ProjectConfig :=
  mkProjectConfig "my-project" "/tmp/foo" "default"
    [plainEnvironment "default" [("envVar", JStr "${local.env.TEST_ENV_VAR}")]]
    None
    [fragment "some-provider" []]
    (Some [JObj [("name", JStr "${local.env.TEST_ENV_VAR}");
                 ("repositoryUrl", JStr "git://github.com/foo/bar.git#boo")]])
    None
    [("platform", JStr "${local.platform}")].

(** "should pass through templated fields on provider configs" *)
Definition templatedProviders : ProjectConfig :=
  mkProjectConfig "my-project" "/tmp/foo" "default"
    [plainEnvironment "default" [("envVar", JStr "foo")]]
    None
    [fragment "provider-a" [("someKey", JStr "${local.env.TEST_ENV_VAR_A}")];
     mkProviderConfig "provider-b" (Some ["default"])
       [("someKey", JStr "${local.env.TEST_ENV_VAR_B}")]]
    None None [].

(** The two projects above in one: the templated fields of the first, a
    templated output, and the templated fragments of the second, whose
    references the context does not know. *)
Definition templatedThroughout : ProjectConfig :=
  mkProjectConfig "my-project" "/tmp/foo" "default"
    [plainEnvironment "default" [("envVar", JStr "${local.env.TEST_ENV_VAR}")]]
    (Some [JObj [("name", JStr "platform"); ("value", JStr "${local.platform}")]])
    [fragment "provider-a" [("someKey", JStr "${local.env.TEST_ENV_VAR_A}")];
     mkProviderConfig "provider-b" (Some ["default"])
       [("someKey", JStr "${local.env.TEST_ENV_VAR_B}")]]
    (Some [JObj [("name", JStr "${local.env.TEST_ENV_VAR}");
                 ("repositoryUrl", JStr "git://github.com/foo/bar.git#boo")]])
    None
    [("platform", JStr "${local.platform}")].

(** "should convert old-style environment/provider config to the new
    canonical form" *)
Definition legacyProject : ProjectConfig :=
  mkProjectConfig "my-project" "/tmp/foo" "default"
    [mkEnvironmentConfig "default" None None (Some [fragment "provider-b" []]) None
       [("envVar", JStr "bar")]]
    (Some [])
    [fragment "provider-a" []]
    None None
    [("defaultVar", JStr "foo")].

(** "should set defaultEnvironment to first environment if not configured" *)
Definition noEnvironmentProject : ProjectConfig :=
  mkProjectConfig "my-project" "/tmp/foo" "" [] (Some [])
    [fragment "some-provider" []] None None [].

End Examples.


(** ** Stand-ins for the collaborators of the task *)

Module Collaborators.
Import Task.

(** A schema engine over the keys of a provider configuration.
    Modelled from the spec: section 6, [validate(value, schema) -> value |
    ValidationError], "used to populate defaults and reject malformed
    configs" (joi itself is not part of the sources). *)
Record KeySchema := mkKeySchema {
  ks_required : list string;
  ks_optional : list string;
  ks_defaults : jobject;
  ks_unknown : bool
}.

Definition knownKeys (s : KeySchema) : list string :=
  ks_required s ++ ks_optional s ++ keys (ks_defaults s).

Definition populateDefault (acc : jobject) (kv : string * json) : jobject :=
  match obj_get (fst kv) acc with
  | Some _ => acc
  | None => obj_set (fst kv) (snd kv) acc
  end.

Definition validateKeys (c : ProviderConfig) (s : KeySchema)
    (path projectRoot configType : string) : result ProviderConfig :=
  let present := keys (settings c) in
  match List.find (fun k => negb (bool_decide (k ∈ present))) (ks_required s) with
  | Some k =>
      throw (mkError ConfigurationError
               ("Error validating " +:+ configType +:+ ": key " +:+ k +:+ " is required")
               [("key", k)])
  | None =>
      match List.find (fun k => negb (ks_unknown s) && negb (bool_decide (k ∈ knownKeys s)))
                      present with
      | Some k =>
          throw (mkError ConfigurationError
                   ("Error validating " +:+ configType +:+ ": key " +:+ k +:+
                    " is not allowed")
                   [("key", k)])
      | None =>
          ok {| name := name c;
                environments := environments c;
                settings := fold_left populateDefault (ks_defaults s) (settings c) |}
      end
  end.

#[export] Instance keySchemaEngine : SchemaEngine := {|
  Schema := KeySchema;
  joi_object := mkKeySchema [] [] [] true;
  unknown := fun s allow => mkKeySchema (ks_required s) (ks_optional s) (ks_defaults s) allow;
  validateWithPath := validateKeys
|}.

Section Plugins.
Context `{SchemaEngine}.

(** Modelled from the spec: section 6, the inheritance chain of a plugin is
    its [base] plugin name, recursively ([getPluginBases] of plugins.ts is
    not part of the sources); the walk is bounded by the number of loaded
    plugins.  The lookups are of own properties: the plugins of the
    examples have no base named like a member of [Object.prototype]. *)
Fixpoint pluginBasesFrom (fuel : nat) (plugin : GardenPlugin) (loadedPlugins : PluginMap)
  : list GardenPlugin :=
  match fuel with
  | O => []
  | S fuel' =>
      match base plugin with
      | None => []
      | Some b =>
          match loadedPlugins !! b with
          | None => []
          | Some basePlugin => basePlugin :: pluginBasesFrom fuel' basePlugin loadedPlugins
          end
      end
  end.

Definition getPluginBases (plugin : GardenPlugin) (loadedPlugins : PluginMap)
  : list GardenPlugin :=
  pluginBasesFrom (size loadedPlugins) plugin loadedPlugins.

Definition getPluginBaseNames (n : string) (loadedPlugins : PluginMap) : list string :=
  match loadedPlugins !! n with
  | None => []
  | Some plugin => map plugin_name (getPluginBases plugin loadedPlugins)
  end.
End Plugins.

(** The providers that the strings of a configuration refer to, for
    templates of the form ["${providers.<name>.<...>}"]. *)
Fixpoint upTo (stop : Ascii.ascii -> bool) (s : string) : string :=
  match s with
  | EmptyString => ""
  | String c s' => if stop c then "" else String c (upTo stop s')
  end.

Fixpoint dropPrefix (pre s : string) : option string :=
  match pre, s with
  | EmptyString, _ => Some s
  | String a pre', String b s' => if decide (a = b) then dropPrefix pre' s' else None
  | String _ _, EmptyString => None
  end.

Definition providerReference (s : string) : list string :=
  match dropPrefix "${providers." s with
  | Some rest =>
      [upTo (fun c => bool_decide (c = "."%char) || bool_decide (c = "}"%char)) rest]
  | None => []
  end.

Fixpoint jsonReferences (j : json) {struct j} : list string :=
  match j with
  | JStr s => providerReference s
  | JArr l => flat_map jsonReferences l
  | JObj o =>
      (fix go (o : list (string * json)) : list string :=
         match o with
         | [] => []
         | (_, v) :: o' => jsonReferences v ++ go o'
         end) o
  | _ => []
  end.

Definition getProviderTemplateReferences (config : ProviderConfig) : list string :=
  remove_dups (jsonReferences (JObj (settings config))).

(** Template strings of a provider configuration are left to the engine;
    this stand-in gives the configuration back. *)
Definition resolveTemplateStrings (config : ProviderConfig) (resolved : list Provider)
    (variables secrets : jobject) : result ProviderConfig := ok config.

End Collaborators.

(** ** A project with a plugin built on a base *)

Module TaskExamples.
Import Task Collaborators.

Definition basePlugin : GardenPlugin :=
  {| plugin_name := "base";
     base := None;
     dependencies := [];
     configSchema := Some (mkKeySchema ["foo"] [] [] false) |}.

(** The plugin fills in [foo] when the configuration does not set it. *)
Definition testPlugin : GardenPlugin :=
  {| plugin_name := "test-plugin";
     base := Some "base";
     dependencies := [];
     configSchema := Some (mkKeySchema [] ["path"] [("foo", JStr "bar")] false) |}.

(** A plugin that needs a provider nobody configured. *)
Definition dependantPlugin : GardenPlugin :=
  {| plugin_name := "test-plugin-b";
     base := None;
     dependencies := ["test-plugin-c"];
     configSchema := None |}.

Definition testConfig : ProviderConfig := mkProviderConfig "test-plugin" None [].
Definition dependantConfig : ProviderConfig := mkProviderConfig "test-plugin-b" None [].

(** The router of a project whose plugins have no handlers but the default
    ones. *)
Definition defaultRouter : ActionRouter :=
  {| configureProvider := fun params => ok (mkConfigureResult (cp_config params) None);
     getEnvironmentStatusHandler := fun _ => None;
     prepareEnvironmentHandler := fun _ => None |}.

(** Handlers of a plugin that is never ready. *)
Definition neverReadyRouter : ActionRouter :=
  {| configureProvider := fun params => ok (mkConfigureResult (cp_config params) None);
     getEnvironmentStatusHandler := fun _ => Some (fun _ => ok (mkStatus false []));
     prepareEnvironmentHandler := fun _ => Some (fun _ => ok (mkStatus false [])) |}.

(** Handlers of a plugin that is ready once prepared. *)
Definition preparingRouter : ActionRouter :=
  {| configureProvider := fun params => ok (mkConfigureResult (cp_config params) None);
     getEnvironmentStatusHandler := fun _ => Some (fun _ => ok (mkStatus false []));
     prepareEnvironmentHandler :=
       fun _ => Some (fun _ => ok (mkStatus true [("prepared", JBool true)])) |}.

(** A handler that drops what the schema filled in. *)
Definition strippingRouter : ActionRouter :=
  {| configureProvider :=
       fun params => ok (mkConfigureResult
                           (mkProviderConfig (name (cp_config params)) None []) None);
     getEnvironmentStatusHandler := fun _ => None;
     prepareEnvironmentHandler := fun _ => None |}.

Definition testGarden (router : ActionRouter) : Garden :=
  {| projectRoot := "/tmp/foo";
     projectName := "my-project";
     garden_environmentName := "default";
     garden_namespace := None;
     garden_variables := [];
     secrets := [];
     getRawProviderConfigs := [testConfig; dependantConfig];
     getPlugins := [basePlugin; testPlugin; dependantPlugin];
     getActionRouter := router |}.

Definition emptyState : State := {| resolvedProviders := ∅; trace := [] |}.

Definition runProcess (router : ActionRouter) (plugin : GardenPlugin)
    (config : ProviderConfig) (forceInit : bool) : M Provider :=
  process resolveTemplateStrings getPluginBases (testGarden router) plugin config
          forceInit [].

Definition isConfigureProvider (ev : Event) : bool :=
  match ev with EvConfigureProvider _ => true | _ => false end.

(** The provider that resolving [testConfig] gives. *)
Definition resolvedTestProvider : Provider :=
  providerFromConfig (mkProviderConfig "test-plugin" None [("foo", JStr "bar")]) [] []
                     defaultEnvironmentStatus.

Definition memoState : State :=
  {| resolvedProviders := {["test-plugin" := resolvedTestProvider]}; trace := [] |}.

(** What [strippingRouter] returns for [testConfig]. *)
Definition strippedOutput : ConfigureProviderResult :=
  mkConfigureResult (mkProviderConfig "test-plugin" None []) None.

Definition strippingParams : ConfigureProviderParams :=
  {| cp_environmentName := "default";
     cp_namespace := None;
     cp_pluginName := "test-plugin";
     cp_config := mkProviderConfig "test-plugin" None
                    [("foo", JStr "bar"); ("path", JStr "/tmp/foo")];
     cp_projectName := "my-project";
     cp_projectRoot := "/tmp/foo";
     cp_dependencies := [] |}.

(** The state of [process] when [configureProvider] has returned. *)
Definition configuredState : State :=
  record (EvConfigureProvider strippingParams)
    (record (EvValidate testConfig (mkKeySchema [] ["path"] [("foo", JStr "bar")] false)
               "provider configuration")
       (record (EvResolveTemplateStrings testConfig) emptyState)).

Definition isBaseValidationOf (c : ProviderConfig) (ev : Event) : bool :=
  match ev with
  | EvValidate c' s _ =>
      bool_decide (name c' = name c) && bool_decide (keys (settings c') = keys (settings c))
      && ks_unknown s
  | _ => false
  end.

End TaskExamples.

(** ** Kinds of calls in a trace *)

Module TaskCalls.
Import Task.

Section Calls.
Context `{SchemaEngine}.

Definition isValidate (ev : Event) : bool :=
  match ev with EvValidate _ _ _ => true | _ => false end.

Definition isConfigure (ev : Event) : bool :=
  match ev with EvConfigureProvider _ => true | _ => false end.

(** The two calls of the readiness protocol. *)
Definition isReadiness (ev : Event) : bool :=
  match ev with
  | EvGetEnvironmentStatus _ | EvPrepareEnvironment _ _ _ => true
  | _ => false
  end.

Definition calls (kind : Event -> bool) (evs : list Event) : nat :=
  length (List.filter kind evs).

(** The tasks that [resolveDependencies] creates for one dependency name. *)
Definition subTasksFor (getPluginBaseNames : string -> PluginMap -> list string)
    (garden : Garden) (forceInit : bool) (depName : string) : list SubTask :=
  map (fun c => {| task_plugin := getProperty (keyByName (getPlugins garden)) depName;
                   task_config := c;
                   task_forceInit := forceInit |})
      (matchDependencies getPluginBaseNames garden (keyByName (getPlugins garden)) depName).

(** [configureProvider]'s parameters as [process] builds them. *)
Definition configureParams (garden : Garden) (deps : list Provider)
    (providerName : string) (resolvedConfig : ProviderConfig) : ConfigureProviderParams :=
  {| cp_environmentName := garden_environmentName garden;
     cp_namespace := garden_namespace garden;
     cp_pluginName := providerName;
     cp_config := resolvedConfig;
     cp_projectName := projectName garden;
     cp_projectRoot := projectRoot garden;
     cp_dependencies := deps |}.

(** What a call may be given: a validation a configuration without [path],
    [configureProvider] a configuration whose [path] is the project root. *)
Definition wellFormedCall (root : string) (ev : Event) : Prop :=
  match ev with
  | EvValidate c _ _ => obj_get "path" (settings c) = None
  | EvConfigureProvider params =>
      obj_get "path" (settings (cp_config params)) = Some (JStr root)
      /\ cp_projectRoot params = root
  | _ => True
  end.

(** The schema and the configuration type of the validations made, and
    those of the validations against the bases that have a schema. *)
Definition validationArgs (evs : list Event) : list (Schema * string) :=
  omap (fun ev => match ev with EvValidate _ s t => Some (s, t) | _ => None end) evs.

Definition baseValidations (bases : list GardenPlugin) : list (Schema * string) :=
  omap (fun b => (fun s => (unknown s true, baseConfigType b)) <$> configSchema b) bases.

(** A run of validations that stops at its first failure: every call is
    given, without its path, what the call before it gave back, starting
    from [c]; the last call fails with [e], and no call before it fails. *)
Fixpoint validationsFailWith (garden : Garden) (c : ProviderConfig) (evs : list Event)
    (e : GardenError) : Prop :=
  match evs with
  | [] => False
  | ev :: evs' =>
      exists schema configType,
        ev = EvValidate (omitPath c) schema configType
        /\ match validateWithPath (omitPath c) schema (projectRoot garden)
                    (projectRoot garden) configType with
           | inl e' => evs' = [] /\ e' = e
           | inr c' => validationsFailWith garden c' evs' e
           end
  end.

End Calls.
End TaskCalls.

(** ** Collaborators that fail *)

Module FailureExamples.
Import Task Collaborators TaskExamples.

Definition handlerError (msg : string) : GardenError := mkError ExternalError msg [].

(** A [configureProvider] handler that raises. *)
Definition failingConfigureRouter : ActionRouter :=
  {| configureProvider := fun _ => throw (handlerError "configureProvider failed");
     getEnvironmentStatusHandler := fun _ => None;
     prepareEnvironmentHandler := fun _ => None |}.

(** A status handler that raises. *)
Definition failingStatusRouter : ActionRouter :=
  {| configureProvider := fun params => ok (mkConfigureResult (cp_config params) None);
     getEnvironmentStatusHandler :=
       fun _ => Some (fun _ => throw (handlerError "getEnvironmentStatus failed"));
     prepareEnvironmentHandler := fun _ => None |}.

(** A plugin that is not ready and has no prepare handler. *)
Definition statusOnlyRouter : ActionRouter :=
  {| configureProvider := fun params => ok (mkConfigureResult (cp_config params) None);
     getEnvironmentStatusHandler := fun _ => Some (fun _ => ok (mkStatus false []));
     prepareEnvironmentHandler := fun _ => None |}.

(** A plugin without a base, and a provider of it. *)
Definition plainPlugin : GardenPlugin :=
  {| plugin_name := "test-plugin-b";
     base := None;
     dependencies := [];
     configSchema := None |}.

(** A plugin that depends on a configured provider. *)
Definition consumerPlugin : GardenPlugin :=
  {| plugin_name := "test-plugin-b";
     base := None;
     dependencies := ["test-plugin"];
     configSchema := None |}.

(** A template engine that knows no reference. *)
Definition failingTemplates (config : ProviderConfig) (resolved : list Provider)
    (variables secrets : jobject) : result ProviderConfig :=
  throw (mkError ConfigurationError "Could not find key" []).

End FailureExamples.

(** ** Environment selectors as text *)

Module SelectorSyntax.

Fixpoint countChar (sep : Ascii.ascii) (s : string) : nat :=
  match s with
  | EmptyString => 0
  | String c s' => (if decide (c = sep) then 1 else 0) + countChar sep s'
  end.

(** The inverse of [Project.splitOn]. *)
Fixpoint joinOn (sep : Ascii.ascii) (segments : list string) : string :=
  match segments with
  | [] => ""
  | [s] => s
  | s :: rest => s +:+ String sep (joinOn sep rest)
  end.

End SelectorSyntax.
(** * Properties *)

(** ** Strings *)

Lemma string_app_cons ch (a b : string) : String ch a +:+ b = String ch (a +:+ b).
Proof. reflexivity. Qed.

Lemma string_app_assoc (a b c : string) : (a +:+ b) +:+ c = a +:+ (b +:+ c).
Proof. induction a as [|ch a IH]; [done|]. by rewrite !string_app_cons, IH. Qed.

Lemma mentions_here (pre s post : string) : mentions (pre +:+ s +:+ post) s.
Proof. by exists pre, post. Qed.

Lemma mentions_app_r (a msg s : string) : mentions msg s -> mentions (a +:+ msg) s.
Proof.
  intros (pre & post & ->). exists (a +:+ pre), post.
  by rewrite string_app_assoc.
Qed.

Lemma mentions_app_l (msg b s : string) : mentions msg s -> mentions (msg +:+ b) s.
Proof.
  intros (pre & post & ->). exists pre, (post +:+ b).
  by rewrite !string_app_assoc.
Qed.

(** ** JSON merges *)

Module JsonFacts.

(** *** Equations of the two merges *)

Lemma apply_JObj (target : json) (ps : jobject) :
  apply target (JObj ps) = JObj (apply_obj (as_obj target) ps).
Proof.
  unfold apply_obj. simpl. f_equal. fold (as_obj target).
  generalize (as_obj target) as acc.
  induction ps as [|[k v] ps IH]; intros acc; [done|].
  simpl. unfold apply_key at 2. simpl.
  destruct (isNull v); apply IH.
Qed.

Lemma apply_not_obj (target patch : json) :
  (forall o, patch <> JObj o) -> apply target patch = patch.
Proof. destruct patch; intros H; try done. by destruct (H o). Qed.

Lemma deepMerge_JObj (es ls : jobject) :
  deepMerge (JObj es) (JObj ls) = JObj (merge_obj es ls).
Proof.
  unfold merge_obj. simpl. f_equal. revert es.
  induction ls as [|[k v] ls IH]; intros acc; [done|].
  simpl. unfold merge_key at 2. simpl. apply IH.
Qed.

Lemma deepMerge_JArr (ea la : list json) :
  deepMerge (JArr ea) (JArr la) = JArr (merge_arr ea la).
Proof.
  reflexivity.
Qed.

Lemma deepMerge_scalar (earlier later : json) :
  isScalar later = true -> deepMerge earlier later = later.
Proof. by destruct later. Qed.

(** *** Object reads after writes *)

Lemma obj_get_set (k k' : string) (v : json) (o : jobject) :
  obj_get k' (obj_set k v o) = if decide (k' = k) then Some v else obj_get k' o.
Proof.
  induction o as [|[k0 v0] o IH]; simpl.
  - by repeat case_decide.
  - repeat (case_decide; simpl; subst); try done; try congruence.
Qed.

Lemma obj_get_delete (k k' : string) (o : jobject) :
  obj_get k' (obj_delete k o) = if decide (k' = k) then None else obj_get k' o.
Proof.
  induction o as [|[k0 v0] o IH]; simpl.
  - by case_decide.
  - repeat (case_decide; simpl; subst); try done; try congruence.
Qed.

Lemma obj_get_None (k : string) (o : jobject) :
  obj_get k o = None <-> k ∉ keys o.
Proof.
  induction o as [|[k0 v0] o IH]; simpl.
  - split; [intros _; apply not_elem_of_nil | done].
  - rewrite not_elem_of_cons. case_decide; subst.
    + split; [done | by intros [? _]].
    + rewrite IH. tauto.
Qed.

Lemma obj_delete_set (k : string) (v : json) (o : jobject) :
  obj_delete k (obj_set k v o) = obj_delete k o.
Proof.
  induction o as [|[k0 v0] o IH]; simpl.
  - by rewrite decide_True.
  - destruct (decide (k = k0)) as [Heq|Hne]; simpl.
    + by rewrite decide_True.
    + rewrite decide_False by done. by rewrite IH.
Qed.

Lemma obj_delete_idemp (k : string) (o : jobject) :
  obj_delete k (obj_delete k o) = obj_delete k o.
Proof.
  induction o as [|[k0 v0] o IH]; simpl; [done|].
  destruct (decide (k = k0)) as [Heq|Hne]; simpl; [done|].
  rewrite decide_False by done. by rewrite IH.
Qed.

(** The loop over the patch leaves alone the keys the patch does not have. *)
Lemma apply_obj_get_other (k : string) (patch target : jobject) :
  k ∉ keys patch -> obj_get k (apply_obj target patch) = obj_get k target.
Proof.
  unfold apply_obj. revert target.
  induction patch as [|[k0 v0] patch IH]; intros target Hk; [done|].
  simpl in *. apply not_elem_of_cons in Hk as [Hne Hk].
  rewrite IH by done. unfold apply_key; simpl.
  destruct (isNull v0).
  - rewrite obj_get_delete. by case_decide.
  - rewrite obj_get_set. by case_decide.
Qed.

(** What JSON Merge Patch does to each key of the target. *)
Lemma apply_obj_get (k : string) (patch target : jobject) :
  NoDup (keys patch) ->
  obj_get k (apply_obj target patch) =
    match obj_get k patch with
    | None => obj_get k target
    | Some v =>
        if isNull v then None
        else Some (apply (default JNull (obj_get k target)) v)
    end.
Proof.
  unfold apply_obj. revert target.
  induction patch as [|[k0 v0] patch IH]; intros target Hnd; [done|].
  simpl in Hnd. apply NoDup_cons in Hnd as [Hk0 Hnd].
  simpl. case_decide as Hk; subst.
  - fold (apply_obj (apply_key target (k0, v0)) patch).
    rewrite apply_obj_get_other by done.
    unfold apply_key; simpl. destruct (isNull v0).
    + rewrite obj_get_delete. by case_decide.
    + rewrite obj_get_set. by case_decide.
  - rewrite IH by done.
    assert (obj_get k (apply_key target (k0, v0)) = obj_get k target) as ->; [|done].
    unfold apply_key; simpl. destruct (isNull v0).
    + rewrite obj_get_delete. by case_decide.
    + rewrite obj_get_set. by case_decide.
Qed.

Lemma merge_obj_get_other (k : string) (later earlier : jobject) :
  k ∉ keys later -> obj_get k (merge_obj earlier later) = obj_get k earlier.
Proof.
  unfold merge_obj. revert earlier.
  induction later as [|[k0 v0] later IH]; intros earlier Hk; [done|].
  simpl in *. apply not_elem_of_cons in Hk as [Hne Hk].
  rewrite IH by done. unfold merge_key; simpl.
  rewrite obj_get_set. by case_decide.
Qed.

(** What the deep merge does to each key of a mapping. *)
Lemma merge_obj_get (k : string) (later earlier : jobject) :
  NoDup (keys later) ->
  obj_get k (merge_obj earlier later) =
    match obj_get k later, obj_get k earlier with
    | None, e => e
    | Some v, None => Some v
    | Some v, Some e => Some (deepMerge e v)
    end.
Proof.
  unfold merge_obj. revert earlier.
  induction later as [|[k0 v0] later IH]; intros earlier Hnd.
  { simpl. by destruct (obj_get k earlier). }
  simpl in Hnd. apply NoDup_cons in Hnd as [Hk0 Hnd].
  simpl. case_decide as Hk; subst.
  - fold (merge_obj (merge_key earlier (k0, v0)) later).
    rewrite merge_obj_get_other by done.
    unfold merge_key; simpl. rewrite obj_get_set.
    case_decide; [|done]. by destruct (obj_get k0 earlier).
  - rewrite IH by done.
    assert (obj_get k (merge_key earlier (k0, v0)) = obj_get k earlier) as ->; [|done].
    unfold merge_key; simpl. rewrite obj_get_set. by case_decide.
Qed.

(** Sequences merge position by position and are never truncated. *)
Lemma merge_arr_length (ea la : list json) :
  length (merge_arr ea la) = max (length ea) (length la).
Proof.
  revert ea. induction la as [|y la IH]; intros ea; simpl.
  - by rewrite Nat.max_0_r.
  - destruct ea as [|x ea]; simpl; by rewrite IH.
Qed.

Lemma merge_arr_lookup (i : nat) (ea la : list json) :
  merge_arr ea la !! i =
    match ea !! i, la !! i with
    | Some x, Some y => Some (deepMerge x y)
    | Some x, None => Some x
    | None, y => y
    end.
Proof.
  revert ea i. induction la as [|y la IH]; intros ea i; simpl.
  - rewrite lookup_nil. by destruct (ea !! i).
  - destruct ea as [|x ea]; destruct i as [|i]; simpl; try done;
      by rewrite IH.
Qed.

Lemma deepMerge_JObj_other (old : json) (ls : jobject) :
  (forall es, old <> JObj es) -> deepMerge old (JObj ls) = JObj ls.
Proof. intros Hold. destruct old; try reflexivity. by destruct (Hold o). Qed.

Lemma deepMerge_JArr_other (old : json) (la : list json) :
  (forall ea, old <> JArr ea) -> deepMerge old (JArr la) = JArr la.
Proof. intros Hold. destruct old; try reflexivity. by destruct (Hold l). Qed.

Lemma keys_obj_set (k : string) (v : json) (o : jobject) :
  keys (obj_set k v o) = if bool_decide (k ∈ keys o) then keys o else keys o ++ [k].
Proof.
  unfold keys. induction o as [|[k' v'] o IH]; simpl.
  - reflexivity.
  - destruct (decide (k = k')) as [->|Hne]; simpl.
    + rewrite bool_decide_eq_true_2; [done|]. by left.
    + rewrite IH. destruct (bool_decide (k ∈ map fst o)) eqn:Hin.
      * apply bool_decide_eq_true in Hin. rewrite bool_decide_eq_true_2; [done|]. by right.
      * apply bool_decide_eq_false in Hin. rewrite bool_decide_eq_false_2; [done|].
        intros [?|?]%elem_of_cons; [by apply Hne | by apply Hin].
Qed.

Lemma filter_notin_fresh (x : string) (seen l : list string) :
  x ∉ l -> filter (fun y => y ∉ seen ++ [x]) l = filter (fun y => y ∉ seen) l.
Proof.
  induction l as [|y l IH]; intros Hx; [done|].
  apply not_elem_of_cons in Hx as [Hne Hx].
  destruct (decide (y ∈ seen)) as [Hy|Hy].
  - rewrite !filter_cons_False; [by apply IH | tauto |].
    rewrite elem_of_app. tauto.
  - rewrite !filter_cons_True; [by rewrite IH | done |].
    rewrite elem_of_app, list_elem_of_singleton. intros [?|?]; [done | by apply Hne].
Qed.

(** The keys of the earlier mapping keep their places; the new keys of the
    later one follow, in its order. *)
Lemma keys_merge_obj (earlier later : jobject) :
  NoDup (keys later) ->
  keys (merge_obj earlier later)
  = keys earlier ++ filter (fun k => k ∉ keys earlier) (keys later).
Proof.
  unfold merge_obj. revert earlier.
  induction later as [|[k v] later IH]; intros earlier Hnd.
  - simpl. by rewrite app_nil_r.
  - change (keys ((k, v) :: later)) with (k :: keys later) in *.
    apply NoDup_cons in Hnd as [Hk Hnd]. simpl. rewrite (IH _ Hnd).
    unfold merge_key. simpl. rewrite keys_obj_set.
    destruct (bool_decide (k ∈ keys earlier)) eqn:Hin.
    + apply bool_decide_eq_true in Hin. by rewrite filter_cons_False by tauto.
    + apply bool_decide_eq_false in Hin. rewrite filter_cons_True by done.
      rewrite <- app_assoc. simpl. do 2 f_equal.
      by apply filter_notin_fresh.
Qed.

(** *** The merge on the heap *)

Lemma mergeEach_run (target : nat) (sources : list nat) :
  forall (vals : list jobject) (h : list jobject) (t : jobject),
  h !! target = Some t ->
  Forall2 (fun (r : nat) v => r <> target /\ h !! r = Some v) sources vals ->
  exists h',
    mergeEach target sources h = Some h'
    /\ h' !! target = Some (fold_left merge_obj vals t)
    /\ length h' = length h
    /\ forall i, i <> target -> h' !! i = h !! i.
Proof.
  induction sources as [|r sources IH]; intros vals h t Ht Hs.
  - apply Forall2_nil_inv_l in Hs as ->. exists h. by split_and!.
  - apply Forall2_cons_inv_l in Hs as (v & vals' & [Hr Hv] & Hs & ->).
    simpl. unfold mergeCell, Heap, Ref. rewrite Ht, Hv.
    destruct (IH vals' (<[target := merge_obj t v]> h) (merge_obj t v))
      as (h' & Hrun & Htg & Hlen & Hother).
    + apply list_lookup_insert_eq. by eapply lookup_lt_Some.
    + eapply Forall2_impl; [exact Hs|]. intros r' v' [Hr' Hv']. split; [done|].
      unfold Heap, Ref in *. by rewrite list_lookup_insert_ne.
    + exists h'. unfold Heap, Ref in *.
      split_and!; [done | done | by rewrite Hlen, length_insert |].
      intros i Hi. rewrite Hother by done. by apply list_lookup_insert_ne.
Qed.

(** [merge] gives back a mapping of its own, which holds the merged
    sources, and leaves every mapping that was there as it was. *)
Lemma mergeStored_run (sources : list nat) (vals : list jobject) (h : list jobject) :
  Forall2 (fun (r : nat) v => h !! r = Some v) sources vals ->
  exists h',
    mergeStored sources h = Some (length h, h')
    /\ h' !! length h = Some (mergeVariables vals)
    /\ length h' = S (length h)
    /\ forall i, i < length h -> h' !! i = h !! i.
Proof.
  intros Hs. unfold mergeStored, alloc. unfold Heap, Ref in *.
  destruct (mergeEach_run (length h) sources vals (h ++ [[] : jobject]) [])
    as (h' & Hrun & Htg & Hlen & Hother).
  - by apply list_lookup_middle.
  - eapply Forall2_impl; [exact Hs|]. intros r v Hv. simpl in Hv.
    pose proof (lookup_lt_Some _ _ _ Hv) as Hlt. split; [lia|].
    by rewrite lookup_app_l.
  - exists h'. rewrite Hrun. split_and!; [done | exact Htg | |].
    + rewrite Hlen, length_app. simpl. lia.
    + intros i Hi. rewrite Hother by lia. by rewrite lookup_app_l.
Qed.

End JsonFacts.

(** ** Provider Patch Merger *)

Module ProviderPatchFacts.
Import Json JsonFacts Project.

Lemma applyProvider_name (m p : ProviderConfig) : name (applyProvider m p) = name p.
Proof. reflexivity. Qed.

Lemma names_upsert (p : ProviderConfig) (acc : list ProviderConfig) :
  map name (upsert p acc) =
    if decide (name p ∈ map name acc) then map name acc else map name acc ++ [name p].
Proof.
  induction acc as [|m acc IH]; simpl.
  - done.
  - destruct (decide (name m = name p)) as [Heq|Hne]; simpl.
    + rewrite decide_True by (rewrite Heq; apply elem_of_cons; by left).
      by rewrite Heq.
    + rewrite IH. destruct (decide (name p ∈ map name acc)) as [Hin|Hnin].
      * rewrite decide_True by (apply elem_of_cons; by right). done.
      * rewrite decide_False; [done|].
        intros [?|?]%elem_of_cons; congruence.
Qed.

Lemma filter_notin_skip (x : string) (seen l : list string) :
  x ∈ seen ->
  filter (fun y => y ∉ seen) (filter (fun y => y <> x) l) = filter (fun y => y ∉ seen) l.
Proof.
  intros Hx. rewrite list_filter_filter. apply list_filter_iff.
  intros y. split; [tauto|]. intros Hy. split; [done|]. by intros ->.
Qed.

Lemma filter_notin_snoc (x : string) (seen l : list string) :
  filter (fun y => y ∉ seen ++ [x]) l =
  filter (fun y => y ∉ seen) (filter (fun y => y <> x) l).
Proof.
  rewrite list_filter_filter. apply list_filter_iff.
  intros y. rewrite elem_of_app, list_elem_of_singleton. tauto.
Qed.

(** Names come out in the order in which they are first seen. *)
Lemma names_mergeInto (all acc : list ProviderConfig) :
  map name (mergeInto acc all) =
    map name acc ++ filter (fun y => y ∉ map name acc) (firstSeen (map name all)).
Proof.
  unfold mergeInto. revert acc.
  induction all as [|p all IH]; intros acc; simpl.
  - by rewrite app_nil_r.
  - rewrite IH, names_upsert.
    destruct (decide (name p ∈ map name acc)) as [Hin|Hnin].
    + rewrite filter_cons_False by tauto.
      by rewrite filter_notin_skip.
    + rewrite filter_cons_True by done.
      rewrite filter_notin_snoc. by rewrite <- app_assoc.
Qed.

Lemma filter_notin_nil (l : list string) : filter (fun y => y ∉ @nil string) l = l.
Proof.
  induction l as [|x l IH]; [done|].
  rewrite filter_cons_True by apply not_elem_of_nil. by rewrite IH.
Qed.

Lemma names_mergeProviders (all : list ProviderConfig) :
  map name (mergeProviders all) = firstSeen (map name all).
Proof.
  unfold mergeProviders. rewrite names_mergeInto. simpl.
  apply filter_notin_nil.
Qed.

Lemma getProvider_upsert (n : string) (p : ProviderConfig) (acc : list ProviderConfig) :
  getProvider n (upsert p acc) =
    if decide (name p = n)
    then Some (match getProvider n acc with
               | Some m => applyProvider m p
               | None => p
               end)
    else getProvider n acc.
Proof.
  induction acc as [|m acc IH]; simpl.
  - by destruct (decide (name p = n)).
  - destruct (decide (name m = name p)) as [Heq|Hne]; simpl.
    + destruct (decide (name p = n)) as [Hn|Hn].
      * rewrite decide_True by congruence. done.
      * rewrite decide_False by congruence. done.
    + rewrite IH. destruct (decide (name m = n)) as [Hm|Hm]; [|done].
      rewrite decide_False by congruence. done.
Qed.

(** The entry of a name is its fragments patched in list order. *)
Lemma getProvider_mergeInto (n : string) (all acc : list ProviderConfig) :
  getProvider n (mergeInto acc all) =
    match getProvider n acc with
    | Some m => Some (fold_left applyProvider (named n all) m)
    | None => foldGroup (named n all)
    end.
Proof.
  unfold mergeInto, named. revert acc.
  induction all as [|p all IH]; intros acc; simpl.
  - by destruct (getProvider n acc).
  - rewrite IH, getProvider_upsert.
    destruct (decide (name p = n)) as [Hn|Hn].
    + rewrite filter_cons_True by done. simpl.
      by destruct (getProvider n acc).
    + rewrite filter_cons_False by done. done.
Qed.

Lemma getProvider_mergeProviders (n : string) (all : list ProviderConfig) :
  getProvider n (mergeProviders all) = foldGroup (named n all).
Proof. unfold mergeProviders. by rewrite getProvider_mergeInto. Qed.

(** Groups that do not meet do not touch each other. *)
Lemma mergeInto_app_disjoint (all acc1 acc2 : list ProviderConfig) :
  (forall p, p ∈ all -> name p ∉ map name acc1) ->
  mergeInto (acc1 ++ acc2) all = acc1 ++ mergeInto acc2 all.
Proof.
  unfold mergeInto. revert acc2.
  induction all as [|p all IH]; intros acc2 Hdis; [done|].
  simpl. assert (upsert p (acc1 ++ acc2) = acc1 ++ upsert p acc2) as ->.
  { assert (name p ∉ map name acc1) as Hp by (apply Hdis; by left).
    clear -Hp. induction acc1 as [|m acc1 IH1]; [done|].
    simpl in *. apply not_elem_of_cons in Hp as [Hne Hp].
    rewrite decide_False by congruence. by rewrite IH1. }
  apply IH. intros q Hq. apply Hdis. by right.
Qed.

Lemma mergeInto_fixed : mergeInto [] fixedProviders = fixedProviders.
Proof. reflexivity. Qed.

Lemma mergeInto_app (l1 l2 acc : list ProviderConfig) :
  mergeInto acc (l1 ++ l2) = mergeInto (mergeInto acc l1) l2.
Proof. unfold mergeInto. apply fold_left_app. Qed.

Lemma pickProviders_mergeInto (environment : string) (fragments : list ProviderConfig) :
  pickProviders environment fragments =
    mergeInto fixedProviders (applicable environment fragments).
Proof.
  unfold pickProviders, mergeProviders. fold (applicable environment fragments).
  by rewrite mergeInto_app.
Qed.

End ProviderPatchFacts.

(** ** Environment Selector *)

Module EnvironmentFacts.
Import Json JsonFacts Project ProviderPatchFacts.

Section Selection.
Variable fs : string -> string -> option jobject.
Variable defaultVarfilePath : string.
Variable defaultEnvVarfilePath : string -> string.

(** What a successful selection went through. *)
Lemma pickEnvironment_inr (config : ProjectConfig) (envString : string)
    (r : ResolvedEnvironment) :
  pickEnvironment fs defaultVarfilePath defaultEnvVarfilePath config envString = inr r ->
  exists environment ns e pv ev,
    parseEnvironment envString = inr (environment, ns)
    /\ findEnvironment environment (proj_environments config) = Some e
    /\ checkNamespacing environment (env_namespacing e) ns = inr tt
    /\ loadConfiguredVarfile fs (proj_path config) (proj_varfile config)
         defaultVarfilePath = inr pv
    /\ loadConfiguredVarfile fs (proj_path config) (env_varfile e)
         (defaultEnvVarfilePath environment) = inr ev
    /\ r = {| environmentName := environment;
              namespace := ns;
              providers := pickProviders environment (proj_providers config);
              production := default false (env_production e);
              variables := mergeVariables [proj_variables config; pv;
                                           env_variables e; ev] |}.
Proof.
  unfold pickEnvironment, ok.
  destruct (parseEnvironment envString) as [err|[environment ns]]; simpl; [done|].
  destruct (findEnvironment environment (proj_environments config)) as [e|] eqn:He;
    [|done].
  destruct (checkNamespacing environment (env_namespacing e) ns) as [err|[]] eqn:Hns;
    simpl; [done|].
  destruct (loadConfiguredVarfile fs (proj_path config) (proj_varfile config)
              defaultVarfilePath) as [err|pv] eqn:Hpv; simpl; [done|].
  destruct (loadConfiguredVarfile fs (proj_path config) (env_varfile e)
              (defaultEnvVarfilePath environment)) as [err|ev] eqn:Hev; simpl; [done|].
  intros [= <-]. by exists environment, ns, e, pv, ev.
Qed.

Lemma pickEnvironment_providers (config : ProjectConfig) (envString : string)
    (r : ResolvedEnvironment) :
  pickEnvironment fs defaultVarfilePath defaultEnvVarfilePath config envString = inr r ->
  providers r = pickProviders (environmentName r) (proj_providers config).
Proof.
  intros (environment & ns & e & pv & ev & _ & _ & _ & _ & _ & ->)%pickEnvironment_inr.
  reflexivity.
Qed.
End Selection.

Lemma names_pickProviders (environment : string) (fragments : list ProviderConfig) :
  map name (pickProviders environment fragments) =
    firstSeen (fixedPlugins ++ map name (applicable environment fragments)).
Proof.
  unfold pickProviders. rewrite names_mergeProviders, map_app. reflexivity.
Qed.

Lemma getProvider_fixed (n : string) :
  n ∈ fixedPlugins -> getProvider n fixedProviders = Some (mkProviderConfig n None []).
Proof.
  unfold fixedPlugins. intros Hn.
  apply elem_of_cons in Hn as [->|Hn]; [done|].
  apply elem_of_cons in Hn as [->|Hn]; [done|].
  by apply elem_of_nil in Hn.
Qed.

(** C2, as the code has it: the list starts with one entry named [exec] and
    one named [container]; the user's fragments of these names that apply
    to the environment are patched, in list order, onto the built-in
    entries; without such fragments the list is the built-in providers
    followed by the merged providers of the user. *)
Theorem builtin_providers_head
    (fs : string -> string -> option jobject) (defaultVarfilePath : string)
    (defaultEnvVarfilePath : string -> string)
    (config : ProjectConfig) (envString : string) (r : ResolvedEnvironment) :
  pickEnvironment fs defaultVarfilePath defaultEnvVarfilePath config envString = inr r ->
  let user := applicable (environmentName r) (proj_providers config) in
  (exists rest, map name (providers r) = "exec" :: "container" :: rest
                /\ ("exec" ∉ rest) /\ ("container" ∉ rest))
  /\ (forall n, n ∈ fixedPlugins ->
        getProvider n (providers r) =
          Some (fold_left applyProvider (named n user) (mkProviderConfig n None [])))
  /\ ((forall p, p ∈ user -> name p ∉ fixedPlugins) ->
        providers r = fixedProviders ++ mergeProviders user).
Proof.
  intros Hpick user. rewrite (pickEnvironment_providers _ _ _ _ _ _ Hpick).
  fold user. split; [|split].
  - rewrite names_pickProviders. simpl.
    rewrite filter_cons_True by done. eexists. split; [reflexivity|].
    split.
    + intros Hin. apply list_elem_of_filter in Hin as [Hne _]. done.
    + intros Hin. apply list_elem_of_filter in Hin as [_ Hin].
      apply list_elem_of_filter in Hin as [Hne _]. done.
  - intros n Hn. rewrite pickProviders_mergeInto, getProvider_mergeInto.
    by rewrite getProvider_fixed.
  - intros Hdis. rewrite pickProviders_mergeInto.
    rewrite <- (app_nil_r fixedProviders) at 1.
    by rewrite mergeInto_app_disjoint.
Qed.

Lemma builtin_providers_head_witness :
  pickEnvironment Examples.noVarfiles Examples.defaultVarfilePath
    Examples.defaultEnvVarfilePath Examples.emptyProject "default"
  = inr {| environmentName := "default"; namespace := None;
           providers := fixedProviders; production := false; variables := [] |}
  /\ providers {| environmentName := "default"; namespace := None;
                  providers := fixedProviders; production := false; variables := [] |}
     = fixedProviders ++ mergeProviders [].
Proof.
  split; [reflexivity|].
  apply (builtin_providers_head Examples.noVarfiles Examples.defaultVarfilePath
           Examples.defaultEnvVarfilePath Examples.emptyProject "default");
    [reflexivity|].
  simpl. intros p Hp. by apply elem_of_nil in Hp.
Defined.

(** C2 as stated fails on the input of the unit test "should correctly merge
    provider configurations using JSON Merge Patch": the second entry of the
    result is the built-in [container] with the user's [newKey] patched into
    it, so the list does not start with the built-in entries as they are. *)
Lemma builtin_providers_patched :
  exists r,
    pickEnvironment Examples.noVarfiles Examples.defaultVarfilePath
      Examples.defaultEnvVarfilePath Examples.mergePatchProject "default" = inr r
    /\ providers r =
         [mkProviderConfig "exec" None [];
          mkProviderConfig "container" None [("newKey", JStr "foo")];
          mkProviderConfig "my-provider" None [("a", JStr "c"); ("b", JStr "b")]]
    /\ providers r <>
         pickProviders_spec "default" (proj_providers Examples.mergePatchProject)
    /\ ~ (exists rest, providers r = fixedProviders ++ rest).
Proof.
  eexists. split; [reflexivity|]. split; [reflexivity|]. split.
  - discriminate.
  - intros [rest Hrest]. discriminate Hrest.
Qed.

Lemma elem_of_applicable (environment : string) (fragments : list ProviderConfig)
    (p : ProviderConfig) :
  p ∈ applicable environment fragments <->
  p ∈ fragments /\ (environments p = None \/
                    exists envs, environments p = Some envs /\ environment ∈ envs).
Proof.
  unfold applicable. rewrite list_elem_of_filter. unfold appliesTo.
  destruct (environments p) as [envs|].
  - rewrite bool_decide_eq_true. split.
    + intros [Hin Hp]. split; [done|]. right. by exists envs.
    + intros [Hp [Hnone|(envs' & [= <-] & Hin)]]; [done|]. by split.
  - split; [intros [_ Hp]; split; [done|by left] | intros [Hp _]; by split].
Qed.

(** C6: the fragments that apply to the environment are grouped by name in
    the order in which the names are first seen, each group is its
    fragments patched in list order, and a patch overwrites the keys it has,
    deletes those it sets to null and replaces what is not an object; the
    three fragments of the spec merge to [{name: "p", b: "b"}]. *)
Theorem provider_patch_merge
    (environment : string) (fragments : list ProviderConfig)
    (target patch : ProviderConfig) (k : string) :
  NoDup (keys (settings patch)) ->
  let user := applicable environment fragments in
  (forall p, p ∈ user <->
     p ∈ fragments /\ (environments p = None \/
                       exists envs, environments p = Some envs /\ environment ∈ envs))
  /\ map name (mergeProviders user) = firstSeen (map name user)
  /\ (forall n, getProvider n (mergeProviders user) = foldGroup (named n user))
  /\ map name (pickProviders environment fragments) =
       firstSeen (fixedPlugins ++ map name user)
  /\ (forall n, getProvider n (pickProviders environment fragments) =
                  foldGroup (named n (fixedProviders ++ user)))
  /\ obj_get k (settings (applyProvider target patch)) =
       match obj_get k (settings patch) with
       | None => obj_get k (settings target)
       | Some v =>
           if isNull v then None
           else Some (apply (default JNull (obj_get k (settings target))) v)
       end
  /\ (forall t v, (forall o, v <> JObj o) -> apply t v = v)
  /\ (forall t o, apply t (JObj o) = JObj (apply_obj (as_obj t) o))
  /\ mergeProviders
       [mkProviderConfig "p" None [("a", JStr "a")];
        mkProviderConfig "p" None [("b", JStr "b")];
        mkProviderConfig "p" None [("a", JNull)]]
     = [mkProviderConfig "p" None [("b", JStr "b")]].
Proof.
  intros Hnd user. split_and!.
  - intros p. apply elem_of_applicable.
  - apply names_mergeProviders.
  - intros n. apply getProvider_mergeProviders.
  - apply names_pickProviders.
  - intros n. unfold pickProviders. apply getProvider_mergeProviders.
  - simpl. by apply apply_obj_get.
  - intros t v Hv. by apply apply_not_obj.
  - intros t o. apply apply_JObj.
  - reflexivity.
Qed.

Lemma provider_patch_merge_witness :
  NoDup (keys [("a", JNull)]) /\
  obj_get "a" (settings (applyProvider
                           (mkProviderConfig "p" None [("a", JStr "a"); ("b", JStr "b")])
                           (mkProviderConfig "p" None [("a", JNull)]))) = None.
Proof.
  assert (NoDup (keys [("a", JNull)])) as Hnd.
  { apply NoDup_cons. split; [apply not_elem_of_nil | apply NoDup_nil_2]. }
  split; [exact Hnd|].
  exact (proj1 (proj2 (proj2 (proj2 (proj2 (proj2
           (provider_patch_merge "default" []
              (mkProviderConfig "p" None [("a", JStr "a"); ("b", JStr "b")])
              (mkProviderConfig "p" None [("a", JNull)]) "a" Hnd))))))).
Defined.

(** The unit test "should remove null values in provider configs (as per
    the JSON Merge Patch spec)". *)
Example null_patch_removes_key :
  rbind (pickEnvironment Examples.noVarfiles Examples.defaultVarfilePath
           Examples.defaultEnvVarfilePath Examples.nullPatchProject "default")
        (fun r => ok (providers r))
  = inr [mkProviderConfig "exec" None [];
         mkProviderConfig "container" None [("newKey", JStr "foo")];
         mkProviderConfig "my-provider" None [("b", JStr "b")]].
Proof. reflexivity. Qed.

(** *** Variables *)

Lemma mergeVariables_snoc (sources : list jobject) (s : jobject) :
  mergeVariables (sources ++ [s]) = merge_obj (mergeVariables sources) s.
Proof. unfold mergeVariables. by rewrite fold_left_app. Qed.

Lemma loadConfiguredVarfile_inr (fs : string -> string -> option jobject)
    (root d : string) (configured : option string) (vars : jobject) :
  loadConfiguredVarfile fs root configured d = inr vars ->
  vars = default [] (fs root (default d configured)).
Proof.
  unfold loadConfiguredVarfile, varfilePath, loadVarfile.
  destruct configured as [p|]; simpl.
  - destruct (fs root p) as [v|]; [by intros [= <-]|].
    destruct (negb (bool_decide (p = d))); [done | by intros [= <-]].
  - destruct (fs root d) as [v|]; by intros [= <-].
Qed.

Lemma findEnvironment_Some (environment : string) (envs : list EnvironmentConfig)
    (e : EnvironmentConfig) :
  findEnvironment environment envs = Some e ->
  exists i,
    envs !! i = Some e
    /\ env_name e = environment
    /\ forall j e', envs !! j = Some e' -> j < i -> env_name e' <> environment.
Proof.
  unfold findEnvironment.
  destruct (list_find (fun e0 => env_name e0 = environment) envs) as [[i e0]|] eqn:Hf;
    [|done].
  simpl. intros [= ->]. apply list_find_Some in Hf as (Hi & Hn & Hfirst).
  exists i. by split_and!.
Qed.

(** C7: the environment selected is the first of the project that has the
    name given in the selector.  Its variables are the project variables,
    the contents of the project varfile, the environment variables and the
    contents of the environment varfile merged in this order, each source
    over the ones before it: mappings merge key by key, sequences position
    by position without being cut short, and in every other case the later
    value replaces the earlier one, whatever the kinds of the two.  The
    merge assigns to a mapping of its own: the mappings that were there
    before it, the sources among them, are left as they were. *)
Theorem variables_deep_merge
    (fs : string -> string -> option jobject) (defaultVarfilePath : string)
    (defaultEnvVarfilePath : string -> string)
    (config : ProjectConfig) (envString : string) (r : ResolvedEnvironment) :
  pickEnvironment fs defaultVarfilePath defaultEnvVarfilePath config envString = inr r ->
  (exists i e,
     parseEnvironment envString = inr (environmentName r, namespace r)
     /\ proj_environments config !! i = Some e
     /\ env_name e = environmentName r
     /\ (forall j e', proj_environments config !! j = Some e' -> j < i ->
           env_name e' <> environmentName r)
     /\ let root := proj_path config in
        let pv := default [] (fs root (default defaultVarfilePath (proj_varfile config))) in
        let ev :=
          default [] (fs root (default (defaultEnvVarfilePath (environmentName r))
                                       (env_varfile e))) in
        variables r =
          merge_obj (merge_obj (merge_obj (merge_obj [] (proj_variables config)) pv)
                               (env_variables e)) ev
        /\ forall (h : Heap) (r1 r2 r3 r4 : Ref),
             h !! r1 = Some (proj_variables config) ->
             h !! r2 = Some pv ->
             h !! r3 = Some (env_variables e) ->
             h !! r4 = Some ev ->
             exists h',
               mergeStored [r1; r2; r3; r4] h = Some (length h, h')
               /\ h' !! length h = Some (variables r)
               /\ length h' = S (length h)
               /\ forall a, a < length h -> h' !! a = h !! a)
  /\ (forall earlier later k,
        NoDup (keys later) ->
        obj_get k (merge_obj earlier later) =
          match obj_get k later, obj_get k earlier with
          | None, old => old
          | Some v, None => Some v
          | Some v, Some old => Some (deepMerge old v)
          end)
  /\ (forall earlier later,
        NoDup (keys later) ->
        keys (merge_obj earlier later)
        = keys earlier ++ filter (fun k => k ∉ keys earlier) (keys later))
  /\ (forall es ls, deepMerge (JObj es) (JObj ls) = JObj (merge_obj es ls))
  /\ (forall old ls, (forall es, old <> JObj es) -> deepMerge old (JObj ls) = JObj ls)
  /\ (forall ea la, deepMerge (JArr ea) (JArr la) = JArr (merge_arr ea la))
  /\ (forall old la, (forall ea, old <> JArr ea) -> deepMerge old (JArr la) = JArr la)
  /\ (forall ea la i,
        merge_arr ea la !! i =
          match ea !! i, la !! i with
          | Some x, Some y => Some (deepMerge x y)
          | Some x, None => Some x
          | None, y => y
          end)
  /\ (forall ea la, length (merge_arr ea la) = max (length ea) (length la))
  /\ (forall old v, isScalar v = true -> deepMerge old v = v).
Proof.
  intros (environment & ns & e & pv & ev & Hparse & He & _ & Hpv & Hev & ->)%pickEnvironment_inr.
  split_and!.
  - apply findEnvironment_Some in He as (i & Hi & Hn & Hfirst).
    exists i, e. cbn [environmentName namespace variables].
    apply loadConfiguredVarfile_inr in Hpv, Hev. subst pv ev.
    split_and!; [exact Hparse | exact Hi | exact Hn | exact Hfirst | reflexivity |].
    intros h r1 r2 r3 r4 H1 H2 H3 H4.
    apply (mergeStored_run [r1; r2; r3; r4]). by repeat constructor.
  - intros earlier later k Hnd. by apply merge_obj_get.
  - apply keys_merge_obj.
  - apply deepMerge_JObj.
  - apply deepMerge_JObj_other.
  - apply deepMerge_JArr.
  - apply deepMerge_JArr_other.
  - intros ea la i. apply merge_arr_lookup.
  - apply merge_arr_length.
  - apply deepMerge_scalar.
Qed.

(** The four sources of the unit test "should correctly merge all variable
    sources in precedence order", as the first four mappings of a heap. *)
Lemma variables_deep_merge_witness :
  exists r,
    pickEnvironment Examples.precedenceVarfiles Examples.defaultVarfilePath
      Examples.defaultEnvVarfilePath Examples.precedenceProject "default" = inr r
    /\ variables r = [("a", JStr "a"); ("b", JStr "B"); ("c", JStr "C");
                      ("d", JStr "D"); ("e", JStr "e")]
    /\ exists h',
         mergeStored [0; 1; 2; 3] Examples.precedenceHeap = Some (4, h')
         /\ h' !! 4 = Some (variables r)
         /\ forall a, a < 4 -> h' !! a = Examples.precedenceHeap !! a.
Proof.
  eexists. split; [reflexivity|]. split; [reflexivity|].
  destruct (variables_deep_merge Examples.precedenceVarfiles
              Examples.defaultVarfilePath Examples.defaultEnvVarfilePath
              Examples.precedenceProject "default" _ eq_refl)
    as [(i & e & _ & Hi & _ & _ & Hvars & Hheap) _].
  destruct i as [|i]; [|destruct i; discriminate Hi].
  injection Hi as <-.
  destruct (Hheap Examples.precedenceHeap 0 1 2 3 eq_refl eq_refl eq_refl eq_refl)
    as (h' & Hrun & Htarget & _ & Hsame).
  exists h'. split_and!; [exact Hrun | exact Htarget | exact Hsame].
Defined.

(** The unit test "should correctly merge project and environment
    variables" (nested mappings and a sequence of mappings). *)
Example nested_variables_merge :
  rbind (pickEnvironment Examples.noVarfiles Examples.defaultVarfilePath
           Examples.defaultEnvVarfilePath Examples.nestedVariablesProject "default")
        (fun r => ok (variables r))
  = inr [("a", JStr "project value A");
         ("b", JStr "env value B");
         ("array", JArr [JObj [("projectArrayKey", JStr "project array value");
                               ("envArrayKey", JStr "env array value")]]);
         ("nested", JObj [("nestedA", JStr "nested project value A");
                          ("nestedB", JStr "nested env value B");
                          ("nestedC", JStr "nested env value C")]);
         ("c", JStr "env value C")].
Proof. reflexivity. Qed.

(** *** Varfiles *)

Section Varfiles.
Variable fs : string -> string -> option jobject.

Lemma loadConfiguredVarfile_default (root d : string) (configured : option string) :
  configured = None \/ configured = Some d ->
  fs root d = None ->
  loadConfiguredVarfile fs root configured d = inr [].
Proof.
  unfold loadConfiguredVarfile, varfilePath, loadVarfile.
  intros [->| ->] Hfs.
  - by rewrite Hfs.
  - rewrite bool_decide_eq_true_2 by done. simpl. by rewrite Hfs.
Qed.

Lemma loadConfiguredVarfile_missing (root d path : string) :
  path <> d ->
  fs root path = None ->
  loadConfiguredVarfile fs root (Some path) d = inl (varfileNotFound path).
Proof.
  unfold loadConfiguredVarfile, varfilePath, loadVarfile.
  intros Hne Hfs. rewrite bool_decide_eq_false_2 by done. simpl. by rewrite Hfs.
Qed.
End Varfiles.

(** C8: a default varfile that is absent loads as the empty mapping and
    lets the selection go on; a varfile set to another path that is absent
    makes the selection fail with a ConfigurationError whose message is
    "Could not find varfile at path '<path>'", the path as configured. *)
Theorem varfile_absent
    (fs : string -> string -> option jobject) (defaultVarfilePath : string)
    (defaultEnvVarfilePath : string -> string)
    (config : ProjectConfig) (envString environment : string) (ns : option string)
    (e : EnvironmentConfig) :
  parseEnvironment envString = inr (environment, ns) ->
  findEnvironment environment (proj_environments config) = Some e ->
  checkNamespacing environment (env_namespacing e) ns = inr tt ->
  let root := proj_path config in
  let pick := pickEnvironment fs defaultVarfilePath defaultEnvVarfilePath config envString in
  let selected pv ev :=
    {| environmentName := environment;
       namespace := ns;
       providers := pickProviders environment (proj_providers config);
       production := default false (env_production e);
       variables := mergeVariables [proj_variables config; pv; env_variables e; ev] |} in
  (forall configured d,
     configured = None \/ configured = Some d -> fs root d = None ->
     loadConfiguredVarfile fs root configured d = inr [])
  /\ (forall path d,
        path <> d -> fs root path = None ->
        loadConfiguredVarfile fs root (Some path) d = inl (varfileNotFound path)
        /\ errType (varfileNotFound path) = ConfigurationError
        /\ message (varfileNotFound path) =
             "Could not find varfile at path '" +:+ path +:+ "'")
  /\ (forall pv ev,
        loadConfiguredVarfile fs root (proj_varfile config) defaultVarfilePath = inr pv ->
        loadConfiguredVarfile fs root (env_varfile e) (defaultEnvVarfilePath environment)
          = inr ev ->
        pick = inr (selected pv ev))
  /\ ((proj_varfile config = None \/ proj_varfile config = Some defaultVarfilePath) ->
      fs root defaultVarfilePath = None ->
      (env_varfile e = None \/ env_varfile e = Some (defaultEnvVarfilePath environment)) ->
      fs root (defaultEnvVarfilePath environment) = None ->
      pick = inr (selected [] []))
  /\ (forall path,
        proj_varfile config = Some path -> path <> defaultVarfilePath ->
        fs root path = None ->
        pick = inl (varfileNotFound path))
  /\ (forall path pv,
        loadConfiguredVarfile fs root (proj_varfile config) defaultVarfilePath = inr pv ->
        env_varfile e = Some path -> path <> defaultEnvVarfilePath environment ->
        fs root path = None ->
        pick = inl (varfileNotFound path)).
Proof.
  intros Hparse He Hns root pick selected.
  assert (forall pv ev,
    loadConfiguredVarfile fs root (proj_varfile config) defaultVarfilePath = inr pv ->
    loadConfiguredVarfile fs root (env_varfile e) (defaultEnvVarfilePath environment)
      = inr ev ->
    pick = inr (selected pv ev)) as Hok.
  { intros pv ev Hpv Hev. unfold pick, pickEnvironment.
    rewrite Hparse. simpl. rewrite He, Hns. simpl.
    fold root. rewrite Hpv. simpl. rewrite Hev. reflexivity. }
  split_and!.
  - intros configured d Hc Hfs. by apply loadConfiguredVarfile_default.
  - intros path d Hne Hfs. split_and!; [|done|done].
    by apply loadConfiguredVarfile_missing.
  - exact Hok.
  - intros Hp Hpf Hev Hevf. apply Hok; by apply loadConfiguredVarfile_default.
  - intros path Hp Hne Hfs. unfold pick, pickEnvironment.
    rewrite Hparse. simpl. rewrite He, Hns. simpl. fold root. rewrite Hp.
    by rewrite loadConfiguredVarfile_missing.
  - intros path pv Hpv Hp Hne Hfs. unfold pick, pickEnvironment.
    rewrite Hparse. simpl. rewrite He, Hns. simpl. fold root. rewrite Hpv. simpl.
    rewrite Hp. by rewrite loadConfiguredVarfile_missing.
Qed.

(** The unit test "should throw if project varfile is set to non-default
    and it doesn't exist". *)
Lemma varfile_absent_witness :
  pickEnvironment Examples.noVarfiles Examples.defaultVarfilePath
    Examples.defaultEnvVarfilePath Examples.missingProjectVarfile "default"
  = inl (varfileNotFound "foo.env")
  /\ message (varfileNotFound "foo.env") = "Could not find varfile at path 'foo.env'".
Proof.
  split; [|reflexivity].
  refine (proj1 (proj2 (proj2 (proj2 (proj2
           (varfile_absent Examples.noVarfiles Examples.defaultVarfilePath
              Examples.defaultEnvVarfilePath Examples.missingProjectVarfile
              "default" "default" None (Examples.plainEnvironment "default" [])
              eq_refl eq_refl eq_refl))))) "foo.env" eq_refl _ eq_refl).
  discriminate.
Defined.

Example environment_varfile_absent :
  pickEnvironment Examples.noVarfiles Examples.defaultVarfilePath
    Examples.defaultEnvVarfilePath Examples.missingEnvironmentVarfile "default"
  = inl (varfileNotFound "foo.env").
Proof. reflexivity. Qed.

Example default_varfiles_absent :
  pickEnvironment Examples.noVarfiles Examples.defaultVarfilePath
    Examples.defaultEnvVarfilePath Examples.emptyProject "default"
  = inr {| environmentName := "default"; namespace := None;
           providers := fixedProviders; production := false; variables := [] |}.
Proof. reflexivity. Qed.

End EnvironmentFacts.

(** ** Project Config Resolver *)

Module ProjectConfigFacts.
Import Json Project.

Lemma mapResult_inr {A B} (f : A -> result B) (l : list A) (l' : list B) :
  mapResult f l = inr l' -> Forall2 (fun x y => f x = inr y) l l'.
Proof.
  revert l'. induction l as [|x l IH]; intros l'; simpl.
  - intros [= <-]. constructor.
  - destruct (f x) as [err|y] eqn:Hx; simpl; [done|].
    destruct (mapResult f l) as [err|ys]; simpl; [done|].
    intros [= <-]. constructor; [done | by apply IH].
Qed.

Lemma Forall2_map_r {A B C} (P : A -> C -> Prop) (f : B -> C) (l : list A) (k : list B) :
  Forall2 (fun x y => P x (f y)) l k -> Forall2 P l (map f k).
Proof. induction 1; simpl; by constructor. Qed.

Section Templates.
Variable TemplateContext : Type.
Variable ProjectConfigContext : string -> string -> string -> TemplateContext.
Variable resolveTemplateString : TemplateContext -> string -> result json.
Variable defaultVarfilePath : string.
Variable defaultEnvironments : list EnvironmentConfig.
Variable defaultEnvironmentName : string.

Local Abbreviation resolveValue := (resolveTemplateStrings TemplateContext resolveTemplateString).
Local Abbreviation resolveObj := (resolveObject TemplateContext resolveTemplateString).
Local Abbreviation resolveEnv := (resolveEnvironment TemplateContext resolveTemplateString).
Local Abbreviation resolvedString := (resolvedOptionalString TemplateContext resolveTemplateString).
Local Abbreviation resolveProject :=
  (resolveProjectConfig TemplateContext ProjectConfigContext resolveTemplateString
     defaultVarfilePath defaultEnvironments defaultEnvironmentName).

(** A resolved mapping has the keys of the raw one, each value resolved. *)
Lemma resolveObject_inr (ctx : TemplateContext) (o o' : jobject) :
  resolveObj ctx o = inr o' ->
  Forall2 (fun kv kv' => fst kv' = fst kv /\ resolveValue ctx (snd kv) = inr (snd kv')) o o'.
Proof.
  unfold resolveObject. intros Hmap%mapResult_inr.
  eapply Forall2_impl; [exact Hmap|].
  intros [k v] [k' v']; simpl.
  destruct (resolveValue ctx v) as [err|w]; simpl; [done|].
  by intros [= <- <-].
Qed.

Lemma resolveEnvironment_inr (ctx : TemplateContext) (e e' : EnvironmentConfig) :
  resolveEnv ctx e = inr e' ->
  env_name e' = env_name e
  /\ env_providers e' = env_providers e
  /\ resolveObj ctx (env_variables e) = inr (env_variables e').
Proof.
  unfold resolveEnvironment.
  destruct (resolveOptionalString _ _ ctx "varfile" (env_varfile e)) as [err|vf];
    simpl; [done|].
  destruct (resolveObj ctx (env_variables e)) as [err|vars]; simpl; [done|].
  by intros [= <-].
Qed.

(** Legacy fragments are taken from the environments as written. *)
Lemma legacy_providers_raw (ctx : TemplateContext) (envs envs' : list EnvironmentConfig) :
  mapResult (resolveEnv ctx) envs = inr envs' ->
  flat_map convertLegacyProviders envs' = flat_map convertLegacyProviders envs.
Proof.
  intros Hmap%mapResult_inr.
  induction Hmap as [|e e' envs envs' He _ IH]; [done|].
  simpl. rewrite IH. f_equal.
  apply resolveEnvironment_inr in He as (Hn & Hp & _).
  unfold convertLegacyProviders. by rewrite Hn, Hp.
Qed.

(** The provider fragments never reach the template engine: with other
    fragments the outcome is the same, but for the fragments themselves. *)
Lemma resolveProjectConfig_frame (config : ProjectConfig) (provs : list ProviderConfig)
    (artifactsPath username : string) :
  resolveProject (withProviders provs config) artifactsPath username =
    rbind (resolveProject config artifactsPath username) (fun r =>
      ok (withProviders
            (provs ++ flat_map convertLegacyProviders (proj_environments config)) r)).
Proof.
  unfold resolveProjectConfig. simpl.
  set (ctx := ProjectConfigContext (proj_name config) artifactsPath username).
  destruct (resolveStringField _ _ ctx "defaultEnvironment" _) as [err|de]; simpl; [done|].
  destruct (resolveList _ _ ctx (default [] (proj_outputs config))) as [err|outs];
    simpl; [done|].
  destruct (resolveList _ _ ctx (default [] (proj_sources config))) as [err|srcs];
    simpl; [done|].
  destruct (resolveOptionalString _ _ ctx "varfile" _) as [err|vf]; simpl; [done|].
  destruct (resolveObj ctx (proj_variables config)) as [err|vars]; simpl; [done|].
  destruct (mapResult (resolveEnv ctx) (proj_environments config)) as [err|envs] eqn:Henvs;
    simpl; [done|].
  unfold ok, withProviders. simpl.
  by rewrite (legacy_providers_raw ctx _ _ Henvs).
Qed.

Lemma resolveProjectConfig_inr (config resolved : ProjectConfig)
    (artifactsPath username : string) :
  resolveProject config artifactsPath username = inr resolved ->
  let ctx := ProjectConfigContext (proj_name config) artifactsPath username in
  exists sources envs,
    resolveObj ctx (proj_variables config) = inr (proj_variables resolved)
    /\ resolveList _ resolveTemplateString ctx (default [] (proj_sources config)) = inr sources
    /\ proj_sources resolved = Some sources
    /\ mapResult (resolveEnv ctx) (proj_environments config) = inr envs
    /\ proj_environments resolved =
         match envs with [] => defaultEnvironments | _ => map stripLegacyProviders envs end
    /\ proj_providers resolved =
         proj_providers config ++ flat_map convertLegacyProviders (proj_environments config).
Proof.
  intros Hres ctx. revert Hres. unfold resolveProjectConfig. fold ctx.
  destruct (resolveStringField _ _ ctx "defaultEnvironment" _) as [err|de]; simpl; [done|].
  destruct (resolveList _ _ ctx (default [] (proj_outputs config))) as [err|outs];
    simpl; [done|].
  destruct (resolveList _ _ ctx (default [] (proj_sources config))) as [err|srcs];
    simpl; [done|].
  destruct (resolveOptionalString _ _ ctx "varfile" _) as [err|vf]; simpl; [done|].
  destruct (resolveObj ctx (proj_variables config)) as [err|vars]; simpl; [done|].
  destruct (mapResult (resolveEnv ctx) (proj_environments config)) as [err|envs] eqn:Henvs;
    simpl; [done|].
  intros [= <-]. simpl. exists srcs, envs. split_and!; try done.
  by rewrite (legacy_providers_raw ctx _ _ Henvs).
Qed.

(** *** What the resolution of a value, a string field and an environment
    gives *)

Lemma mapResult_of_Forall2 {A B} (f : A -> result B) (l : list A) (l' : list B) :
  Forall2 (fun x y => f x = inr y) l l' -> mapResult f l = inr l'.
Proof. induction 1 as [|x y l l' Hx _ IH]; simpl; [done|]. by rewrite Hx, IH. Qed.

Lemma resolveValue_JArr (ctx : TemplateContext) (l : list json) :
  resolveValue ctx (JArr l)
  = rbind (resolveList _ resolveTemplateString ctx l) (fun l' => ok (JArr l')).
Proof.
  unfold resolveList. simpl. f_equal.
  induction l as [|x l IH]; simpl; [done|]. by rewrite IH.
Qed.

Lemma resolveValue_JObj (ctx : TemplateContext) (o : jobject) :
  resolveValue ctx (JObj o) = rbind (resolveObj ctx o) (fun o' => ok (JObj o')).
Proof.
  unfold resolveObject. simpl. f_equal.
  induction o as [|[k v] o IH]; simpl; [done|]. rewrite IH.
  by destruct (resolveValue ctx v).
Qed.

Lemma resolveList_iff (ctx : TemplateContext) (l l' : list json) :
  resolveList _ resolveTemplateString ctx l = inr l'
  <-> Forall2 (fun x x' => resolveValue ctx x = inr x') l l'.
Proof. split; [apply mapResult_inr | apply mapResult_of_Forall2]. Qed.

Lemma resolveObject_iff (ctx : TemplateContext) (o o' : jobject) :
  resolveObj ctx o = inr o'
  <-> Forall2 (fun kv kv' => fst kv' = fst kv /\ resolveValue ctx (snd kv) = inr (snd kv'))
        o o'.
Proof.
  split; [apply resolveObject_inr|].
  intros Hall. apply mapResult_of_Forall2.
  eapply Forall2_impl; [exact Hall|].
  intros [k v] [k' v']; simpl. intros [-> ->]. reflexivity.
Qed.

Lemma resolveValue_JArr_iff (ctx : TemplateContext) (l : list json) (j' : json) :
  resolveValue ctx (JArr l) = inr j'
  <-> exists l', j' = JArr l' /\ Forall2 (fun x x' => resolveValue ctx x = inr x') l l'.
Proof.
  rewrite resolveValue_JArr. split.
  - destruct (resolveList _ _ ctx l) as [err|l'] eqn:Hl; simpl; [done|].
    intros [= <-]. exists l'. split; [done|]. by apply resolveList_iff.
  - intros (l' & -> & Hall). apply resolveList_iff in Hall. by rewrite Hall.
Qed.

Lemma resolveValue_JObj_iff (ctx : TemplateContext) (o : jobject) (j' : json) :
  resolveValue ctx (JObj o) = inr j'
  <-> exists o',
        j' = JObj o'
        /\ Forall2 (fun kv kv' => fst kv' = fst kv
                                  /\ resolveValue ctx (snd kv) = inr (snd kv')) o o'.
Proof.
  rewrite resolveValue_JObj. split.
  - destruct (resolveObj ctx o) as [err|o'] eqn:Ho; simpl; [done|].
    intros [= <-]. exists o'. split; [done|]. by apply resolveObject_iff.
  - intros (o' & -> & Hall). apply resolveObject_iff in Hall. by rewrite Hall.
Qed.

Lemma resolveStringField_inr (ctx : TemplateContext) (field s s' : string) :
  resolveStringField _ resolveTemplateString ctx field s = inr s'
  <-> resolveTemplateString ctx s = inr (JStr s').
Proof.
  unfold resolveStringField.
  destruct (resolveTemplateString ctx s) as [err|j]; simpl; [done|].
  destruct j; simpl; split; try done; by intros [= ->].
Qed.

Lemma resolveOptionalString_inr (ctx : TemplateContext) (field : string)
    (raw resolved : option string) :
  resolveOptionalString _ resolveTemplateString ctx field raw = inr resolved ->
  resolvedString ctx raw resolved.
Proof.
  unfold resolveOptionalString, resolvedOptionalString. destruct raw as [s|]; [|by intros [= <-]].
  destruct (resolveStringField _ _ ctx field s) as [err|s'] eqn:Hs; simpl; [done|].
  intros [= <-]. exists s'. split; [|done]. by apply resolveStringField_inr in Hs.
Qed.

Lemma resolveEnvironment_fields (ctx : TemplateContext) (e e' : EnvironmentConfig) :
  resolveEnv ctx e = inr e' ->
  env_name e' = env_name e
  /\ env_namespacing e' = Some (default NsOptional (env_namespacing e))
  /\ env_production e' = Some (default false (env_production e))
  /\ env_providers e' = env_providers e
  /\ resolvedString ctx (env_varfile e) (env_varfile e')
  /\ resolveObj ctx (env_variables e) = inr (env_variables e').
Proof.
  unfold resolveEnvironment.
  destruct (resolveOptionalString _ _ ctx "varfile" (env_varfile e)) as [err|vf] eqn:Hvf;
    simpl; [done|].
  destruct (resolveObj ctx (env_variables e)) as [err|vars]; simpl; [done|].
  intros [= <-]. simpl. split_and!; try done. by apply resolveOptionalString_inr in Hvf.
Qed.

(** Every field of a resolved project. *)
Lemma resolveProjectConfig_fields (config resolved : ProjectConfig)
    (artifactsPath username : string) :
  resolveProject config artifactsPath username = inr resolved ->
  let ctx := ProjectConfigContext (proj_name config) artifactsPath username in
  exists de outputs sources varfile envs,
    resolveTemplateString ctx (proj_defaultEnvironment config) = inr (JStr de)
    /\ resolveList _ resolveTemplateString ctx (default [] (proj_outputs config))
       = inr outputs
    /\ resolveList _ resolveTemplateString ctx (default [] (proj_sources config))
       = inr sources
    /\ resolvedString ctx (proj_varfile config) varfile
    /\ resolveObj ctx (proj_variables config) = inr (proj_variables resolved)
    /\ mapResult (resolveEnv ctx) (proj_environments config) = inr envs
    /\ proj_name resolved = proj_name config
    /\ proj_path resolved = proj_path config
    /\ proj_defaultEnvironment resolved =
         (if bool_decide (de = "") then
            match envs with [] => defaultEnvironmentName | e :: _ => env_name e end
          else de)
    /\ proj_outputs resolved = Some outputs
    /\ proj_sources resolved = Some sources
    /\ proj_varfile resolved = Some (default defaultVarfilePath varfile)
    /\ proj_environments resolved =
         match envs with [] => defaultEnvironments | _ => map stripLegacyProviders envs end.
Proof.
  intros Hres ctx. revert Hres. unfold resolveProjectConfig. fold ctx.
  destruct (resolveStringField _ _ ctx "defaultEnvironment" _) as [err|de] eqn:Hde;
    simpl; [done|].
  destruct (resolveList _ _ ctx (default [] (proj_outputs config))) as [err|outs];
    simpl; [done|].
  destruct (resolveList _ _ ctx (default [] (proj_sources config))) as [err|srcs];
    simpl; [done|].
  destruct (resolveOptionalString _ _ ctx "varfile" _) as [err|vf] eqn:Hvf; simpl; [done|].
  destruct (resolveObj ctx (proj_variables config)) as [err|vars]; simpl; [done|].
  destruct (mapResult (resolveEnv ctx) (proj_environments config)) as [err|envs] eqn:Henvs;
    simpl; [done|].
  intros [= <-]. simpl. exists de, outs, srcs, vf, envs.
  apply resolveStringField_inr in Hde. apply resolveOptionalString_inr in Hvf.
  by split_and!.
Qed.

End Templates.



(** The unit test "should resolve template strings on fields other than
    provider configs". *)
Example templated_fields_resolved :
  rbind (Examples.resolveTestProject Examples.templatedProject)
        (fun r => ok (proj_variables r, proj_sources r,
                      map env_variables (proj_environments r), proj_providers r))
  = inr ([("platform", JStr "linux")],
         Some [JObj [("name", JStr "foo");
                     ("repositoryUrl", JStr "git://github.com/foo/bar.git#boo")]],
         [[("envVar", JStr "foo")]],
         [mkProviderConfig "some-provider" None []]).
Proof. reflexivity. Qed.

(** The unit test "should convert old-style environment/provider config to
    the new canonical form". *)
Example legacy_providers_converted :
  rbind (Examples.resolveTestProject Examples.legacyProject)
        (fun r => ok (proj_providers r, map env_providers (proj_environments r)))
  = inr ([mkProviderConfig "provider-a" None [];
          mkProviderConfig "provider-b" (Some ["default"]) []],
         [Some []]).
Proof. reflexivity. Qed.

End ProjectConfigFacts.

(** ** The provider resolution task *)

Module TaskFacts.
Import Json JsonFacts Task.

Section ResolveProvider.
Context `{SchemaEngine}.
Variable resolveTemplateStrings :
  ProviderConfig -> list Provider -> jobject -> jobject -> result ProviderConfig.
Variable getProviderTemplateReferences : ProviderConfig -> list string.
Variable getPluginBases : GardenPlugin -> PluginMap -> list GardenPlugin.
Variable getPluginBaseNames : string -> PluginMap -> list string.
Variable garden : Garden.
Variable plugin : GardenPlugin.
Variable config : ProviderConfig.
Variable forceInit : bool.

(** *** The memo is only read *)

Lemma keepsMemo_ret {A} (a : A) : keepsMemo (ret a).
Proof. by intros st. Qed.

Lemma keepsMemo_fail {A} (e : GardenError) : keepsMemo (@fail _ A e).
Proof. by intros st. Qed.

Lemma keepsMemo_lift {A} (r : result A) : keepsMemo (lift r).
Proof. by intros st. Qed.

Lemma keepsMemo_emit (ev : Event) : keepsMemo (emit ev).
Proof. by intros st. Qed.

Lemma keepsMemo_readMemo (n : string) : keepsMemo (readMemo n).
Proof. by intros st. Qed.

Lemma keepsMemo_bind {A B} (m : M A) (f : A -> M B) :
  keepsMemo m -> (forall a, keepsMemo (f a)) -> keepsMemo (bind m f).
Proof.
  intros Hm Hf st. unfold bind. specialize (Hm st).
  destruct (m st) as [[e|a] st']; simpl in *; [done|].
  by rewrite Hf.
Qed.

Lemma keepsMemo_validate (c : ProviderConfig) (schema : Schema) (configType : string) :
  keepsMemo (validate garden c schema configType).
Proof.
  unfold validate. apply keepsMemo_bind; [apply keepsMemo_emit|].
  intros _. apply keepsMemo_lift.
Qed.

Lemma keepsMemo_validateBases (bases : list GardenPlugin) (c : ProviderConfig) :
  keepsMemo (validateBases garden bases c).
Proof.
  revert c. induction bases as [|b bases IH]; intros c; simpl.
  - apply keepsMemo_ret.
  - destruct (configSchema b); [|apply IH].
    apply keepsMemo_bind; [apply keepsMemo_validate | intros c'; apply IH].
Qed.

Lemma keepsMemo_ensurePrepared (tmpProvider : Provider) :
  keepsMemo (ensurePrepared garden forceInit tmpProvider).
Proof.
  unfold ensurePrepared.
  apply keepsMemo_bind; [apply keepsMemo_emit|]. intros _.
  apply keepsMemo_bind; [apply keepsMemo_lift|]. intros status.
  apply keepsMemo_bind.
  - destruct (forceInit || negb (ready status)); [|apply keepsMemo_ret].
    apply keepsMemo_bind; [apply keepsMemo_emit|]. intros _. apply keepsMemo_lift.
  - intros status'. destruct (negb (ready status'));
      [apply keepsMemo_fail | apply keepsMemo_ret].
Qed.

Lemma keepsMemo_process (dependencyResults : TaskResults) :
  keepsMemo (process resolveTemplateStrings getPluginBases garden plugin config forceInit
               dependencyResults).
Proof.
  unfold process.
  apply keepsMemo_bind; [apply keepsMemo_readMemo|].
  intros [p|]; [apply keepsMemo_ret|].
  apply keepsMemo_bind; [apply keepsMemo_emit|]. intros _.
  apply keepsMemo_bind; [apply keepsMemo_lift|]. intros rc.
  apply keepsMemo_bind; [apply keepsMemo_validate|]. intros c1.
  apply keepsMemo_bind; [apply keepsMemo_emit|]. intros _.
  apply keepsMemo_bind; [apply keepsMemo_lift|]. intros out.
  apply keepsMemo_bind; [apply keepsMemo_validate|]. intros c2.
  apply keepsMemo_bind; [apply keepsMemo_validateBases|]. intros c3.
  apply keepsMemo_bind; [apply keepsMemo_ensurePrepared|]. intros status.
  apply keepsMemo_ret.
Qed.

Lemma process_memo_hit (dependencyResults : TaskResults) (st : State) (p : Provider) :
  resolvedProviders st !! name config = Some p ->
  process resolveTemplateStrings getPluginBases garden plugin config forceInit
    dependencyResults st = (inr p, st).
Proof. intros Hp. unfold process, bind, readMemo. by rewrite Hp. Qed.

(** *** Explicit dependencies *)

Lemma matchDependencies_nil (plugins : PluginMap) (depName : string) :
  (forall c, c ∈ getRawProviderConfigs garden ->
     name c <> depName /\ depName ∉ getPluginBaseNames (name c) plugins) ->
  matchDependencies getPluginBaseNames garden plugins depName = [].
Proof.
  unfold matchDependencies. generalize (getRawProviderConfigs garden) as l.
  intros l. induction l as [|c l IH].
  - done.
  - intros Hno. rewrite filter_cons_False.
    + apply IH. intros c' Hc'. apply Hno. by right.
    + destruct (Hno c) as [Hne Hnb]; [by left|].
      intros [Hn|Hb]; [by apply Hne | by apply Hnb].
Qed.

(** The check stops at the first explicit dependency that nothing matches. *)
Lemma checkExplicitDeps_missing (plugins : PluginMap) (deps : list string) (depName : string) :
  depName ∈ deps ->
  matchDependencies getPluginBaseNames garden plugins depName = [] ->
  exists pre missing post,
    deps = pre ++ missing :: post
    /\ (forall d, d ∈ pre -> matchDependencies getPluginBaseNames garden plugins d <> [])
    /\ matchDependencies getPluginBaseNames garden plugins missing = []
    /\ checkExplicitDeps getPluginBaseNames garden config plugins deps
       = inl (missingDependency config missing).
Proof.
  induction deps as [|d deps IH]; intros Hin Hnil.
  - by apply elem_of_nil in Hin.
  - simpl.
    destruct (matchDependencies getPluginBaseNames garden plugins d) as [|c l] eqn:Hd.
    + exists [], d, deps. simpl. split_and!; try done.
      intros d' Hd'. by apply elem_of_nil in Hd'.
    + assert (depName ∈ deps) as Hin'.
      { apply elem_of_cons in Hin as [->|Hin]; [congruence | done]. }
      destruct (IH Hin' Hnil) as (pre & missing & post & -> & Hpre & Hmiss & Hcheck).
      exists (d :: pre), missing, post. simpl. split_and!; try done.
      intros d' [->|Hd']%elem_of_cons; [by rewrite Hd | by apply Hpre].
Qed.

Lemma missingDependency_mentions (depName : string) :
  errType (missingDependency config depName) = ConfigurationError
  /\ mentions (message (missingDependency config depName)) (name config)
  /\ mentions (message (missingDependency config depName)) depName.
Proof.
  split; [done|]. split; simpl.
  - apply mentions_here.
  - do 3 apply mentions_app_r. by exists "", ("', which is not configured. " +:+
      "You need to add '" +:+ depName +:+
      "' to your project configuration for the '" +:+ name config +:+ "' to work.").
Qed.

(** *** The readiness protocol *)

Lemma notReady_mentions (pluginName : string) :
  errType (notReady pluginName) = PluginError
  /\ mentions (message (notReady pluginName)) pluginName.
Proof. split; [done|]. simpl. apply mentions_here. Qed.

Lemma ensurePrepared_status_error (tmpProvider : Provider) (st : State) (e : GardenError) :
  default (fun _ => ok defaultEnvironmentStatus)
          (getEnvironmentStatusHandler (getActionRouter garden) (prov_name tmpProvider))
    tmpProvider = inl e ->
  ensurePrepared garden forceInit tmpProvider st
  = (inl e, record (EvGetEnvironmentStatus (prov_name tmpProvider)) st).
Proof.
  intros Hs. unfold ensurePrepared, bind, emit, lift. simpl. by rewrite Hs.
Qed.

(** *** Validation of the configuration that the handler returned *)

Lemma validate_run (c : ProviderConfig) (schema : Schema) (configType : string) (st : State) :
  validate garden c schema configType st
  = (validateWithPath c schema (projectRoot garden) (projectRoot garden) configType,
     record (EvValidate c schema configType) st).
Proof. reflexivity. Qed.

Lemma validateBases_skip (b : GardenPlugin) (bases : list GardenPlugin) (c : ProviderConfig) :
  configSchema b = None ->
  validateBases garden (b :: bases) c = validateBases garden bases c.
Proof. intros Hb. simpl. by rewrite Hb. Qed.

Lemma validateBases_step (b : GardenPlugin) (schema : Schema) (bases : list GardenPlugin)
    (c : ProviderConfig) (st : State) :
  configSchema b = Some schema ->
  validateBases garden (b :: bases) c st =
    match validateWithPath (omitPath c) (unknown schema true)
            (projectRoot garden) (projectRoot garden) (baseConfigType b) with
    | inl e => (inl e, record (EvValidate (omitPath c) (unknown schema true)
                                 (baseConfigType b)) st)
    | inr c' => validateBases garden bases c'
                  (record (EvValidate (omitPath c) (unknown schema true)
                             (baseConfigType b)) st)
    end.
Proof.
  intros Hb. simpl. rewrite Hb. unfold bind. rewrite validate_run.
  unfold baseConfigType. by destruct (validateWithPath _ _ _ _ _).
Qed.

(** On success the bases with a schema were validated against in order. *)
Lemma validateBases_schemas (bases : list GardenPlugin) (c c' : ProviderConfig)
    (st st' : State) :
  validateBases garden bases c st = (inr c', st') ->
  exists evs, trace st' = trace st ++ evs /\ validatedSchemas evs = baseSchemas bases.
Proof.
  revert c st. induction bases as [|b bases IH]; intros c st; simpl.
  - intros [= <- <-]. exists []. by rewrite app_nil_r.
  - unfold baseSchemas. simpl. destruct (configSchema b) as [schema|] eqn:Hb; simpl.
    + unfold bind. rewrite validate_run.
      destruct (validateWithPath _ _ _ _ _) as [e|c1]; [done|].
      intros (evs & Htr & Hs)%IH. simpl in Htr.
      eexists (_ :: evs). split.
      * rewrite Htr. by rewrite <- app_assoc.
      * unfold validatedSchemas in *. simpl. f_equal. exact Hs.
    + apply IH.
Qed.

Lemma omitPath_setPath (c : ProviderConfig) (root : string) :
  omitPath (setPath c root) = omitPath c.
Proof. unfold omitPath, setPath. simpl. f_equal. apply obj_delete_set. Qed.

Lemma omitPath_idemp (c : ProviderConfig) : omitPath (omitPath c) = omitPath c.
Proof. unfold omitPath. simpl. f_equal. apply obj_delete_idemp. Qed.

(** When validation gives back what it was given, every base sees the
    configuration that the handler returned. *)
Lemma validateBases_same_checking (bases : list GardenPlugin)
    (returned c : ProviderConfig) (st : State) :
  (forall c0 s p r t c1, validateWithPath c0 s p r t = inr c1 -> c1 = c0) ->
  omitPath c = omitPath returned ->
  validateBases garden bases c st = validateBases_same garden bases returned c st.
Proof.
  intros Hid. revert c st. induction bases as [|b bases IH]; intros c st Hc; simpl.
  - done.
  - destruct (configSchema b) as [schema|]; [|by apply IH].
    unfold bind. rewrite !validate_run, Hc.
    destruct (validateWithPath _ _ _ _ _) as [e|c1] eqn:Hv; [done|].
    apply IH. apply Hid in Hv as ->. apply omitPath_idemp.
Qed.

(** What [process] does once [configureProvider] has returned. *)
Lemma process_after_configure (dependencyResults : TaskResults) (st : State)
    (rc c1 : ProviderConfig) (configureOutput : ConfigureProviderResult) :
  let root := projectRoot garden in
  let own := default joi_object (configSchema plugin) in
  let deps := map snd dependencyResults in
  let params :=
    {| cp_environmentName := garden_environmentName garden;
       cp_namespace := garden_namespace garden;
       cp_pluginName := name rc;
       cp_config := setPath c1 root;
       cp_projectName := projectName garden;
       cp_projectRoot := root;
       cp_dependencies := deps |} in
  let bases := getPluginBases plugin (keyByName (getPlugins garden)) in
  let moduleConfigs := default [] (cr_moduleConfigs configureOutput) in
  resolvedProviders st !! name config = None ->
  resolveTemplateStrings config deps (garden_variables garden) (secrets garden) = inr rc ->
  validateWithPath (omitPath rc) own root root "provider configuration" = inr c1 ->
  configureProvider (getActionRouter garden) params = inr configureOutput ->
  process resolveTemplateStrings getPluginBases garden plugin config forceInit
    dependencyResults st
  = bind (validateOutput garden plugin bases configureOutput) (fun resolvedConfig =>
    bind (ensurePrepared garden forceInit
            (providerFromConfig resolvedConfig deps moduleConfigs defaultEnvironmentStatus))
         (fun status => ret (providerFromConfig resolvedConfig deps moduleConfigs status)))
      (record (EvConfigureProvider params)
         (record (EvValidate (omitPath rc) own "provider configuration")
            (record (EvResolveTemplateStrings config) st))).
Proof.
  intros root own deps params bases moduleConfigs Hmemo Hrc Hc1 Hout.
  unfold process. unfold bind at 1. unfold readMemo. rewrite Hmemo.
  unfold bind at 1. unfold emit at 1. simpl.
  unfold bind at 1. unfold lift at 1. fold deps. rewrite Hrc.
  unfold bind at 1. unfold validateConfig at 1. rewrite validate_run.
  fold own root. rewrite Hc1.
  unfold bind at 1. unfold emit at 1. simpl.
  unfold bind at 1. unfold lift at 1. fold root deps params. rewrite Hout.
  unfold validateOutput.
  unfold bind. fold root own moduleConfigs bases.
  unfold record. cbn [resolvedProviders trace].
  destruct (validateConfig _ _ _ _) as [[e|a] st1]; [done|].
  by destruct (validateBases _ _ _ _) as [[e|a0] st2].
Qed.

End ResolveProvider.

(** C1, as the code has it: when the memo holds a provider of the name,
    [process] returns it and does nothing else (no call leaves the task,
    the state is the one it started in); [process] itself never writes the
    memo, whatever it returns; once the caller has stored the provider that
    [process] returned, any later [process] for the name returns that
    provider and calls no handler. *)
Theorem memo_hit_returns_memoized `{SchemaEngine}
    (resolveTemplateStrings :
       ProviderConfig -> list Provider -> jobject -> jobject -> result ProviderConfig)
    (getPluginBases : GardenPlugin -> PluginMap -> list GardenPlugin)
    (garden : Garden) (plugin : GardenPlugin) (config : ProviderConfig)
    (forceInit : bool) (dependencyResults : TaskResults) (st : State) (p : Provider) :
  let run deps := process resolveTemplateStrings getPluginBases garden plugin config
                          forceInit deps in
  resolvedProviders st !! name config = Some p ->
  run dependencyResults st = (inr p, st)
  /\ (forall deps st0, resolvedProviders (snd (run deps st0)) = resolvedProviders st0)
  /\ (forall deps st0 st1 q deps',
        run deps st0 = (inr q, st1) ->
        run deps' (store (name config) q st1) = (inr q, store (name config) q st1)).
Proof.
  intros run Hp. split_and!.
  - by apply process_memo_hit.
  - intros deps st0. apply keepsMemo_process.
  - intros deps st0 st1 q deps' _. apply process_memo_hit.
    unfold store. simpl. apply lookup_insert_eq.
Qed.

Lemma memo_hit_returns_memoized_witness :
  TaskExamples.runProcess TaskExamples.defaultRouter TaskExamples.testPlugin
    TaskExamples.testConfig true TaskExamples.memoState
  = (inr TaskExamples.resolvedTestProvider, TaskExamples.memoState).
Proof.
  exact (proj1 (memo_hit_returns_memoized Collaborators.resolveTemplateStrings
                  Collaborators.getPluginBases
                  (TaskExamples.testGarden TaskExamples.defaultRouter)
                  TaskExamples.testPlugin TaskExamples.testConfig true []
                  TaskExamples.memoState TaskExamples.resolvedTestProvider eq_refl)).
Defined.

(** C1 as stated fails: [process] resolves the provider and hands it back
    with the memo still empty, and a second [process] on the state it left
    calls [configureProvider] again. *)
Lemma process_leaves_memo_empty :
  exists st1 st2,
    TaskExamples.runProcess TaskExamples.defaultRouter TaskExamples.testPlugin
      TaskExamples.testConfig false TaskExamples.emptyState
    = (inr TaskExamples.resolvedTestProvider, st1)
    /\ resolvedProviders st1 !! "test-plugin" = None
    /\ TaskExamples.runProcess TaskExamples.defaultRouter TaskExamples.testPlugin
         TaskExamples.testConfig false st1
       = (inr TaskExamples.resolvedTestProvider, st2)
    /\ length (List.filter TaskExamples.isConfigureProvider (trace st2)) = 2.
Proof.
  eexists. eexists. split_and!.
  - vm_compute. reflexivity.
  - reflexivity.
  - vm_compute. reflexivity.
  - reflexivity.
Qed.

(** C4: when nothing that is configured matches an explicit dependency,
    [resolveDependencies] fails with a ConfigurationError that names the
    provider and the first explicit dependency that nothing matches, which
    is the given one when the others are matched. *)
Theorem missing_explicit_dependency `{SchemaEngine}
    (getProviderTemplateReferences : ProviderConfig -> list string)
    (getPluginBaseNames : string -> PluginMap -> list string)
    (garden : Garden) (plugin : GardenPlugin) (config : ProviderConfig)
    (forceInit : bool) (depName : string) :
  let plugins := keyByName (getPlugins garden) in
  let matched := matchDependencies getPluginBaseNames garden plugins in
  depName ∈ dependencies plugin ->
  (forall c, c ∈ getRawProviderConfigs garden ->
     name c <> depName /\ depName ∉ getPluginBaseNames (name c) plugins) ->
  exists pre missing post,
    dependencies plugin = pre ++ missing :: post
    /\ (forall d, d ∈ pre -> matched d <> [])
    /\ matched missing = []
    /\ resolveDependencies getProviderTemplateReferences getPluginBaseNames garden
         plugin config forceInit
       = inl (missingDependency config missing)
    /\ errType (missingDependency config missing) = ConfigurationError
    /\ mentions (message (missingDependency config missing)) (name config)
    /\ mentions (message (missingDependency config missing)) missing
    /\ ((forall d, d ∈ dependencies plugin -> d <> depName -> matched d <> []) ->
        missing = depName).
Proof.
  intros plugins matched Hin Hno.
  assert (matched depName = []) as Hnil by (by apply matchDependencies_nil).
  destruct (checkExplicitDeps_missing getPluginBaseNames garden config plugins
              (dependencies plugin) depName Hin Hnil)
    as (pre & missing & post & Hsplit & Hpre & Hmiss & Hcheck).
  exists pre, missing, post. split_and!; try done.
  - unfold resolveDependencies. fold plugins. by rewrite Hcheck.
  - apply missingDependency_mentions.
  - apply missingDependency_mentions.
  - intros Hothers. destruct (decide (missing = depName)) as [|Hne]; [done|].
    exfalso. apply (Hothers missing); [|done|done].
    rewrite Hsplit. apply elem_of_app. right. by left.
Qed.

Lemma missing_explicit_dependency_witness :
  resolveDependencies Collaborators.getProviderTemplateReferences
    Collaborators.getPluginBaseNames
    (TaskExamples.testGarden TaskExamples.defaultRouter)
    TaskExamples.dependantPlugin TaskExamples.dependantConfig false
  = inl (mkError ConfigurationError
           ("Provider 'test-plugin-b' depends on provider 'test-plugin-c', which is " +:+
            "not configured. You need to add 'test-plugin-c' to your project " +:+
            "configuration for the 'test-plugin-b' to work.")
           [("config", "test-plugin-b"); ("missingProviderName", "test-plugin-c")]).
Proof.
  assert ("test-plugin-c" ∈ dependencies TaskExamples.dependantPlugin) as Hin
    by (by left).
  assert (forall c, c ∈ getRawProviderConfigs
                          (TaskExamples.testGarden TaskExamples.defaultRouter) ->
            name c <> "test-plugin-c"
            /\ "test-plugin-c" ∉ Collaborators.getPluginBaseNames (name c)
                 (keyByName (getPlugins
                               (TaskExamples.testGarden TaskExamples.defaultRouter))))
    as Hno.
  { intros c Hc.
    apply elem_of_cons in Hc as [->|Hc].
    { split; [discriminate|]. vm_compute.
      intros Hx. apply elem_of_cons in Hx as [Hx|Hx]; [discriminate|].
      by apply elem_of_nil in Hx. }
    apply elem_of_cons in Hc as [->|Hc].
    { split; [discriminate|]. vm_compute. apply not_elem_of_nil. }
    by apply elem_of_nil in Hc. }
  destruct (missing_explicit_dependency Collaborators.getProviderTemplateReferences
              Collaborators.getPluginBaseNames
              (TaskExamples.testGarden TaskExamples.defaultRouter)
              TaskExamples.dependantPlugin TaskExamples.dependantConfig false
              "test-plugin-c" Hin Hno)
    as (pre & missing & post & _ & _ & _ & Hres & _ & _ & _ & Honly).
  rewrite Hres, Honly; [reflexivity|].
  intros d Hd Hne. apply elem_of_cons in Hd as [Hd|Hd]; [destruct (Hne Hd)|].
  apply elem_of_nil in Hd. destruct Hd.
Defined.

(** C3: the status handler is asked first; the prepare handler is called,
    with the status and the flag, exactly when the status is not ready or
    the init is forced, and its status is the one kept; a status that is
    still not ready fails with a PluginError that names the provider;
    otherwise the status is returned. *)
Theorem readiness_protocol `{SchemaEngine}
    (garden : Garden) (forceInit : bool) (tmpProvider : Provider) (st : State)
    (s0 : EnvironmentStatus) :
  let n := prov_name tmpProvider in
  let router := getActionRouter garden in
  let statusHandler :=
    default (fun _ => ok defaultEnvironmentStatus) (getEnvironmentStatusHandler router n) in
  let prepareHandler :=
    default (fun _ => ok s0) (prepareEnvironmentHandler router n) in
  let prepared :=
    prepareHandler {| pe_ctx := tmpProvider; pe_force := forceInit; pe_status := s0 |} in
  let out := ensurePrepared garden forceInit tmpProvider st in
  statusHandler tmpProvider = inr s0 ->
  exists new,
    trace (snd out) = trace st ++ EvGetEnvironmentStatus n :: new
    /\ (new = [EvPrepareEnvironment n forceInit s0] <->
        (forceInit = true \/ ready s0 = false))
    /\ (new = [] <-> (forceInit = false /\ ready s0 = true))
    /\ (forceInit = true \/ ready s0 = false ->
        match prepared with
        | inl e => fst out = inl e
        | inr s1 => fst out = if ready s1 then inr s1 else inl (notReady n)
        end)
    /\ (forceInit = false -> ready s0 = true -> fst out = inr s0)
    /\ (forall s, fst out = inr s -> ready s = true)
    /\ errType (notReady n) = PluginError
    /\ mentions (message (notReady n)) n.
Proof.
  intros n router statusHandler prepareHandler prepared out Hstatus.
  unfold statusHandler in Hstatus.
  assert (out =
    if forceInit || negb (ready s0) then
      match prepared with
      | inl e => (inl e, record (EvPrepareEnvironment n forceInit s0)
                           (record (EvGetEnvironmentStatus n) st))
      | inr s1 => (if ready s1 then inr s1 else inl (notReady n),
                   record (EvPrepareEnvironment n forceInit s0)
                     (record (EvGetEnvironmentStatus n) st))
      end
    else (inr s0, record (EvGetEnvironmentStatus n) st)) as Hout.
  { unfold out, ensurePrepared, bind, emit, lift. simpl. fold n router.
    rewrite Hstatus.
    destruct (forceInit || negb (ready s0)) eqn:Hprep.
    - unfold bind, emit, lift. simpl.
      fold prepareHandler. fold prepared.
      destruct prepared as [e|s1]; [done|].
      by destruct (ready s1).
    - apply orb_false_iff in Hprep as [_ Hr]. apply negb_false_iff in Hr.
      unfold ret. by rewrite Hr. }
  clearbody out prepared. subst out.
  destruct (forceInit || negb (ready s0)) eqn:Hprep.
  - assert (forceInit = true \/ ready s0 = false) as Hor.
    { apply orb_true_iff in Hprep as [Hf|Hr]; [by left | right].
      by apply negb_true_iff. }
    exists [EvPrepareEnvironment n forceInit s0]. split_and!.
    + destruct prepared; simpl; by rewrite <- app_assoc.
    + split; [intros _; exact Hor | done].
    + split; [discriminate|]. intros [Hf Hr]. destruct Hor; congruence.
    + intros _. by destruct prepared.
    + intros Hf Hr. destruct Hor; congruence.
    + intros s. destruct prepared as [e|s1]; simpl; [done|].
      destruct (ready s1) eqn:Hr1; [by intros [= <-] | done].
    + done.
    + apply mentions_here.
  - apply orb_false_iff in Hprep as [Hf Hr]. apply negb_false_iff in Hr.
    exists []. split_and!.
    + done.
    + split; [discriminate|]. intros [?|?]; congruence.
    + done.
    + intros [?|?]; congruence.
    + done.
    + simpl. by intros s [= <-].
    + done.
    + apply mentions_here.
Qed.

(** A provider that is not ready and that preparing does not make ready. *)
Lemma readiness_protocol_witness :
  fst (ensurePrepared (TaskExamples.testGarden TaskExamples.neverReadyRouter) false
         TaskExamples.resolvedTestProvider TaskExamples.emptyState)
  = inl (notReady "test-plugin").
Proof.
  destruct (readiness_protocol (TaskExamples.testGarden TaskExamples.neverReadyRouter)
              false TaskExamples.resolvedTestProvider TaskExamples.emptyState
              (mkStatus false []) eq_refl)
    as (new & _ & _ & _ & Hprep & _).
  exact (Hprep (or_intror eq_refl)).
Defined.

(** C5, as the code has it: the configuration that the handler returned is
    validated, without its path, against the schema of the plugin (the
    empty object schema when it has none); what that validation gives back
    is validated against the first base that has a schema, and what each
    base gives back against the next, unknown keys allowed; bases without a
    schema are skipped.  The bases all see the returned configuration when
    validation gives back what it was given. *)
Theorem base_validation_threaded `{SchemaEngine}
    (resolveTemplateStrings :
       ProviderConfig -> list Provider -> jobject -> jobject -> result ProviderConfig)
    (getPluginBases : GardenPlugin -> PluginMap -> list GardenPlugin)
    (garden : Garden) (plugin : GardenPlugin) (config : ProviderConfig)
    (forceInit : bool) (dependencyResults : TaskResults) (st : State)
    (rc c1 : ProviderConfig) (configureOutput : ConfigureProviderResult) :
  let root := projectRoot garden in
  let own := default joi_object (configSchema plugin) in
  let deps := map snd dependencyResults in
  let params :=
    {| cp_environmentName := garden_environmentName garden;
       cp_namespace := garden_namespace garden;
       cp_pluginName := name rc;
       cp_config := setPath c1 root;
       cp_projectName := projectName garden;
       cp_projectRoot := root;
       cp_dependencies := deps |} in
  let bases := getPluginBases plugin (keyByName (getPlugins garden)) in
  let moduleConfigs := default [] (cr_moduleConfigs configureOutput) in
  let returned := cr_config configureOutput in
  resolvedProviders st !! name config = None ->
  resolveTemplateStrings config deps (garden_variables garden) (secrets garden) = inr rc ->
  validateWithPath (omitPath rc) own root root "provider configuration" = inr c1 ->
  configureProvider (getActionRouter garden) params = inr configureOutput ->
  process resolveTemplateStrings getPluginBases garden plugin config forceInit
    dependencyResults st
  = bind (validateOutput garden plugin bases configureOutput) (fun resolvedConfig =>
    bind (ensurePrepared garden forceInit
            (providerFromConfig resolvedConfig deps moduleConfigs defaultEnvironmentStatus))
         (fun status => ret (providerFromConfig resolvedConfig deps moduleConfigs status)))
      (record (EvConfigureProvider params)
         (record (EvValidate (omitPath rc) own "provider configuration")
            (record (EvResolveTemplateStrings config) st)))
  /\ (forall st0,
        validateOutput garden plugin bases configureOutput st0 =
          match validateWithPath (omitPath returned) own root root
                  "provider configuration" with
          | inl e =>
              (inl e, record (EvValidate (omitPath returned) own "provider configuration") st0)
          | inr c2 =>
              validateBases garden bases (setPath c2 root)
                (record (EvValidate (omitPath returned) own "provider configuration") st0)
          end)
  /\ (forall b bs c,
        configSchema b = None ->
        validateBases garden (b :: bs) c = validateBases garden bs c)
  /\ (forall b schema bs c st0,
        configSchema b = Some schema ->
        validateBases garden (b :: bs) c st0 =
          match validateWithPath (omitPath c) (unknown schema true) root root
                  (baseConfigType b) with
          | inl e =>
              (inl e, record (EvValidate (omitPath c) (unknown schema true)
                                (baseConfigType b)) st0)
          | inr c' =>
              validateBases garden bs c'
                (record (EvValidate (omitPath c) (unknown schema true)
                           (baseConfigType b)) st0)
          end)
  /\ (forall st0 c st1,
        validateOutput garden plugin bases configureOutput st0 = (inr c, st1) ->
        exists evs, trace st1 = trace st0 ++ evs
                    /\ validatedSchemas evs = own :: baseSchemas bases)
  /\ ((forall c0 s p r t c', validateWithPath c0 s p r t = inr c' -> c' = c0) ->
      forall st0,
        validateOutput garden plugin bases configureOutput st0 =
        validateOutput_same garden plugin bases configureOutput st0).
Proof.
  intros root own deps params bases moduleConfigs returned Hmemo Hrc Hc1 Hout.
  split_and!.
  - by apply process_after_configure.
  - intros st0. unfold validateOutput, bind, validateConfig.
    rewrite validate_run. fold own root returned.
    by destruct (validateWithPath (omitPath returned) own root root
                   "provider configuration").
  - intros b bs c Hb. by apply validateBases_skip.
  - intros b schema bs c st0 Hb. by apply validateBases_step.
  - intros st0 c st1. unfold validateOutput, bind, validateConfig.
    rewrite validate_run. fold own root returned.
    destruct (validateWithPath (omitPath returned) own root root
                "provider configuration") as [e|c2]; [done|].
    intros (evs & Htr & Hs)%validateBases_schemas. simpl in Htr.
    eexists (_ :: evs). split.
    + rewrite Htr. by rewrite <- app_assoc.
    + unfold validatedSchemas in *. simpl. f_equal. exact Hs.
  - intros Hid st0. unfold validateOutput, validateOutput_same, bind, validateConfig.
    rewrite validate_run. fold own root returned.
    destruct (validateWithPath (omitPath returned) own root root
                "provider configuration") as [e|c2] eqn:Hv; [done|].
    apply validateBases_same_checking; [done|].
    rewrite omitPath_setPath. apply Hid in Hv as ->. apply omitPath_idemp.
Qed.

(** The plugin of the examples, whose handler returns the configuration
    without the key that the schema fills in. *)
Lemma base_validation_threaded_witness :
  TaskExamples.runProcess TaskExamples.strippingRouter TaskExamples.testPlugin
    TaskExamples.testConfig false TaskExamples.emptyState
  = bind (validateOutput (TaskExamples.testGarden TaskExamples.strippingRouter)
            TaskExamples.testPlugin [TaskExamples.basePlugin] TaskExamples.strippedOutput)
      (fun resolvedConfig =>
       bind (ensurePrepared (TaskExamples.testGarden TaskExamples.strippingRouter) false
               (providerFromConfig resolvedConfig [] [] defaultEnvironmentStatus))
            (fun status => ret (providerFromConfig resolvedConfig [] [] status)))
      TaskExamples.configuredState.
Proof.
  exact (proj1 (base_validation_threaded Collaborators.resolveTemplateStrings
                  Collaborators.getPluginBases
                  (TaskExamples.testGarden TaskExamples.strippingRouter)
                  TaskExamples.testPlugin TaskExamples.testConfig false []
                  TaskExamples.emptyState TaskExamples.testConfig
                  (mkProviderConfig "test-plugin" None [("foo", JStr "bar")])
                  TaskExamples.strippedOutput eq_refl eq_refl eq_refl eq_refl)).
Defined.

(** C5 as stated fails when validation fills in defaults: the handler
    returns a configuration without [foo], the schema of the plugin fills
    it in, and the base, which requires [foo], is given the filled-in
    configuration and accepts it; the configuration that the handler
    returned would have been rejected by the base. *)
Lemma base_sees_validated_config :
  let garden := TaskExamples.testGarden TaskExamples.strippingRouter in
  let returned := cr_config TaskExamples.strippedOutput in
  let filled := mkProviderConfig "test-plugin" None [("foo", JStr "bar")] in
  configureProvider TaskExamples.strippingRouter TaskExamples.strippingParams
    = inr TaskExamples.strippedOutput
  /\ (exists st1,
        validateOutput garden TaskExamples.testPlugin [TaskExamples.basePlugin]
          TaskExamples.strippedOutput TaskExamples.configuredState = (inr filled, st1)
        /\ List.existsb (TaskExamples.isBaseValidationOf filled) (trace st1) = true
        /\ List.existsb (TaskExamples.isBaseValidationOf returned) (trace st1) = false)
  /\ omitPath returned <> filled
  /\ (exists e st2,
        validateOutput_same garden TaskExamples.testPlugin [TaskExamples.basePlugin]
          TaskExamples.strippedOutput TaskExamples.configuredState = (inl e, st2)
        /\ errType e = ConfigurationError)
  /\ (exists st3,
        TaskExamples.runProcess TaskExamples.strippingRouter TaskExamples.testPlugin
          TaskExamples.testConfig false TaskExamples.emptyState
        = (inr TaskExamples.resolvedTestProvider, st3)).
Proof.
  intros garden returned filled. split_and!.
  - reflexivity.
  - eexists. split_and!; [vm_compute; reflexivity | reflexivity | reflexivity].
  - discriminate.
  - eexists. eexists. split; [vm_compute; reflexivity | reflexivity].
  - eexists. vm_compute. reflexivity.
Qed.

(** A provider that is not ready is prepared and the status of the prepare
    handler is the one of the resolved provider. *)
Example prepared_status_adopted :
  fst (TaskExamples.runProcess TaskExamples.preparingRouter TaskExamples.testPlugin
         TaskExamples.testConfig false TaskExamples.emptyState)
  = inr (providerFromConfig (mkProviderConfig "test-plugin" None [("foo", JStr "bar")])
           [] [] (mkStatus true [("prepared", JBool true)])).
Proof. vm_compute. reflexivity. Qed.

(** A forced init prepares a provider that reports ready. *)
Example forced_init_prepares :
  List.last (trace (snd (TaskExamples.runProcess TaskExamples.defaultRouter
                           TaskExamples.testPlugin TaskExamples.testConfig true
                           TaskExamples.emptyState)))
            (EvGetEnvironmentStatus "")
  = EvPrepareEnvironment "test-plugin" true defaultEnvironmentStatus.
Proof. vm_compute. reflexivity. Qed.

(** A provider that stays not ready fails the resolution. *)
Example never_ready_fails :
  fst (TaskExamples.runProcess TaskExamples.neverReadyRouter TaskExamples.testPlugin
         TaskExamples.testConfig false TaskExamples.emptyState)
  = inl (notReady "test-plugin").
Proof. vm_compute. reflexivity. Qed.

End TaskFacts.

(** ** More on the provider resolution task *)

Module TaskMoreFacts.
Import Json JsonFacts Task TaskCalls TaskFacts.

Section ResolveProvider.
Context `{SchemaEngine}.
Variable resolveTemplateStrings :
  ProviderConfig -> list Provider -> jobject -> jobject -> result ProviderConfig.
Variable getProviderTemplateReferences : ProviderConfig -> list string.
Variable getPluginBases : GardenPlugin -> PluginMap -> list GardenPlugin.
Variable getPluginBaseNames : string -> PluginMap -> list string.
Variable garden : Garden.
Variable plugin : GardenPlugin.
Variable config : ProviderConfig.
Variable forceInit : bool.

(** *** Dependencies *)

Lemma checkExplicitDeps_ok (plugins : PluginMap) (deps : list string) :
  checkExplicitDeps getPluginBaseNames garden config plugins deps = inr tt <->
  forall d, d ∈ deps -> matchDependencies getPluginBaseNames garden plugins d <> [].
Proof.
  induction deps as [|d deps IH]; simpl.
  - split; [|done]. intros _ d Hd. apply elem_of_nil in Hd. destruct Hd.
  - destruct (matchDependencies getPluginBaseNames garden plugins d) as [|c l] eqn:Hd;
      simpl.
    + split; [done|]. intros Hall. exfalso. apply (Hall d); [by left | done].
    + rewrite IH. split.
      * intros Hall d' Hd'. apply elem_of_cons in Hd' as [Heq|Hd'].
        -- subst d'. rewrite Hd. discriminate.
        -- by apply Hall.
      * intros Hall d' Hd'. apply Hall. by right.
Qed.

Lemma fold_insert_lookup (l : list GardenPlugin) (m : gmap string GardenPlugin)
    (n : string) :
  fold_left (fun m p => <[plugin_name p := p]> m) l m !! n =
    match last (filter (fun p => plugin_name p = n) l) with
    | Some p => Some p
    | None => m !! n
    end.
Proof.
  revert m. induction l as [|p l IH]; intros m; simpl; [done|].
  rewrite IH. destruct (decide (plugin_name p = n)) as [Hn|Hn].
  - rewrite filter_cons_True by done. rewrite last_cons.
    destruct (last (filter (fun p0 => plugin_name p0 = n) l)); [done|].
    rewrite <- Hn. apply lookup_insert_eq.
  - rewrite filter_cons_False by done.
    destruct (last (filter (fun p0 => plugin_name p0 = n) l)); [done|].
    by apply lookup_insert_ne.
Qed.

(** *** The calls of [process] *)

Lemma validateBases_events (bases : list GardenPlugin) (c : ProviderConfig) (st : State) :
  exists evs,
    trace (snd (validateBases garden bases c st)) = trace st ++ evs
    /\ Forall (fun ev => isValidate ev = true) evs
    /\ (forall c', fst (validateBases garden bases c st) = inr c' ->
          length evs = length (baseSchemas bases)).
Proof.
  revert c st. induction bases as [|b bases IH]; intros c st.
  - exists []. simpl. rewrite app_nil_r. split_and!; done.
  - destruct (configSchema b) as [schema|] eqn:Hb.
    + rewrite (validateBases_step garden b schema bases c st Hb).
      unfold baseSchemas. simpl. rewrite Hb. simpl.
      destruct (validateWithPath (omitPath c) (unknown schema true) (projectRoot garden)
                  (projectRoot garden) (baseConfigType b)) as [e|c1].
      * eexists [_]. simpl. split_and!; [done | by constructor | done].
      * destruct (IH c1 (record (EvValidate (omitPath c) (unknown schema true)
                                   (baseConfigType b)) st)) as (evs & Htr & Hall & Hlen).
        eexists (_ :: evs). split_and!.
        -- rewrite Htr. simpl. by rewrite <- app_assoc.
        -- by constructor.
        -- intros c' Hc'. simpl. f_equal. by apply (Hlen c').
    + rewrite (validateBases_skip garden b bases c Hb).
      unfold baseSchemas. simpl. rewrite Hb. simpl. apply IH.
Qed.

Lemma validateBases_no_schemas (bases : list GardenPlugin) (c : ProviderConfig) (st : State) :
  Forall (fun b => configSchema b = None) bases ->
  validateBases garden bases c st = (inr c, st).
Proof.
  induction 1 as [|b bases Hb _ IH]; [done|].
  by rewrite (validateBases_skip garden b bases c Hb).
Qed.

Lemma validateOutput_events (bases : list GardenPlugin)
    (configureOutput : ConfigureProviderResult) (st : State) :
  exists evs,
    trace (snd (validateOutput garden plugin bases configureOutput st)) = trace st ++ evs
    /\ Forall (fun ev => isValidate ev = true) evs
    /\ (forall c, fst (validateOutput garden plugin bases configureOutput st) = inr c ->
          length evs = S (length (baseSchemas bases))).
Proof.
  unfold validateOutput, bind, validateConfig. rewrite validate_run.
  destruct (validateWithPath _ _ _ _ _) as [e|c2].
  - eexists [_]. simpl. split_and!; [done | by constructor | done].
  - match goal with
    | |- context [validateBases garden bases ?c ?s] =>
        destruct (validateBases_events bases c s) as (evs & Htr & Hall & Hlen)
    end.
    eexists (_ :: evs). split_and!.
    + rewrite Htr. simpl. by rewrite <- app_assoc.
    + by constructor.
    + intros c Hc. simpl. f_equal. by apply (Hlen c).
Qed.

Lemma ensurePrepared_events (tmpProvider : Provider) (st : State) :
  exists rd,
    trace (snd (ensurePrepared garden forceInit tmpProvider st)) = trace st ++ rd
    /\ (rd = [EvGetEnvironmentStatus (prov_name tmpProvider)]
        \/ exists s, rd = [EvGetEnvironmentStatus (prov_name tmpProvider);
                           EvPrepareEnvironment (prov_name tmpProvider) forceInit s]).
Proof.
  unfold ensurePrepared, bind, emit, lift. simpl.
  destruct (default _ (getEnvironmentStatusHandler _ _) tmpProvider) as [e|s0]; simpl.
  - eexists. split; [reflexivity | by left].
  - destruct (forceInit || negb (ready s0)); simpl.
    + exists [EvGetEnvironmentStatus (prov_name tmpProvider);
              EvPrepareEnvironment (prov_name tmpProvider) forceInit s0].
      split; [|right; by exists s0].
      destruct (default _ (prepareEnvironmentHandler _ _) _) as [e|s1]; simpl.
      * by rewrite <- app_assoc.
      * destruct (negb (ready s1)); simpl; by rewrite <- app_assoc.
    + exists [EvGetEnvironmentStatus (prov_name tmpProvider)].
      split; [|by left]. by destruct (negb (ready s0)).
Qed.

Lemma ensurePrepared_ready (tmpProvider : Provider) (st st' : State)
    (status : EnvironmentStatus) :
  ensurePrepared garden forceInit tmpProvider st = (inr status, st') ->
  ready status = true.
Proof.
  unfold ensurePrepared, bind, emit, lift. simpl.
  destruct (default _ (getEnvironmentStatusHandler _ _) tmpProvider) as [e|s0];
    simpl; [done|].
  destruct (forceInit || negb (ready s0)); simpl.
  - destruct (default _ (prepareEnvironmentHandler _ _) _) as [e|s1]; simpl; [done|].
    destruct (ready s1) eqn:Hr; simpl; [by intros [= <- _] | done].
  - destruct (ready s0) eqn:Hr; simpl; [by intros [= <- _] | done].
Qed.

(** [process] when the memo has no provider of the name, stage by stage. *)
Lemma process_miss (dependencyResults : TaskResults) (st : State) :
  let root := projectRoot garden in
  let own := default joi_object (configSchema plugin) in
  let deps := map snd dependencyResults in
  let bases := getPluginBases plugin (keyByName (getPlugins garden)) in
  let st1 := record (EvResolveTemplateStrings config) st in
  resolvedProviders st !! name config = None ->
  process resolveTemplateStrings getPluginBases garden plugin config forceInit
    dependencyResults st
  = match resolveTemplateStrings config deps (garden_variables garden) (secrets garden) with
    | inl e => (inl e, st1)
    | inr rc =>
        let st2 := record (EvValidate (omitPath rc) own "provider configuration") st1 in
        match validateWithPath (omitPath rc) own root root "provider configuration" with
        | inl e => (inl e, st2)
        | inr c1 =>
            let params := configureParams garden deps (name rc) (setPath c1 root) in
            let st3 := record (EvConfigureProvider params) st2 in
            match configureProvider (getActionRouter garden) params with
            | inl e => (inl e, st3)
            | inr out =>
                let mods := default [] (cr_moduleConfigs out) in
                match validateOutput garden plugin bases out st3 with
                | (inl e, st4) => (inl e, st4)
                | (inr c3, st4) =>
                    match ensurePrepared garden forceInit
                            (providerFromConfig c3 deps mods defaultEnvironmentStatus)
                            st4 with
                    | (inl e, st5) => (inl e, st5)
                    | (inr status, st5) =>
                        (inr (providerFromConfig c3 deps mods status), st5)
                    end
                end
            end
        end
    end.
Proof.
  intros root own deps bases st1 Hmemo.
  unfold process. unfold bind at 1. unfold readMemo. rewrite Hmemo.
  unfold bind at 1. unfold emit at 1. simpl.
  unfold bind at 1. unfold lift at 1. fold deps.
  destruct (resolveTemplateStrings config deps (garden_variables garden) (secrets garden))
    as [e|rc]; [done|].
  unfold bind at 1. unfold validateConfig at 1. rewrite validate_run. fold own root.
  destruct (validateWithPath (omitPath rc) own root root "provider configuration")
    as [e|c1]; [done|].
  unfold bind at 1. unfold emit at 1. simpl.
  unfold bind at 1. unfold lift at 1. fold root deps. unfold configureParams. fold root.
  destruct (configureProvider (getActionRouter garden) _) as [e|out]; [done|].
  unfold validateOutput, bind. fold root own bases.
  unfold st1, record. cbn [resolvedProviders trace].
  destruct (validateConfig _ _ _ _) as [[e|a] st4]; [done|].
  destruct (validateBases _ _ _ _) as [[e|c3] st5]; [done|].
  by destruct (ensurePrepared _ _ _ _) as [[e|status] st6].
Qed.

End ResolveProvider.

Section Errors.
Context `{SchemaEngine}.
Variable garden : Garden.
Variable plugin : GardenPlugin.
Variable forceInit : bool.

Lemma validateBases_error (bases : list GardenPlugin) (c : ProviderConfig)
    (st st' : State) (e : GardenError) :
  validateBases garden bases c st = (inl e, st') ->
  exists c0 schema configType,
    validateWithPath c0 schema (projectRoot garden) (projectRoot garden) configType = inl e.
Proof.
  revert c st. induction bases as [|b bases IH]; intros c st; [done|].
  destruct (configSchema b) as [schema|] eqn:Hb.
  - rewrite (validateBases_step garden b schema bases c st Hb).
    destruct (validateWithPath (omitPath c) (unknown schema true) (projectRoot garden)
                (projectRoot garden) (baseConfigType b)) as [e0|c1] eqn:Hv.
    + intros [= <- _]. by exists (omitPath c), (unknown schema true), (baseConfigType b).
    + apply IH.
  - rewrite (validateBases_skip garden b bases c Hb). apply IH.
Qed.

Lemma validateOutput_error (bases : list GardenPlugin)
    (configureOutput : ConfigureProviderResult) (st st' : State) (e : GardenError) :
  validateOutput garden plugin bases configureOutput st = (inl e, st') ->
  exists c0 schema configType,
    validateWithPath c0 schema (projectRoot garden) (projectRoot garden) configType = inl e.
Proof.
  unfold validateOutput, bind, validateConfig. rewrite validate_run.
  destruct (validateWithPath (omitPath (cr_config configureOutput))
              (default joi_object (configSchema plugin)) (projectRoot garden)
              (projectRoot garden) "provider configuration") as [e0|c2] eqn:Hv.
  - intros [= <- _]. eauto.
  - apply validateBases_error.
Qed.

Lemma ensurePrepared_error (tmpProvider : Provider) (st st' : State) (e : GardenError) :
  ensurePrepared garden forceInit tmpProvider st = (inl e, st') ->
  let n := prov_name tmpProvider in
  let router := getActionRouter garden in
  default (fun _ => ok defaultEnvironmentStatus)
          (getEnvironmentStatusHandler router n) tmpProvider = inl e
  \/ (exists params,
        default (fun _ => ok (pe_status params))
                (prepareEnvironmentHandler router n) params = inl e)
  \/ e = notReady n.
Proof.
  unfold ensurePrepared, bind, emit, lift. simpl.
  destruct (default _ (getEnvironmentStatusHandler _ _) tmpProvider) as [e0|s0];
    simpl; [intros [= <- _]; by left|].
  destruct (forceInit || negb (ready s0)); simpl.
  - destruct (default (fun _ => ok s0) (prepareEnvironmentHandler _ _) _) as [e1|s1] eqn:Hp;
      simpl.
    + intros [= <- _]. right. left. eexists. exact Hp.
    + destruct (ready s1); simpl; [done|]. intros [= <- _]. by right; right.
  - destruct (ready s0); simpl; [done|]. intros [= <- _]. by right; right.
Qed.

Lemma validationsFailWith_omitPath (c c' : ProviderConfig) (evs : list Event)
    (e : GardenError) :
  omitPath c = omitPath c' ->
  validationsFailWith garden c evs e -> validationsFailWith garden c' evs e.
Proof. intros Hc. destruct evs as [|ev evs]; simpl; [done|]. by rewrite Hc. Qed.

(** A failure of the loop over the bases, with the calls it made. *)
Lemma validateBases_fails (bases : list GardenPlugin) (c : ProviderConfig)
    (st st' : State) (e : GardenError) :
  validateBases garden bases c st = (inl e, st') ->
  exists evs,
    st' = {| resolvedProviders := resolvedProviders st; trace := trace st ++ evs |}
    /\ validationsFailWith garden c evs e
    /\ validationArgs evs `prefix_of` baseValidations bases.
Proof.
  revert c st. induction bases as [|b bases IH]; intros c st; [done|].
  destruct (configSchema b) as [schema|] eqn:Hb.
  - rewrite (validateBases_step garden b schema bases c st Hb).
    unfold baseValidations. simpl. rewrite Hb. simpl.
    destruct (validateWithPath (omitPath c) (unknown schema true) (projectRoot garden)
                (projectRoot garden) (baseConfigType b)) as [e0|c1] eqn:Hv.
    + intros [= <- <-].
      exists [EvValidate (omitPath c) (unknown schema true) (baseConfigType b)].
      split_and!; [done| |].
      * simpl. exists (unknown schema true), (baseConfigType b). by rewrite Hv.
      * simpl. apply prefix_cons, prefix_nil.
    + intros (evs & -> & Hf & Hp)%IH.
      exists (EvValidate (omitPath c) (unknown schema true) (baseConfigType b) :: evs).
      split_and!.
      * simpl. by rewrite <- app_assoc.
      * simpl. exists (unknown schema true), (baseConfigType b). by rewrite Hv.
      * simpl. by apply prefix_cons.
  - rewrite (validateBases_skip garden b bases c Hb).
    unfold baseValidations. simpl. rewrite Hb. simpl. apply IH.
Qed.

Lemma validateOutput_fails (bases : list GardenPlugin)
    (configureOutput : ConfigureProviderResult) (st st' : State) (e : GardenError) :
  validateOutput garden plugin bases configureOutput st = (inl e, st') ->
  exists evs,
    st' = {| resolvedProviders := resolvedProviders st; trace := trace st ++ evs |}
    /\ validationsFailWith garden (cr_config configureOutput) evs e
    /\ validationArgs evs
         `prefix_of` (default joi_object (configSchema plugin), "provider configuration")
                     :: baseValidations bases.
Proof.
  unfold validateOutput, bind, validateConfig. rewrite validate_run.
  destruct (validateWithPath (omitPath (cr_config configureOutput))
              (default joi_object (configSchema plugin)) (projectRoot garden)
              (projectRoot garden) "provider configuration") as [e0|c2] eqn:Hv.
  - intros [= <- <-].
    exists [EvValidate (omitPath (cr_config configureOutput))
              (default joi_object (configSchema plugin)) "provider configuration"].
    split_and!; [done| |].
    + simpl. eexists _, _. split; [reflexivity|]. by rewrite Hv.
    + simpl. apply prefix_cons, prefix_nil.
  - intros (evs & -> & Hf & Hp)%validateBases_fails.
    exists (EvValidate (omitPath (cr_config configureOutput))
              (default joi_object (configSchema plugin)) "provider configuration" :: evs).
    split_and!.
    + simpl. by rewrite <- app_assoc.
    + simpl. eexists _, _. split; [reflexivity|]. rewrite Hv.
      apply (validationsFailWith_omitPath (setPath c2 (projectRoot garden))); [|done].
      apply omitPath_setPath.
    + simpl. by apply prefix_cons.
Qed.

(** A failure of the readiness protocol, with the calls it made. *)
Lemma ensurePrepared_fails (tmpProvider : Provider) (st st' : State) (e : GardenError) :
  ensurePrepared garden forceInit tmpProvider st = (inl e, st') ->
  let n := prov_name tmpProvider in
  let router := getActionRouter garden in
  let getStatus :=
    default (fun _ => ok defaultEnvironmentStatus) (getEnvironmentStatusHandler router n) in
  (getStatus tmpProvider = inl e /\ st' = record (EvGetEnvironmentStatus n) st)
  \/ exists s0,
       getStatus tmpProvider = inr s0
       /\ (forceInit = true \/ ready s0 = false)
       /\ st' = record (EvPrepareEnvironment n forceInit s0)
                  (record (EvGetEnvironmentStatus n) st)
       /\ let prepare :=
            default (fun _ => ok s0) (prepareEnvironmentHandler router n)
                    {| pe_ctx := tmpProvider; pe_force := forceInit; pe_status := s0 |} in
          (prepare = inl e
           \/ exists s1, prepare = inr s1 /\ ready s1 = false /\ e = notReady n).
Proof.
  unfold ensurePrepared, bind, emit, lift. simpl.
  destruct (default _ (getEnvironmentStatusHandler _ _) tmpProvider) as [e0|s0];
    simpl; [intros [= <- <-]; by left|].
  destruct (forceInit || negb (ready s0)) eqn:Hf; simpl.
  - assert (forceInit = true \/ ready s0 = false) as Hwhy.
    { destruct forceInit; [by left|]. right. simpl in Hf. by destruct (ready s0). }
    destruct (default (fun _ => ok s0) (prepareEnvironmentHandler _ _) _) as [e1|s1] eqn:Hp;
      simpl.
    + intros [= <- <-]. right. exists s0. split_and!; [done|done|done|by left].
    + destruct (ready s1) eqn:Hr; simpl; [done|]. intros [= <- <-]. right. exists s0.
      split_and!; [done|done|done|]. right. by exists s1.
  - destruct (ready s0); simpl; [done|]. by destruct forceInit.
Qed.

End Errors.

(** X1: [resolveDependencies] succeeds exactly when every explicit
    dependency of the plugin matches a configured provider, whatever the
    templates of the configuration refer to; its tasks are then those of
    the explicit dependencies, in the order of the plugin's list, followed
    by those of the references that are not explicit dependencies. *)
Theorem resolveDependencies_ok_iff `{SchemaEngine}
    (getProviderTemplateReferences : ProviderConfig -> list string)
    (getPluginBaseNames : string -> PluginMap -> list string)
    (garden : Garden) (plugin : GardenPlugin) (config : ProviderConfig)
    (forceInit : bool) :
  let matched :=
    matchDependencies getPluginBaseNames garden (keyByName (getPlugins garden)) in
  let tasksFor := subTasksFor getPluginBaseNames garden forceInit in
  let implicit :=
    filter (fun d => d ∉ dependencies plugin) (getProviderTemplateReferences config) in
  (forall d, d ∈ dependencies plugin -> matched d <> []) <->
  resolveDependencies getProviderTemplateReferences getPluginBaseNames garden plugin
    config forceInit
  = inr (flat_map tasksFor (dependencies plugin) ++ flat_map tasksFor implicit).
Proof.
  intros matched tasksFor implicit. unfold resolveDependencies.
  pose proof (checkExplicitDeps_ok getPluginBaseNames garden config
                (keyByName (getPlugins garden)) (dependencies plugin)) as Hcheck.
  fold matched in Hcheck.
  destruct (checkExplicitDeps getPluginBaseNames garden config
              (keyByName (getPlugins garden)) (dependencies plugin)) as [e|[]]; simpl.
  - split; [|discriminate]. intros Hall. apply Hcheck in Hall. discriminate.
  - split; [intros _ | intros _; by apply Hcheck].
    unfold ok. f_equal. apply flat_map_app.
Qed.

(** The own properties of [keyBy(plugins, "name")]: a name has the last
    plugin of the list that has it. *)
Lemma keyByName_lookup `{SchemaEngine} (plugins : list GardenPlugin) (n : string) :
  keyByName plugins !! n = last (filter (fun p => plugin_name p = n) plugins)
  /\ (forall p, keyByName plugins !! n = Some p -> plugin_name p = n /\ p ∈ plugins)
  /\ (keyByName plugins !! n = None <-> n ∉ map plugin_name plugins).
Proof.
  assert (keyByName plugins !! n = last (filter (fun p => plugin_name p = n) plugins))
    as Hlast.
  { unfold keyByName. etransitivity; [apply (fold_insert_lookup plugins ∅ n)|].
    destruct (last (filter (fun p => plugin_name p = n) plugins)); [done|].
    apply lookup_empty. }
  split_and!; [done| |].
  - intros p. rewrite Hlast. intros Hp.
    apply last_Some_elem_of in Hp. apply list_elem_of_filter in Hp. done.
  - rewrite Hlast, last_None. split.
    + intros Hnil Hin. apply list_elem_of_In, in_map_iff in Hin as (p & Hn & Hp).
      assert (p ∈ filter (fun p => plugin_name p = n) plugins) as Hf.
      { apply list_elem_of_filter. split; [done | by apply list_elem_of_In]. }
      rewrite Hnil in Hf. by apply elem_of_nil in Hf.
    + intros Hnin. destruct (filter (fun p => plugin_name p = n) plugins) as [|p l] eqn:Hf;
        [done|]. exfalso. apply Hnin.
      assert (p ∈ filter (fun p => plugin_name p = n) plugins) as Hp
        by (rewrite Hf; by left).
      apply list_elem_of_filter in Hp as [Hn Hp].
      apply list_elem_of_In, in_map_iff. exists p. split; [done|].
      by apply list_elem_of_In.
Qed.

(** X2: every task that [resolveDependencies] creates is for a configured
    provider that a dependency name matches, by its own name or through the
    bases of its plugin, and every such pair has its task; the task has the
    forceInit flag of the task that created it, and for plugin what
    [plugins[depName]] reads: the last loaded plugin of the name, or, when
    no loaded plugin has the name, the member of [Object.prototype] of that
    name if there is one, and [undefined] otherwise. *)
Theorem subtasks_characterised `{SchemaEngine}
    (getProviderTemplateReferences : ProviderConfig -> list string)
    (getPluginBaseNames : string -> PluginMap -> list string)
    (garden : Garden) (plugin : GardenPlugin) (config : ProviderConfig)
    (forceInit : bool) (tasks : list SubTask) (t : SubTask) :
  let plugins := keyByName (getPlugins garden) in
  resolveDependencies getProviderTemplateReferences getPluginBaseNames garden plugin
    config forceInit = inr tasks ->
  (t ∈ tasks <->
   exists depName c,
     (depName ∈ dependencies plugin
      \/ (depName ∈ getProviderTemplateReferences config
          /\ depName ∉ dependencies plugin))
     /\ c ∈ getRawProviderConfigs garden
     /\ (name c = depName \/ depName ∈ getPluginBaseNames (name c) plugins)
     /\ t = {| task_plugin := getProperty plugins depName;
               task_config := c;
               task_forceInit := forceInit |})
  /\ (forall depName,
        getProperty plugins depName =
          match last (filter (fun p => plugin_name p = depName) (getPlugins garden)) with
          | Some p => OwnPlugin p
          | None =>
              if bool_decide (depName ∈ objectPrototypeMembers)
              then InheritedMember depName
              else Undefined
          end).
Proof.
  intros plugins Hres. split.
  - revert Hres. unfold resolveDependencies. fold plugins.
    destruct (checkExplicitDeps getPluginBaseNames garden config plugins
                (dependencies plugin)) as [e|[]]; simpl; [done|].
    intros [= <-]. rewrite list_elem_of_In, in_flat_map. split.
    + intros (depName & Hdep & Ht). apply in_map_iff in Ht as (c & <- & Hc).
      apply list_elem_of_In in Hdep, Hc.
      apply list_elem_of_filter in Hc as [Hmatch Hc].
      exists depName, c. split_and!; try done.
      apply elem_of_app in Hdep as [Hdep|Hdep]; [by left|].
      apply list_elem_of_filter in Hdep as [Hn Hdep]. by right.
    + intros (depName & c & Hdep & Hc & Hmatch & ->).
      exists depName. split.
      * apply list_elem_of_In, elem_of_app.
        destruct Hdep as [Hdep|[Hdep Hn]]; [by left|].
        right. by apply list_elem_of_filter.
      * apply in_map_iff. exists c. split; [done|].
        apply list_elem_of_In. unfold matchDependencies. by apply list_elem_of_filter.
  - intros depName. unfold getProperty, plugins.
    by rewrite (proj1 (keyByName_lookup (getPlugins garden) depName)).
Qed.

(** A task for a provider whose plugin is loaded, and the plugin that a
    task gets for the dependency name [constructor], which no plugin has. *)
Lemma subtasks_characterised_witness :
  mkSubTask (OwnPlugin TaskExamples.testPlugin) TaskExamples.testConfig true
  ∈ [mkSubTask (OwnPlugin TaskExamples.testPlugin) TaskExamples.testConfig true]
  /\ getProperty (keyByName (getPlugins
                               (TaskExamples.testGarden TaskExamples.defaultRouter)))
       "constructor" = InheritedMember "constructor".
Proof.
  destruct (subtasks_characterised Collaborators.getProviderTemplateReferences
              Collaborators.getPluginBaseNames
              (TaskExamples.testGarden TaskExamples.defaultRouter)
              FailureExamples.consumerPlugin TaskExamples.dependantConfig true
              [mkSubTask (OwnPlugin TaskExamples.testPlugin) TaskExamples.testConfig true]
              (mkSubTask (OwnPlugin TaskExamples.testPlugin) TaskExamples.testConfig true))
    as [Hiff Hget].
  - vm_compute. reflexivity.
  - split.
    + apply Hiff. exists "test-plugin", TaskExamples.testConfig. split_and!.
      * left. left.
      * left.
      * left. reflexivity.
      * vm_compute. reflexivity.
    + rewrite Hget. vm_compute. reflexivity.
Defined.

Lemma calls_app `{SchemaEngine} (kind : Event -> bool) (l1 l2 : list Event) :
  calls kind (l1 ++ l2) = calls kind l1 + calls kind l2.
Proof. unfold calls. by rewrite List.filter_app, length_app. Qed.

Lemma validations_only `{SchemaEngine} (evs : list Event) :
  Forall (fun ev => isValidate ev = true) evs ->
  Forall (fun ev => isReadiness ev = false) evs
  /\ calls isConfigure evs = 0
  /\ calls isValidate evs = length evs.
Proof.
  induction 1 as [|ev evs Hev _ (IH1 & IH2 & IH3)]; [done|].
  destruct ev; try discriminate Hev.
  split_and!.
  - by constructor.
  - exact IH2.
  - unfold calls in *. simpl. by rewrite IH3.
Qed.

(** X4: a [process] that fails did not find the provider in the memo and
    fails with the error of the last call it made, which it made once and
    with the arguments the source gives it: the template engine on the
    configuration of the task; the validation of the resolved configuration
    against the schema of the plugin; [configureProvider] on the validated
    configuration with its path set; one of the validations of the
    configuration that the handler returned; the status handler or the
    prepare handler of the provider.  Every call before the failing one
    succeeded and the failing one is the last of the trace.  The one error
    of its own is the PluginError of a provider that is still not ready
    after the prepare handler returned. *)
Theorem process_error_origin `{SchemaEngine}
    (resolveTemplateStrings :
       ProviderConfig -> list Provider -> jobject -> jobject -> result ProviderConfig)
    (getPluginBases : GardenPlugin -> PluginMap -> list GardenPlugin)
    (garden : Garden) (plugin : GardenPlugin) (config : ProviderConfig)
    (forceInit : bool) (dependencyResults : TaskResults) (st st' : State)
    (e : GardenError) :
  let root := projectRoot garden in
  let own := default joi_object (configSchema plugin) in
  let deps := map snd dependencyResults in
  let bases := getPluginBases plugin (keyByName (getPlugins garden)) in
  let router := getActionRouter garden in
  let st1 := record (EvResolveTemplateStrings config) st in
  process resolveTemplateStrings getPluginBases garden plugin config forceInit
    dependencyResults st = (inl e, st') ->
  resolvedProviders st !! name config = None
  /\ ((resolveTemplateStrings config deps (garden_variables garden) (secrets garden) = inl e
       /\ st' = st1)
      \/ exists rc,
           resolveTemplateStrings config deps (garden_variables garden) (secrets garden)
           = inr rc
           /\ let st2 := record (EvValidate (omitPath rc) own "provider configuration") st1 in
              ((validateWithPath (omitPath rc) own root root "provider configuration" = inl e
                /\ st' = st2)
               \/ exists c1,
                    validateWithPath (omitPath rc) own root root "provider configuration"
                    = inr c1
                    /\ let params := configureParams garden deps (name rc) (setPath c1 root) in
                       let st3 := record (EvConfigureProvider params) st2 in
                       ((configureProvider router params = inl e /\ st' = st3)
                        \/ exists out,
                             configureProvider router params = inr out
                             /\ ((exists evs,
                                    st' = {| resolvedProviders := resolvedProviders st;
                                             trace := trace st3 ++ evs |}
                                    /\ validationsFailWith garden (cr_config out) evs e
                                    /\ validationArgs evs
                                         `prefix_of` (own, "provider configuration")
                                                     :: baseValidations bases)
                                 \/ exists c3 st4,
                                      validateOutput garden plugin bases out st3
                                      = (inr c3, st4)
                                      /\ let tmp :=
                                           providerFromConfig c3 deps
                                             (default [] (cr_moduleConfigs out))
                                             defaultEnvironmentStatus in
                                         let n := prov_name tmp in
                                         let st5 := record (EvGetEnvironmentStatus n) st4 in
                                         let getStatus :=
                                           default (fun _ => ok defaultEnvironmentStatus)
                                                   (getEnvironmentStatusHandler router n) in
                                         ((getStatus tmp = inl e /\ st' = st5)
                                          \/ exists s0,
                                               getStatus tmp = inr s0
                                               /\ (forceInit = true \/ ready s0 = false)
                                               /\ st' = record
                                                          (EvPrepareEnvironment n forceInit s0)
                                                          st5
                                               /\ let prepare :=
                                                    default (fun _ => ok s0)
                                                      (prepareEnvironmentHandler router n)
                                                      {| pe_ctx := tmp;
                                                         pe_force := forceInit;
                                                         pe_status := s0 |} in
                                                  (prepare = inl e
                                                   \/ exists s1,
                                                        prepare = inr s1
                                                        /\ ready s1 = false
                                                        /\ e = notReady n)))))).
Proof.
  intros root own deps bases router st1.
  destruct (resolvedProviders st !! name config) as [p|] eqn:Hmemo.
  { rewrite (process_memo_hit _ _ _ _ _ _ _ _ _ Hmemo). discriminate. }
  rewrite (process_miss _ _ _ _ _ _ _ _ Hmemo). cbv zeta.
  fold root own deps bases router st1.
  intros Hrun. split; [reflexivity|]. revert Hrun.
  destruct (resolveTemplateStrings config deps (garden_variables garden) (secrets garden))
    as [e1|rc]; [intros [= <- <-]; by left|].
  right. exists rc. split; [reflexivity|]. revert Hrun.
  destruct (validateWithPath (omitPath rc) own root root "provider configuration")
    as [e2|c1]; [intros [= <- <-]; by left|].
  right. exists c1. split; [reflexivity|]. revert Hrun.
  destruct (configureProvider router (configureParams garden deps (name rc) (setPath c1 root)))
    as [e3|out]; [intros [= <- <-]; by left|].
  right. exists out. split; [reflexivity|]. revert Hrun.
  destruct (validateOutput garden plugin bases out _) as [[e4|c3] st4] eqn:Hvo.
  { intros [= <- <-]. left. apply validateOutput_fails in Hvo as (evs & -> & Hf & Hp).
    exists evs. split_and!; [reflexivity|exact Hf|exact Hp]. }
  right. exists c3, st4. split; [reflexivity|]. revert Hrun.
  destruct (ensurePrepared _ _ _ _) as [[e5|status] st5] eqn:Hep; [|done].
  intros [= <- <-]. apply ensurePrepared_fails in Hep. exact Hep.
Qed.

(** A handler that fails: the error is the one of [configureProvider], on
    the parameters that [process] builds, and the trace ends with this call. *)
Lemma process_error_origin_witness :
  let garden := TaskExamples.testGarden FailureExamples.failingConfigureRouter in
  let e := FailureExamples.handlerError "configureProvider failed" in
  let st' := snd (TaskExamples.runProcess FailureExamples.failingConfigureRouter
                    TaskExamples.testPlugin TaskExamples.testConfig false
                    TaskExamples.emptyState) in
  TaskExamples.runProcess FailureExamples.failingConfigureRouter TaskExamples.testPlugin
    TaskExamples.testConfig false TaskExamples.emptyState = (inl e, st')
  /\ exists rc c1,
       configureProvider FailureExamples.failingConfigureRouter
         (configureParams garden [] (name rc) (setPath c1 (projectRoot garden))) = inl e
       /\ List.last (trace st') (EvGetEnvironmentStatus "")
          = EvConfigureProvider
              (configureParams garden [] (name rc) (setPath c1 (projectRoot garden))).
Proof.
  intros garden e st'.
  assert (TaskExamples.runProcess FailureExamples.failingConfigureRouter
            TaskExamples.testPlugin TaskExamples.testConfig false TaskExamples.emptyState
          = (inl e, st')) as Hrun by (vm_compute; reflexivity).
  split; [exact Hrun|].
  destruct (process_error_origin Collaborators.resolveTemplateStrings
              Collaborators.getPluginBases garden
              TaskExamples.testPlugin TaskExamples.testConfig false []
              TaskExamples.emptyState st' e Hrun)
    as [_ [[Hr _]|(rc & Hrc & [[Hv _]|(c1 & Hc1 & [[Hc Hst]|(out & Hout & _)])])]].
  - vm_compute in Hr. discriminate Hr.
  - vm_compute in Hrc. injection Hrc as <-. vm_compute in Hv. discriminate Hv.
  - exists rc, c1. split; [exact Hc|]. rewrite Hst. reflexivity.
  - vm_compute in Hrc. injection Hrc as <-. vm_compute in Hc1. injection Hc1 as <-.
    vm_compute in Hout. discriminate Hout.
Defined.

(** X5: the calls of one [process] come in a fixed order: first the
    template engine, the validations and [configureProvider], which is
    called at most once; then, if at all, the status handler alone or
    followed by the prepare handler.  The readiness protocol only starts
    once [configureProvider] has been called and the configuration has
    gone through its two validations against the schema of the plugin and
    one against every base that has a schema. *)
Theorem process_call_order `{SchemaEngine}
    (resolveTemplateStrings :
       ProviderConfig -> list Provider -> jobject -> jobject -> result ProviderConfig)
    (getPluginBases : GardenPlugin -> PluginMap -> list GardenPlugin)
    (garden : Garden) (plugin : GardenPlugin) (config : ProviderConfig)
    (forceInit : bool) (dependencyResults : TaskResults) (st : State) :
  exists pre rd,
    trace (snd (process resolveTemplateStrings getPluginBases garden plugin config
                  forceInit dependencyResults st))
    = trace st ++ pre ++ rd
    /\ Forall (fun ev => isReadiness ev = false) pre
    /\ calls isConfigure pre <= 1
    /\ (rd = []
        \/ (exists n, rd = [EvGetEnvironmentStatus n])
        \/ (exists n s, rd = [EvGetEnvironmentStatus n;
                               EvPrepareEnvironment n forceInit s]))
    /\ (rd <> [] ->
        calls isConfigure pre = 1
        /\ calls isValidate pre =
             2 + length (baseSchemas
                           (getPluginBases plugin (keyByName (getPlugins garden))))).
Proof.
  destruct (resolvedProviders st !! name config) as [p|] eqn:Hmemo.
  { rewrite (process_memo_hit _ _ _ _ _ _ _ _ _ Hmemo).
    exists [], []. simpl. rewrite app_nil_r. split_and!; try done.
    - unfold calls. simpl. lia.
    - by left. }
  rewrite (process_miss _ _ _ _ _ _ _ _ Hmemo). cbv zeta.
  destruct (resolveTemplateStrings config _ _ _) as [e1|rc].
  { exists [EvResolveTemplateStrings config], []. simpl. split_and!; try done.
    - by repeat constructor.
    - unfold calls. simpl. lia.
    - by left. }
  destruct (validateWithPath (omitPath rc) _ _ _ _) as [e2|c1].
  { eexists [EvResolveTemplateStrings config; EvValidate _ _ _], []. simpl.
    split_and!; try done.
    - by rewrite <- app_assoc.
    - by repeat constructor.
    - unfold calls. simpl. lia.
    - by left. }
  destruct (configureProvider _ _) as [e3|out].
  { eexists [EvResolveTemplateStrings config; EvValidate _ _ _; EvConfigureProvider _], [].
    simpl. split_and!; try done.
    - by rewrite <- !app_assoc.
    - by repeat constructor.
    - by left. }
  match goal with
  | |- context [validateOutput garden plugin ?bs out ?s3] =>
      destruct (validateOutput_events garden plugin bs out s3) as (evs & Htr & Hall & Hlen);
      destruct (validateOutput garden plugin bs out s3) as [[e4|c3] st4]
  end; simpl in Htr, Hlen;
    destruct (validations_only evs Hall) as (Hnr & Hnc & Hnv).
  { eexists ([EvResolveTemplateStrings config; EvValidate _ _ _; EvConfigureProvider _]
               ++ evs), [].
    simpl. rewrite Htr. simpl. split_and!; try done.
    - rewrite app_nil_r. by rewrite <- !app_assoc.
    - by repeat constructor.
    - unfold calls in *. simpl. lia.
    - by left. }
  match goal with
  | |- context [ensurePrepared garden forceInit ?tmp st4] =>
      destruct (ensurePrepared_events garden forceInit tmp st4) as (rd & Htr5 & Hrd);
      destruct (ensurePrepared garden forceInit tmp st4) as [[e5|status] st5]
  end; simpl in Htr5.
  all: eexists ([EvResolveTemplateStrings config; EvValidate _ _ _; EvConfigureProvider _]
                  ++ evs), rd;
    simpl; rewrite Htr5, Htr; simpl; split_and!;
    [ by rewrite <- !app_assoc
    | by repeat constructor
    | unfold calls in *; simpl; lia
    | destruct Hrd as [->|[s ->]]; [right; left; eauto | right; right; eauto]
    | intros _; unfold calls in *; simpl; rewrite Hnv, Hnc, (Hlen c3 eq_refl); done ].
Qed.

(** X6: when the template engine, the first validation or
    [configureProvider] fails, [process] fails with that error and calls
    nothing further: a configuration that does not validate never reaches
    the handler, and a handler that raised is not called again. *)
Theorem early_failure_stops `{SchemaEngine}
    (resolveTemplateStrings :
       ProviderConfig -> list Provider -> jobject -> jobject -> result ProviderConfig)
    (getPluginBases : GardenPlugin -> PluginMap -> list GardenPlugin)
    (garden : Garden) (plugin : GardenPlugin) (config : ProviderConfig)
    (forceInit : bool) (dependencyResults : TaskResults) (st : State) :
  let root := projectRoot garden in
  let own := default joi_object (configSchema plugin) in
  let deps := map snd dependencyResults in
  let run := process resolveTemplateStrings getPluginBases garden plugin config
               forceInit dependencyResults st in
  let resolved :=
    resolveTemplateStrings config deps (garden_variables garden) (secrets garden) in
  resolvedProviders st !! name config = None ->
  (forall e, resolved = inl e ->
     run = (inl e, record (EvResolveTemplateStrings config) st))
  /\ (forall rc e,
        resolved = inr rc ->
        validateWithPath (omitPath rc) own root root "provider configuration" = inl e ->
        run = (inl e, record (EvValidate (omitPath rc) own "provider configuration")
                        (record (EvResolveTemplateStrings config) st)))
  /\ (forall rc c1 e,
        resolved = inr rc ->
        validateWithPath (omitPath rc) own root root "provider configuration" = inr c1 ->
        configureProvider (getActionRouter garden)
          (configureParams garden deps (name rc) (setPath c1 root)) = inl e ->
        run = (inl e,
               record (EvConfigureProvider
                         (configureParams garden deps (name rc) (setPath c1 root)))
                 (record (EvValidate (omitPath rc) own "provider configuration")
                    (record (EvResolveTemplateStrings config) st)))).
Proof.
  intros root own deps run resolved Hmemo. unfold run, resolved.
  rewrite (process_miss _ _ _ _ _ _ _ _ Hmemo). cbv zeta. fold root own deps.
  split_and!.
  - intros e ->. done.
  - intros rc e -> ->. done.
  - intros rc c1 e -> -> ->. done.
Qed.

Lemma early_failure_stops_witness :
  process FailureExamples.failingTemplates Collaborators.getPluginBases
    (TaskExamples.testGarden TaskExamples.defaultRouter) TaskExamples.testPlugin
    TaskExamples.testConfig false [] TaskExamples.emptyState
  = (inl (mkError ConfigurationError "Could not find key" []),
     record (EvResolveTemplateStrings TaskExamples.testConfig) TaskExamples.emptyState).
Proof.
  exact (proj1 (early_failure_stops FailureExamples.failingTemplates
                  Collaborators.getPluginBases
                  (TaskExamples.testGarden TaskExamples.defaultRouter)
                  TaskExamples.testPlugin TaskExamples.testConfig false []
                  TaskExamples.emptyState eq_refl) _ eq_refl).
Defined.

(** X7: a provider that [process] resolves (not one taken from the memo)
    is ready; it is named after its final configuration, depends on the
    outputs of [dependencyResults] in their order, and has the module
    configs that [configureProvider] returned, none when it returned no
    list. *)
Theorem resolved_provider_invariants `{SchemaEngine}
    (resolveTemplateStrings :
       ProviderConfig -> list Provider -> jobject -> jobject -> result ProviderConfig)
    (getPluginBases : GardenPlugin -> PluginMap -> list GardenPlugin)
    (garden : Garden) (plugin : GardenPlugin) (config : ProviderConfig)
    (forceInit : bool) (dependencyResults : TaskResults) (st st' : State)
    (p : Provider) :
  resolvedProviders st !! name config = None ->
  process resolveTemplateStrings getPluginBases garden plugin config forceInit
    dependencyResults st = (inr p, st') ->
  ready (prov_status p) = true
  /\ prov_name p = name (prov_config p)
  /\ prov_dependencies p = map snd dependencyResults
  /\ exists params configureOutput,
       configureProvider (getActionRouter garden) params = inr configureOutput
       /\ cp_dependencies params = map snd dependencyResults
       /\ prov_moduleConfigs p = default [] (cr_moduleConfigs configureOutput).
Proof.
  intros Hmemo. rewrite (process_miss _ _ _ _ _ _ _ _ Hmemo). cbv zeta.
  destruct (resolveTemplateStrings config _ _ _) as [e1|rc]; [done|].
  destruct (validateWithPath (omitPath rc) _ _ _ _) as [e2|c1]; [done|].
  destruct (configureProvider _ _) as [e3|out] eqn:Hc; [done|].
  destruct (validateOutput _ _ _ _ _) as [[e4|c3] st4]; [done|].
  destruct (ensurePrepared _ _ _ _) as [[e5|status] st5] eqn:Hep; [done|].
  intros [= <- _]. simpl. split_and!; try done.
  - by apply ensurePrepared_ready in Hep.
  - eexists _, out. split; [exact Hc|]. done.
Qed.

Lemma resolved_provider_invariants_witness :
  ready (prov_status TaskExamples.resolvedTestProvider) = true
  /\ prov_dependencies TaskExamples.resolvedTestProvider = [].
Proof.
  assert (exists st',
            TaskExamples.runProcess TaskExamples.defaultRouter TaskExamples.testPlugin
              TaskExamples.testConfig false TaskExamples.emptyState
            = (inr TaskExamples.resolvedTestProvider, st'))
    as [st' Hrun] by (eexists; vm_compute; reflexivity).
  destruct (resolved_provider_invariants Collaborators.resolveTemplateStrings
              Collaborators.getPluginBases
              (TaskExamples.testGarden TaskExamples.defaultRouter)
              TaskExamples.testPlugin TaskExamples.testConfig false []
              TaskExamples.emptyState st' TaskExamples.resolvedTestProvider
              eq_refl Hrun) as (Hready & _ & Hdeps & _).
  split; [exact Hready | exact Hdeps].
Defined.

(** X8: when no base of the plugin has a schema, the configuration of the
    resolved provider is what the second validation against the schema of
    the plugin gave back, with [path] set to the root of the project. *)
Theorem resolved_config_path `{SchemaEngine}
    (resolveTemplateStrings :
       ProviderConfig -> list Provider -> jobject -> jobject -> result ProviderConfig)
    (getPluginBases : GardenPlugin -> PluginMap -> list GardenPlugin)
    (garden : Garden) (plugin : GardenPlugin) (config : ProviderConfig)
    (forceInit : bool) (dependencyResults : TaskResults) (st st' : State)
    (p : Provider) :
  Forall (fun b => configSchema b = None)
         (getPluginBases plugin (keyByName (getPlugins garden))) ->
  resolvedProviders st !! name config = None ->
  process resolveTemplateStrings getPluginBases garden plugin config forceInit
    dependencyResults st = (inr p, st') ->
  obj_get "path" (settings (prov_config p)) = Some (JStr (projectRoot garden))
  /\ exists params configureOutput c2,
       configureProvider (getActionRouter garden) params = inr configureOutput
       /\ validateWithPath (omitPath (cr_config configureOutput))
            (default joi_object (configSchema plugin))
            (projectRoot garden) (projectRoot garden) "provider configuration" = inr c2
       /\ prov_config p = setPath c2 (projectRoot garden).
Proof.
  intros Hbases Hmemo. rewrite (process_miss _ _ _ _ _ _ _ _ Hmemo). cbv zeta.
  destruct (resolveTemplateStrings config _ _ _) as [e1|rc]; [done|].
  destruct (validateWithPath (omitPath rc) _ _ _ _) as [e2|c1]; [done|].
  destruct (configureProvider _ _) as [e3|out] eqn:Hc; [done|].
  unfold validateOutput, bind, validateConfig. rewrite validate_run.
  destruct (validateWithPath (omitPath (cr_config out)) _ _ _ _) as [e4|c2] eqn:Hv;
    [done|].
  rewrite (validateBases_no_schemas garden _ _ _ Hbases).
  destruct (ensurePrepared _ _ _ _) as [[e5|status] st5]; [done|].
  intros [= <- _]. simpl. split.
  - rewrite obj_get_set. by rewrite decide_True.
  - eexists _, out, c2. split; [exact Hc|]. split; [exact Hv | done].
Qed.

Lemma resolved_config_path_witness :
  exists p st',
    TaskExamples.runProcess TaskExamples.defaultRouter FailureExamples.plainPlugin
      TaskExamples.dependantConfig false TaskExamples.emptyState = (inr p, st')
    /\ obj_get "path" (settings (prov_config p)) = Some (JStr "/tmp/foo").
Proof.
  assert (exists p st',
            TaskExamples.runProcess TaskExamples.defaultRouter FailureExamples.plainPlugin
              TaskExamples.dependantConfig false TaskExamples.emptyState = (inr p, st'))
    as (p & st' & Hrun) by (eexists; eexists; vm_compute; reflexivity).
  exists p, st'. split; [exact Hrun|].
  refine (proj1 (resolved_config_path Collaborators.resolveTemplateStrings
                   Collaborators.getPluginBases
                   (TaskExamples.testGarden TaskExamples.defaultRouter)
                   FailureExamples.plainPlugin TaskExamples.dependantConfig false []
                   TaskExamples.emptyState st' p _ eq_refl Hrun)).
  vm_compute. constructor.
Defined.

(** X9: for a plugin without a prepare handler the status that the status
    handler reported is final: a status that is ready is returned, forced
    init or not, and a status that is not ready fails with the PluginError
    of the provider. *)
Theorem no_prepare_handler `{SchemaEngine}
    (garden : Garden) (forceInit : bool) (tmpProvider : Provider) (st : State)
    (s0 : EnvironmentStatus) :
  let n := prov_name tmpProvider in
  prepareEnvironmentHandler (getActionRouter garden) n = None ->
  default (fun _ => ok defaultEnvironmentStatus)
          (getEnvironmentStatusHandler (getActionRouter garden) n) tmpProvider = inr s0 ->
  fst (ensurePrepared garden forceInit tmpProvider st)
  = if ready s0 then inr s0 else inl (notReady n).
Proof.
  intros n Hnone Hstatus. unfold ensurePrepared, bind, emit, lift. simpl.
  fold n. rewrite Hstatus, Hnone. simpl.
  destruct forceInit; destruct (ready s0) eqn:Hr; simpl;
    unfold ok, ret, fail; simpl; rewrite ?Hr; reflexivity.
Qed.

Lemma no_prepare_handler_witness :
  fst (ensurePrepared (TaskExamples.testGarden FailureExamples.statusOnlyRouter) true
         TaskExamples.resolvedTestProvider TaskExamples.emptyState)
  = inl (notReady "test-plugin").
Proof.
  exact (no_prepare_handler (TaskExamples.testGarden FailureExamples.statusOnlyRouter)
           true TaskExamples.resolvedTestProvider TaskExamples.emptyState
           (mkStatus false []) eq_refl eq_refl).
Defined.

(** X10: when the status handler raises, [ensurePrepared] fails with its
    error and the prepare handler is not called, forced init or not. *)
Theorem status_handler_error `{SchemaEngine}
    (garden : Garden) (forceInit : bool) (tmpProvider : Provider) (st : State)
    (e : GardenError) :
  default (fun _ => ok defaultEnvironmentStatus)
          (getEnvironmentStatusHandler (getActionRouter garden) (prov_name tmpProvider))
    tmpProvider = inl e ->
  ensurePrepared garden forceInit tmpProvider st
  = (inl e, record (EvGetEnvironmentStatus (prov_name tmpProvider)) st).
Proof.
  intros Hs. unfold ensurePrepared, bind, emit, lift. simpl. by rewrite Hs.
Qed.

Lemma status_handler_error_witness :
  ensurePrepared (TaskExamples.testGarden FailureExamples.failingStatusRouter) true
    TaskExamples.resolvedTestProvider TaskExamples.emptyState
  = (inl (FailureExamples.handlerError "getEnvironmentStatus failed"),
     record (EvGetEnvironmentStatus "test-plugin") TaskExamples.emptyState).
Proof.
  exact (status_handler_error
           (TaskExamples.testGarden FailureExamples.failingStatusRouter) true
           TaskExamples.resolvedTestProvider TaskExamples.emptyState
           (FailureExamples.handlerError "getEnvironmentStatus failed") eq_refl).
Defined.

Lemma omitPath_no_path (c : ProviderConfig) : obj_get "path" (settings (omitPath c)) = None.
Proof. unfold omitPath. simpl. rewrite obj_get_delete. by rewrite decide_True. Qed.

Lemma validateBases_wellFormed `{SchemaEngine} (garden : Garden)
    (bases : list GardenPlugin) (c : ProviderConfig) (st : State) :
  exists evs,
    trace (snd (validateBases garden bases c st)) = trace st ++ evs
    /\ Forall (wellFormedCall (projectRoot garden)) evs.
Proof.
  revert c st. induction bases as [|b bases IH]; intros c st.
  - exists []. simpl. by rewrite app_nil_r.
  - destruct (configSchema b) as [schema|] eqn:Hb.
    + rewrite (validateBases_step garden b schema bases c st Hb).
      destruct (validateWithPath (omitPath c) (unknown schema true) (projectRoot garden)
                  (projectRoot garden) (baseConfigType b)) as [e|c1].
      * eexists [_]. simpl. split; [done|]. constructor; [|done]. apply omitPath_no_path.
      * destruct (IH c1 (record (EvValidate (omitPath c) (unknown schema true)
                                   (baseConfigType b)) st)) as (evs & Htr & Hall).
        eexists (_ :: evs). split.
        -- rewrite Htr. simpl. by rewrite <- app_assoc.
        -- constructor; [apply omitPath_no_path | done].
    + rewrite (validateBases_skip garden b bases c Hb). apply IH.
Qed.

(** X16: in every run of [process], each validation is given a
    configuration without a [path] key, and [configureProvider] is given
    the validated configuration with [path] set to the root of the
    project. *)
Theorem calls_well_formed `{SchemaEngine}
    (resolveTemplateStrings :
       ProviderConfig -> list Provider -> jobject -> jobject -> result ProviderConfig)
    (getPluginBases : GardenPlugin -> PluginMap -> list GardenPlugin)
    (garden : Garden) (plugin : GardenPlugin) (config : ProviderConfig)
    (forceInit : bool) (dependencyResults : TaskResults) (st : State) :
  exists evs,
    trace (snd (process resolveTemplateStrings getPluginBases garden plugin config
                  forceInit dependencyResults st))
    = trace st ++ evs
    /\ Forall (wellFormedCall (projectRoot garden)) evs.
Proof.
  destruct (resolvedProviders st !! name config) as [p|] eqn:Hmemo.
  { rewrite (process_memo_hit _ _ _ _ _ _ _ _ _ Hmemo).
    exists []. simpl. by rewrite app_nil_r. }
  rewrite (process_miss _ _ _ _ _ _ _ _ Hmemo). cbv zeta.
  assert (forall c, obj_get "path" (settings (setPath c (projectRoot garden)))
                    = Some (JStr (projectRoot garden))) as Hset.
  { intros c. simpl. rewrite obj_get_set. by rewrite decide_True. }
  destruct (resolveTemplateStrings config _ _ _) as [e1|rc].
  { exists [EvResolveTemplateStrings config]. simpl. split; [done|]. by repeat constructor. }
  destruct (validateWithPath (omitPath rc) _ _ _ _) as [e2|c1].
  { eexists [EvResolveTemplateStrings config; EvValidate _ _ _]. simpl. split.
    - by rewrite <- app_assoc.
    - repeat constructor. apply omitPath_no_path. }
  set (own := default joi_object (configSchema plugin)).
  set (head := [EvResolveTemplateStrings config;
                EvValidate (omitPath rc) own "provider configuration";
                EvConfigureProvider
                  (configureParams garden (map snd dependencyResults) (name rc)
                     (setPath c1 (projectRoot garden)))]).
  assert (Forall (wellFormedCall (projectRoot garden)) head) as Hhead.
  { repeat constructor; [apply omitPath_no_path | apply Hset]. }
  destruct (configureProvider _ _) as [e3|out].
  { exists head. split; [|exact Hhead]. simpl. by rewrite <- !app_assoc. }
  unfold validateOutput, bind, validateConfig. rewrite validate_run.
  set (second := EvValidate (omitPath (cr_config out)) own "provider configuration").
  assert (wellFormedCall (projectRoot garden) second) as Hsecond
    by apply omitPath_no_path.
  destruct (validateWithPath (omitPath (cr_config out)) _ _ _ _) as [e4|c2].
  { exists (head ++ [second]). split.
    - simpl. by rewrite <- !app_assoc.
    - apply Forall_app. split; [exact Hhead|]. by constructor. }
  match goal with
  | |- context [validateBases garden ?bs ?c ?s] =>
      destruct (validateBases_wellFormed garden bs c s) as (evs & Htr & Hall);
      destruct (validateBases garden bs c s) as [[e5|c3] st5]
  end; simpl in Htr.
  { exists (head ++ [second] ++ evs). split.
    - simpl. rewrite Htr. simpl. by rewrite <- !app_assoc.
    - apply Forall_app. split; [exact Hhead|]. by constructor. }
  match goal with
  | |- context [ensurePrepared garden forceInit ?tmp st5] =>
      destruct (ensurePrepared_events garden forceInit tmp st5) as (rd & Htr6 & Hrd);
      destruct (ensurePrepared garden forceInit tmp st5) as [[e6|status] st6]
  end; simpl in Htr6.
  all: exists (head ++ [second] ++ evs ++ rd); split;
    [ simpl; rewrite Htr6, Htr; simpl; by rewrite <- !app_assoc
    | apply Forall_app; split; [exact Hhead|];
      constructor; [exact Hsecond|];
      apply Forall_app; split; [done|];
      destruct Hrd as [->|[s ->]]; by repeat constructor ].
Qed.

End TaskMoreFacts.


(** ** Environment selectors *)

Module SelectorFacts.
Import Json Project SelectorSyntax EnvironmentFacts.

Lemma splitOn_nonempty (sep : Ascii.ascii) (s : string) : splitOn sep s <> [].
Proof.
  destruct s as [|c s]; simpl; [done|].
  destruct (decide (c = sep)); [done|]. by destruct (splitOn sep s).
Qed.

Lemma length_splitOn (sep : Ascii.ascii) (s : string) :
  length (splitOn sep s) = S (countChar sep s).
Proof.
  induction s as [|c s IH]; simpl; [done|].
  destruct (decide (c = sep)); simpl.
  - by rewrite IH.
  - pose proof (splitOn_nonempty sep s) as Hne.
    destruct (splitOn sep s) as [|seg segs]; [done|]. simpl in *. exact IH.
Qed.

Lemma splitOn_no_sep (sep : Ascii.ascii) (s : string) :
  countChar sep s = 0 -> splitOn sep s = [s].
Proof.
  induction s as [|c s IH]; simpl; [done|].
  destruct (decide (c = sep)); simpl; [done|].
  intros Hc. by rewrite IH.
Qed.

Lemma splitOn_app_sep (sep : Ascii.ascii) (a b : string) :
  countChar sep a = 0 -> splitOn sep (a +:+ String sep b) = a :: splitOn sep b.
Proof.
  induction a as [|c a IH]; simpl.
  - intros _. by rewrite decide_True.
  - destruct (decide (c = sep)); simpl; [done|].
    intros Hc. by rewrite IH.
Qed.

(** Joining the segments gives the text back. *)
Lemma joinOn_splitOn (sep : Ascii.ascii) (s : string) :
  joinOn sep (splitOn sep s) = s.
Proof.
  induction s as [|c s IH]; simpl; [done|].
  pose proof (splitOn_nonempty sep s) as Hne.
  destruct (decide (c = sep)) as [->|Hc].
  - destruct (splitOn sep s) as [|seg segs]; [done|].
    change (joinOn sep ("" :: seg :: segs)) with (String sep (joinOn sep (seg :: segs))).
    by rewrite IH.
  - destruct (splitOn sep s) as [|seg segs]; [done|].
    destruct segs as [|seg' segs]; simpl in *; by rewrite <- IH.
Qed.

Lemma label_no_dot (s : string) :
  allChars isLabelChar s = true -> countChar "."%char s = 0.
Proof.
  induction s as [|c s IH]; simpl; [done|].
  intros [Hc Hs]%andb_true_iff. rewrite (IH Hs).
  destruct (decide (c = "."%char)) as [->|]; [discriminate Hc | done].
Qed.

Lemma validLabel_no_dot (s : string) :
  isValidLabel s = true -> countChar "."%char s = 0.
Proof. unfold isValidLabel. intros [_ Hs]%andb_true_iff. by apply label_no_dot. Qed.

(** X11: a valid name parses to itself, and a valid namespace, a dot and a
    valid name parse to the name with the namespace. *)
Theorem parseEnvironment_roundtrip (e ns : string) :
  isValidLabel e = true ->
  isValidLabel ns = true ->
  parseEnvironment e = inr (e, None)
  /\ parseEnvironment (ns +:+ String "."%char e) = inr (e, Some ns).
Proof.
  intros He Hns. unfold parseEnvironment. split.
  - rewrite (splitOn_no_sep _ _ (validLabel_no_dot _ He)). simpl.
    by rewrite He.
  - rewrite (splitOn_app_sep _ _ _ (validLabel_no_dot _ Hns)).
    rewrite (splitOn_no_sep _ _ (validLabel_no_dot _ He)). simpl.
    by rewrite He, Hns.
Qed.

(** The unit tests "should correctly parse with no namespace" and "with a
    namespace". *)
Lemma parseEnvironment_roundtrip_witness :
  parseEnvironment "env" = inr ("env", None)
  /\ parseEnvironment "ns.env" = inr ("env", Some "ns").
Proof. exact (parseEnvironment_roundtrip "env" "ns" eq_refl eq_refl). Defined.

(** X12: what a selector parses to is what it is made of: the name is
    valid and is the whole selector, or the selector is the namespace,
    itself valid, a dot and the name. *)
Theorem parseEnvironment_inversion (s e : string) (ns : option string) :
  parseEnvironment s = inr (e, ns) ->
  isValidLabel e = true
  /\ match ns with
     | None => s = e
     | Some n => isValidLabel n = true /\ s = n +:+ String "."%char e
     end.
Proof.
  unfold parseEnvironment. intros Hparse.
  destruct (bool_decide (2 < length (splitOn "."%char s))); [done|].
  destruct (forallb isValidLabel (splitOn "."%char s)) eqn:Hvalid; simpl in Hparse;
    [|done].
  pose proof (joinOn_splitOn "."%char s) as Hjoin.
  destruct (splitOn "."%char s) as [|a [|b [|c l]]]; try done.
  - injection Hparse as <- <-. simpl in *.
    apply andb_true_iff in Hvalid as [Ha _]. by split.
  - injection Hparse as <- <-. simpl in *.
    apply andb_true_iff in Hvalid as [Ha Hb].
    apply andb_true_iff in Hb as [Hb _]. by split.
Qed.

Lemma parseEnvironment_inversion_witness :
  isValidLabel "default" = true
  /\ (isValidLabel "foo" = true /\ "foo.default" = "foo" +:+ String "."%char "default").
Proof.
  exact (parseEnvironment_inversion "foo.default" "default" (Some "foo") eq_refl).
Defined.

(** X13: a selector with more than one dot is refused with "may only
    contain a single delimiter"; one with at most one dot and a segment
    that is not a valid name is refused with "must be a valid environment
    name or <namespace>.<environment>"; every refusal is a
    ConfigurationError whose message has the selector in it. *)
Theorem parseEnvironment_refusals (s : string) :
  (2 <= countChar "."%char s ->
   parseEnvironment s
   = inl (invalidEnvironment s "may only contain a single delimiter"))
  /\ (countChar "."%char s < 2 ->
      forallb isValidLabel (splitOn "."%char s) = false ->
      parseEnvironment s
      = inl (invalidEnvironment s
               "must be a valid environment name or <namespace>.<environment>"))
  /\ (forall err, parseEnvironment s = inl err ->
        errType err = ConfigurationError
        /\ message err = "Invalid environment specified (" +:+ s +:+ "): " +:+
                         (if bool_decide (2 <= countChar "."%char s)
                          then "may only contain a single delimiter"
                          else "must be a valid environment name or " +:+
                               "<namespace>.<environment>")).
Proof.
  unfold parseEnvironment. rewrite length_splitOn.
  pose proof (splitOn_nonempty "."%char s) as Hne.
  pose proof (length_splitOn "."%char s) as Hlen.
  split_and!.
  - intros Hc. rewrite bool_decide_eq_true_2 by lia. done.
  - intros Hc Hv. rewrite bool_decide_eq_false_2 by lia. by rewrite Hv.
  - intros err. destruct (decide (2 <= countChar "."%char s)) as [Hc|Hc].
    + rewrite bool_decide_eq_true_2 by lia.
      rewrite (bool_decide_eq_true_2 (2 <= _)) by done. by intros [= <-].
    + rewrite bool_decide_eq_false_2 by lia.
      rewrite (bool_decide_eq_false_2 (2 <= _)) by done.
      destruct (forallb isValidLabel (splitOn "."%char s)); simpl; [|by intros [= <-]].
      destruct (splitOn "."%char s) as [|a [|b [|c l]]]; try done.
      simpl in Hlen. lia.
Qed.

(** The unit test "should throw if string contains more than two
    segments". *)
Lemma parseEnvironment_refusals_witness :
  parseEnvironment "a.b.c"
  = inl (invalidEnvironment "a.b.c" "may only contain a single delimiter").
Proof. exact (proj1 (parseEnvironment_refusals "a.b.c") (le_n 2)). Defined.

Lemma string_app_empty_r (a : string) : a +:+ "" = a.
Proof. induction a as [|ch a IH]; [done|]. by rewrite string_app_cons, IH. Qed.

Lemma findEnvironment_None (environment : string) (envs : list EnvironmentConfig) :
  environment ∉ map env_name envs -> findEnvironment environment envs = None.
Proof.
  intros Hnin. unfold findEnvironment.
  destruct (list_find (fun e => env_name e = environment) envs) as [[i e]|] eqn:Hfind;
    [|done].
  exfalso. apply list_find_Some in Hfind as (Hi & Hn & _).
  apply Hnin. apply list_elem_of_In, in_map_iff. exists e. split; [done|].
  apply list_elem_of_In. by eapply list_elem_of_lookup_2.
Qed.

(** X14: a selector that parses to an environment that the project does
    not declare is refused with a ParameterError that names the
    environment. *)
Theorem unknown_environment
    (fs : string -> string -> option jobject) (defaultVarfilePath : string)
    (defaultEnvVarfilePath : string -> string)
    (config : ProjectConfig) (envString environment : string) (ns : option string) :
  parseEnvironment envString = inr (environment, ns) ->
  environment ∉ map env_name (proj_environments config) ->
  exists err,
    pickEnvironment fs defaultVarfilePath defaultEnvVarfilePath config envString = inl err
    /\ errType err = ParameterError
    /\ mentions (message err) environment.
Proof.
  intros Hparse Hnin. unfold pickEnvironment. rewrite Hparse. simpl.
  rewrite (findEnvironment_None _ _ Hnin). eexists. split; [reflexivity|].
  split; [done|]. simpl. do 3 apply mentions_app_r. exists "", "".
  by rewrite string_app_empty_r.
Qed.

(** The unit test "should throw if selected environment isn't
    configured". *)
Lemma unknown_environment_witness :
  exists err,
    pickEnvironment Examples.noVarfiles Examples.defaultVarfilePath
      Examples.defaultEnvVarfilePath Examples.emptyProject "foo" = inl err
    /\ errType err = ParameterError
    /\ mentions (message err) "foo".
Proof.
  apply (unknown_environment Examples.noVarfiles Examples.defaultVarfilePath
           Examples.defaultEnvVarfilePath Examples.emptyProject "foo" "foo" None eq_refl).
  simpl. intros Hin. apply elem_of_cons in Hin as [Hin|Hin]; [discriminate Hin|].
  apply elem_of_nil in Hin. destruct Hin.
Defined.

(** X15: for a selector that parses, an environment that exists and
    varfiles that load, the namespacing policy decides: [required] without
    a namespace and [disabled] with one are refused with a
    ConfigurationError and the messages of the unit tests; [optional], or
    no policy, accepts the selector with or without a namespace, and the
    result has the namespace of the selector. *)
Theorem namespacing_policy
    (fs : string -> string -> option jobject) (defaultVarfilePath : string)
    (defaultEnvVarfilePath : string -> string)
    (config : ProjectConfig) (envString environment : string) (ns : option string)
    (e : EnvironmentConfig) (pv ev : jobject) :
  let pick := pickEnvironment fs defaultVarfilePath defaultEnvVarfilePath config envString in
  parseEnvironment envString = inr (environment, ns) ->
  findEnvironment environment (proj_environments config) = Some e ->
  loadConfiguredVarfile fs (proj_path config) (proj_varfile config) defaultVarfilePath
    = inr pv ->
  loadConfiguredVarfile fs (proj_path config) (env_varfile e)
    (defaultEnvVarfilePath environment) = inr ev ->
  (env_namespacing e = Some NsRequired -> ns = None ->
     exists err, pick = inl err
                 /\ errType err = ConfigurationError
                 /\ message err = "Environment " +:+ environment +:+
                                  " requires a namespace, but none was specified.")
  /\ (forall n, env_namespacing e = Some NsDisabled -> ns = Some n ->
        exists err, pick = inl err
                    /\ errType err = ConfigurationError
                    /\ message err = "Environment " +:+ environment +:+
                                     " does not allow namespacing, but namespace '" +:+
                                     n +:+ "' was specified.")
  /\ (env_namespacing e = None \/ env_namespacing e = Some NsOptional
      \/ (env_namespacing e = Some NsRequired /\ ns <> None)
      \/ (env_namespacing e = Some NsDisabled /\ ns = None) ->
      exists r, pick = inr r
                /\ namespace r = ns
                /\ environmentName r = environment
                /\ production r = default false (env_production e)).
Proof.
  intros pick Hparse He Hpv Hev. unfold pick, pickEnvironment.
  rewrite Hparse. simpl. rewrite He. split_and!.
  - intros -> ->. simpl. eexists. split; [reflexivity|]. done.
  - intros n -> ->. simpl. eexists. split; [reflexivity|]. done.
  - intros Hpol.
    assert (checkNamespacing environment (env_namespacing e) ns = inr tt) as ->.
    { destruct Hpol as [->|[->|[[-> Hns]|[-> ->]]]]; try done; by destruct ns. }
    simpl. rewrite Hpv. simpl. rewrite Hev. simpl. eexists. split; [reflexivity|]. done.
Qed.

(** The unit test "should throw if environment requires namespace but none
    is specified". *)
Lemma namespacing_policy_witness :
  exists err,
    pickEnvironment Examples.noVarfiles Examples.defaultVarfilePath
      Examples.defaultEnvVarfilePath
      (Examples.testProject
         [mkEnvironmentConfig "default" (Some NsRequired) None None None []] [] None [])
      "default" = inl err
    /\ errType err = ConfigurationError
    /\ message err = "Environment default requires a namespace, but none was specified.".
Proof.
  exact (proj1 (namespacing_policy Examples.noVarfiles Examples.defaultVarfilePath
                  Examples.defaultEnvVarfilePath
                  (Examples.testProject
                     [mkEnvironmentConfig "default" (Some NsRequired) None None None []]
                     [] None [])
                  "default" "default" None
                  (mkEnvironmentConfig "default" (Some NsRequired) None None None [])
                  [] [] eq_refl eq_refl eq_refl eq_refl) eq_refl eq_refl).
Defined.

End SelectorFacts.
